(** * OpenClawPlus dual-kernel routing: a shallow embedding

    The development follows the TypeScript sources of the cerebellum module:
    [types.ts] (data model and default configuration), [task-evaluator.ts]
    (the heuristic classifier), [cerebellum-kernel.ts] (the client of the local
    Ollama backend), [stats-collector.ts] (the persisted statistics) and
    [router.ts] (the dispatcher).

    Conventions of the embedding.
    - A JavaScript string is the list of its UTF-16 code units, so that
      [length] is [String.prototype.length] and indices are those of the
      source.
    - A JavaScript [number] is a binary64 float ([PrimFloat.float]) wherever
      the code does fractional arithmetic or reads a number that a caller or
      a file supplies, the running totals of the statistics among them;
      quantities that the code only ever builds from integer literals, array
      lengths and [+ 1] (the complexity score, the per-type counts of one
      snapshot, string lengths, millisecond clock readings) are integers
      ([Z] or [nat]).
    - Methods take the receiver ([self]) as their first argument.  The pure
      evaluator is a plain function; the kernel, the statistics collector and
      the router, which talk to the network, the clock and the file system,
      run in a state monad over an explicit [World]; the methods of the
      collector and of the router may moreover throw. *)

From Stdlib Require Import String Ascii.
From Stdlib Require Import DecimalString.
From Stdlib Require Import List ZArith NArith Bool Lia.
From Stdlib Require Import Floats.
Import ListNotations.

Set Warnings "-inexact-float".

(* ================================================================== *)
(** * JavaScript strings and numbers *)
(* ================================================================== *)

Module Js.

(** A string as its sequence of UTF-16 code units. *)
Definition jsstring := list N.

(** An ASCII literal of the source as a JavaScript string. *)
Definition lit (s : string) : jsstring :=
  map N_of_ascii (list_ascii_of_string s).

Definition unit_eqb (a b : N) : bool := N.eqb a b.

(** [prefix_by eq pat s]: [pat] is matched, unit by unit under [eq], by the
    first [length pat] units of [s]. *)
Fixpoint prefix_by (eq : N -> N -> bool) (pat s : jsstring) : bool :=
  match pat, s with
  | [], _ => true
  | _ :: _, [] => false
  | p :: pat', c :: s' => eq p c && prefix_by eq pat' s'
  end.

(** Index of the leftmost position of [s] at which [pat] matches. *)
Fixpoint search_by (eq : N -> N -> bool) (pat s : jsstring) {struct s}
  : option nat :=
  if prefix_by eq pat s then Some 0%nat
  else match s with
       | [] => None
       | _ :: s' => option_map S (search_by eq pat s')
       end.

(** [s.startsWith(pat)] and [s.includes(pat)]. *)
Definition startsWith (s pat : jsstring) : bool := prefix_by unit_eqb pat s.

Definition includes (s pat : jsstring) : bool :=
  match search_by unit_eqb pat s with Some _ => true | None => false end.

(** Case folding of a regular expression with the [i] flag (and without the
    [u] flag): a code unit is compared through its upper-case form, and a
    non-ASCII unit never folds to an ASCII one.  The patterns of this
    program are ASCII, so folding the ASCII letters is all that can make a
    comparison succeed. *)
Definition canonicalize (c : N) : N :=
  if (97 <=? c)%N && (c <=? 122)%N then (c - 32)%N else c.

Definition unit_eqb_ci (a b : N) : bool :=
  N.eqb (canonicalize a) (canonicalize b).

(** The result of [s.match(/pat/i)] for a literal pattern: the index of the
    leftmost match and the matched text ([m.index], [m[0]]). *)
Record RegExpMatch := mkMatch { index : nat; matched : jsstring }.

Definition match_ci (pat s : jsstring) : option RegExpMatch :=
  match search_by unit_eqb_ci pat s with
  | Some i => Some (mkMatch i (firstn (length pat) (skipn i s)))
  | None => None
  end.

(** White space and line terminators, as [String.prototype.trim] strips
    them. *)
Definition is_space (c : N) : bool :=
  ((9 <=? c) && (c <=? 13) || (c =? 32) || (c =? 160) || (c =? 5760)
   || (8192 <=? c) && (c <=? 8202) || (c =? 8232) || (c =? 8233)
   || (c =? 8239) || (c =? 8287) || (c =? 12288) || (c =? 65279))%N.

Fixpoint trimStart (s : jsstring) : jsstring :=
  match s with
  | c :: s' => if is_space c then trimStart s' else s
  | [] => []
  end.

Definition trimEnd (s : jsstring) : jsstring := rev (trimStart (rev s)).

Definition trim (s : jsstring) : jsstring := trimEnd (trimStart s).

(** [String.prototype.toLowerCase], on the code units whose lower-case form
    contains an ASCII unit: the letters A-Z, U+0130 (which becomes "i"
    followed by U+0307) and the Kelvin sign U+212A (which becomes "k").
    Every other unit is kept: its lower-case form has no unit in common
    with the texts this program searches for ("cb", the keyword tables,
    the CJK prefix), and a lowered string is only ever the receiver of
    [startsWith] and [includes]. *)
Definition lower_unit (c : N) : jsstring :=
  if (65 <=? c)%N && (c <=? 90)%N then [(c + 32)%N]
  else if (c =? 304)%N then [105%N; 775%N]
  else if (c =? 8490)%N then [107%N]
  else [c].

Definition toLowerCase (s : jsstring) : jsstring := flat_map lower_unit s.

(** [parts.join(sep)]. *)
Fixpoint join (sep : jsstring) (parts : list jsstring) : jsstring :=
  match parts with
  | [] => []
  | [p] => p
  | p :: rest => p ++ sep ++ join sep rest
  end.

(** ** Numbers *)

(** An integer as a [number]: the binary64 value nearest to it, ties to
    even, which is the integer itself below 2^53 in absolute value. *)
Definition of_Z (z : Z) : float :=
  SF2Prim (binary_normalize prec emax z 0 false).

Definition of_nat (n : nat) : float := of_Z (Z.of_nat n).

(** The decimal numeral of an integer, as a template literal interpolates
    it. *)
Definition Z_toString (z : Z) : jsstring :=
  lit (NilZero.string_of_int (Z.to_int z)).

(** [a > b], [a < b], [a <= b], [a >= b] on numbers. *)
Definition gt (a b : float) : bool := PrimFloat.ltb b a.
Definition lt (a b : float) : bool := PrimFloat.ltb a b.
Definition le (a b : float) : bool := PrimFloat.leb a b.
Definition ge (a b : float) : bool := PrimFloat.leb b a.

(** [Math.max(a, b)] and [Math.min(a, b)]: NaN is contagious and +0 is
    larger than -0. *)
Definition Math_max (a b : float) : float :=
  if PrimFloat.is_nan a || PrimFloat.is_nan b then PrimFloat.nan
  else if PrimFloat.ltb a b then b
  else if PrimFloat.ltb b a then a
  else if PrimFloat.get_sign a then b else a.

Definition Math_min (a b : float) : float :=
  if PrimFloat.is_nan a || PrimFloat.is_nan b then PrimFloat.nan
  else if PrimFloat.ltb a b then a
  else if PrimFloat.ltb b a then b
  else if PrimFloat.get_sign a then a else b.

(** [Math.round(x)]: the integer nearest to [x], ties towards +infinity;
    -0 for [-0.5 <= x < 0]; NaN, infinities, zeros and integers are
    returned unchanged.  A finite [x] is [(-1)^s * m * 2^e] exactly. *)
Definition Math_round (x : float) : float :=
  match Prim2SF x with
  | S754_finite s m e =>
      if (0 <=? e)%Z then x
      else
        let d := (2 ^ (- e))%Z in
        let twice := if s then (- (2 * Zpos m))%Z else (2 * Zpos m)%Z in
        let n := ((twice + d) / (2 * d))%Z in
        if s && (n =? 0)%Z then PrimFloat.neg_zero else of_Z n
  | _ => x
  end.

End Js.

Import Js.


(* ================================================================== *)
(** * Data model ([types.ts]) *)
(* ================================================================== *)

(** The string-literal union [TaskType]. *)
Inductive TaskType :=
| greeting | status_check | simple_qa | scheduled_task | text_summary
| format_conversion | code_generation | complex_analysis
| multi_step_planning | creative_writing | debugging | research
| keyword_triggered | unknown.

Definition TaskType_eqb (a b : TaskType) : bool :=
  match a, b with
  | greeting, greeting | status_check, status_check | simple_qa, simple_qa
  | scheduled_task, scheduled_task | text_summary, text_summary
  | format_conversion, format_conversion | code_generation, code_generation
  | complex_analysis, complex_analysis
  | multi_step_planning, multi_step_planning
  | creative_writing, creative_writing | debugging, debugging
  | research, research | keyword_triggered, keyword_triggered
  | unknown, unknown => true
  | _, _ => false
  end.

(** The string behind a [TaskType] (used when it is interpolated). *)
Definition TaskType_name (ty : TaskType) : jsstring :=
  lit match ty with
      | greeting => "greeting" | status_check => "status_check"
      | simple_qa => "simple_qa" | scheduled_task => "scheduled_task"
      | text_summary => "text_summary"
      | format_conversion => "format_conversion"
      | code_generation => "code_generation"
      | complex_analysis => "complex_analysis"
      | multi_step_planning => "multi_step_planning"
      | creative_writing => "creative_writing" | debugging => "debugging"
      | research => "research" | keyword_triggered => "keyword_triggered"
      | unknown => "unknown"
      end.

(** [types.includes(ty)] on a [TaskType[]]. *)
Definition includesType (types : list TaskType) (ty : TaskType) : bool :=
  existsb (TaskType_eqb ty) types.

Inductive Precision := high | medium | low.

(** The two kernels, ["cerebellum"] (local) and ["cerebrum"] (remote). *)
Module Target.
Inductive t := cerebellum | cerebrum.

Definition eqb (a b : t) : bool :=
  match a, b with
  | cerebellum, cerebellum | cerebrum, cerebrum => true
  | _, _ => false
  end.
End Target.

Module TaskThresholds.
Record t := mk {
  maxEstimatedTime : float;
  maxComplexity : float;
  minConfidence : float }.
End TaskThresholds.

Module StatsConfig.
Record t := mk { enabled : bool; logPath : jsstring }.
End StatsConfig.

Module CerebellumConfig.
Record t := mk {
  enabled : bool;
  provider : jsstring;
  model : jsstring;
  baseUrl : jsstring;
  thresholds : TaskThresholds.t;
  forceCerebellumFor : list TaskType;
  forceCerebrumFor : list TaskType;
  stats : StatsConfig.t }.
End CerebellumConfig.

Module TaskInfo.
Record t := mk {
  type : TaskType;
  prompt : jsstring;
  hasCode : bool;
  hasMath : bool;
  estimatedTokens : float;
  isHighFrequency : bool;
  historyLength : float;
  isScheduledTask : bool }.
End TaskInfo.

(** A template literal whose fractional holes are kept as numbers: rendering
    a binary64 value in decimal ([Number::toString], [toFixed]) is not part
    of the embedding.  A reason that interpolates no such number is a single
    [Text]. *)
Inductive Piece :=
| Text (s : jsstring)
| Num (x : float)
| Fixed (x : float) (digits : nat).

Definition Template := list Piece.

Module TaskAssessment.
Record t := mk {
  useCerebellum : bool;
  confidence : float;
  reason : Template;
  taskType : TaskType;
  estimatedTokens : float;
  estimatedTime : float;
  complexity : Z;
  precisionRequirement : Precision }.
End TaskAssessment.

Module Usage.
Record t := mk { input : Z; output : Z; total : Z }.
End Usage.

Module CerebellumResponse.
Record t := mk {
  text : jsstring;
  success : bool;
  error : option jsstring;
  model : jsstring;
  durationMs : Z;
  usage : option Usage.t }.
End CerebellumResponse.

Module RoutingDecision.
Record t := mk {
  target : Target.t;
  assessment : TaskAssessment.t;
  isManualOverride : bool;
  timestamp : Z }.
End RoutingDecision.

(** [DEFAULT_CEREBELLUM_CONFIG]. *)
Definition DEFAULT_CEREBELLUM_CONFIG : CerebellumConfig.t :=
  {| CerebellumConfig.enabled := true;
     CerebellumConfig.provider := lit "ollama";
     CerebellumConfig.model := lit "qwen2.5:0.5b";
     CerebellumConfig.baseUrl := lit "http://127.0.0.1:11434";
     CerebellumConfig.thresholds :=
       {| TaskThresholds.maxEstimatedTime := 1200;
          TaskThresholds.maxComplexity := 4;
          TaskThresholds.minConfidence := 0.7 |};
     CerebellumConfig.forceCerebellumFor :=
       [greeting; status_check; simple_qa; scheduled_task; text_summary;
        format_conversion];
     CerebellumConfig.forceCerebrumFor :=
       [code_generation; complex_analysis; multi_step_planning;
        creative_writing; debugging; research];
     CerebellumConfig.stats :=
       {| StatsConfig.enabled := true;
          StatsConfig.logPath := lit "~/.openclaw/cerebellum-stats.json" |} |}.

(** The optional [cerebellum] section of the main configuration
    ([CerebellumOpenClawConfig] and its two sub-objects): every property may
    be missing, and a missing property is [None].  The two lists are the
    strings that the cast of [extractCerebellumConfig] takes for task
    types. *)
Module CerebellumThresholdsConfig.
Record t := mk {
  maxEstimatedTime : option float;
  maxComplexity : option float;
  minConfidence : option float }.
End CerebellumThresholdsConfig.

Module CerebellumStatsConfig.
Record t := mk { enabled : option bool; logPath : option jsstring }.
End CerebellumStatsConfig.

Module CerebellumOpenClawConfig.
Record t := mk {
  enabled : option bool;
  provider : option jsstring;
  model : option jsstring;
  baseUrl : option jsstring;
  thresholds : option CerebellumThresholdsConfig.t;
  forceCerebellumFor : option (list TaskType);
  forceCerebrumFor : option (list TaskType);
  stats : option CerebellumStatsConfig.t }.
End CerebellumOpenClawConfig.

(** The main configuration, of which only the [cerebellum] section is
    read. *)
Module OpenClawConfig.
Record t := mk { cerebellum : option CerebellumOpenClawConfig.t }.
End OpenClawConfig.

(** One property of [{ ...base, ...over }]: the later object wins where it
    has the property.  (A property that is present with the value
    [undefined] would win too; the sections modelled here have a property
    with a value or do not have it.) *)
Definition spread {A} (base : A) (over : option A) : A :=
  match over with
  | Some a => a
  | None => base
  end.

(** [section?.property]: a property of a sub-object that may be missing. *)
Definition property {A B} (section : option A) (get : A -> option B)
  : option B :=
  match section with
  | Some s => get s
  | None => None
  end.

(** [extractCerebellumConfig]: the defaults when there is no [cerebellum]
    section; otherwise the section spread over the defaults, with
    [thresholds] and [stats] merged property by property. *)
Definition extractCerebellumConfig (config : option OpenClawConfig.t)
  : CerebellumConfig.t :=
  match property config OpenClawConfig.cerebellum with
  | None => DEFAULT_CEREBELLUM_CONFIG
  | Some section =>
      let d := DEFAULT_CEREBELLUM_CONFIG in
      let dt := CerebellumConfig.thresholds d in
      let ds := CerebellumConfig.stats d in
      let t := CerebellumOpenClawConfig.thresholds section in
      let s := CerebellumOpenClawConfig.stats section in
      {| CerebellumConfig.enabled :=
           spread (CerebellumConfig.enabled d)
                  (CerebellumOpenClawConfig.enabled section);
         CerebellumConfig.provider :=
           spread (CerebellumConfig.provider d)
                  (CerebellumOpenClawConfig.provider section);
         CerebellumConfig.model :=
           spread (CerebellumConfig.model d)
                  (CerebellumOpenClawConfig.model section);
         CerebellumConfig.baseUrl :=
           spread (CerebellumConfig.baseUrl d)
                  (CerebellumOpenClawConfig.baseUrl section);
         CerebellumConfig.thresholds :=
           {| TaskThresholds.maxEstimatedTime :=
                spread (TaskThresholds.maxEstimatedTime dt)
                  (property t CerebellumThresholdsConfig.maxEstimatedTime);
              TaskThresholds.maxComplexity :=
                spread (TaskThresholds.maxComplexity dt)
                  (property t CerebellumThresholdsConfig.maxComplexity);
              TaskThresholds.minConfidence :=
                spread (TaskThresholds.minConfidence dt)
                  (property t CerebellumThresholdsConfig.minConfidence) |};
         CerebellumConfig.forceCerebellumFor :=
           spread (CerebellumConfig.forceCerebellumFor d)
                  (CerebellumOpenClawConfig.forceCerebellumFor section);
         CerebellumConfig.forceCerebrumFor :=
           spread (CerebellumConfig.forceCerebrumFor d)
                  (CerebellumOpenClawConfig.forceCerebrumFor section);
         CerebellumConfig.stats :=
           {| StatsConfig.enabled :=
                spread (StatsConfig.enabled ds)
                       (property s CerebellumStatsConfig.enabled);
              StatsConfig.logPath :=
                spread (StatsConfig.logPath ds)
                       (property s CerebellumStatsConfig.logPath) |} |}
  end.

(** [isCerebellumEnabled]. *)
Definition isCerebellumEnabled (config : option OpenClawConfig.t) : bool :=
  CerebellumConfig.enabled (extractCerebellumConfig config).

(* ================================================================== *)
(** * The task evaluator ([task-evaluator.ts]) *)
(* ================================================================== *)

(** The interface [TaskAnalysis]. *)
Module TaskAnalysis.
Record t := mk {
  hasCode : bool;
  hasMath : bool;
  hasCreative : bool;
  hasAnalysis : bool;
  hasPlanning : bool;
  isGreeting : bool;
  isStatusQuery : bool;
  detectedType : TaskType;
  promptLength : Z }.
End TaskAnalysis.

Module TaskEvaluator.

(** The two private fields; the constructor aliases [config.thresholds]. *)
Record t := mk {
  config : CerebellumConfig.t;
  thresholds : TaskThresholds.t }.

Definition new (cfg : CerebellumConfig.t) : t :=
  {| config := cfg; thresholds := CerebellumConfig.thresholds cfg |}.

(** The assessment shared by the three rules that force the local kernel
    with task type "keyword_triggered". *)
Definition keywordTriggered (why : jsstring) (task : TaskInfo.t)
  : TaskAssessment.t :=
  {| TaskAssessment.useCerebellum := true;
     TaskAssessment.confidence := 1.0;
     TaskAssessment.reason := [Text why];
     TaskAssessment.taskType := keyword_triggered;
     TaskAssessment.estimatedTokens := TaskInfo.estimatedTokens task;
     TaskAssessment.estimatedTime := 30;
     TaskAssessment.complexity := 2;
     TaskAssessment.precisionRequirement := low |}.

(** The reason of the two category rules: the task type between double
    quotes (code unit 34), followed by the name of the list. *)
Definition inListReason (ty : TaskType) (listName : string) : Template :=
  [Text (lit "Task type " ++ [34%N] ++ TaskType_name ty ++ [34%N]
         ++ lit " is in " ++ lit listName ++ lit " list")].

(** Rule 1 of [checkForcedRules]: the [<cb>...</cb>] tags.  Each of the two
    regular expressions reports its leftmost match.  When both match, the
    rule fires only if the open tag ends strictly before the close tag
    starts; when only the open tag matches, it fires. *)
Definition markerRule (task : TaskInfo.t) : option TaskAssessment.t :=
  let prompt := TaskInfo.prompt task in
  let cbStartMatch := match_ci (lit "<cb>") prompt in
  let cbEndMatch := match_ci (lit "</cb>") prompt in
  match cbStartMatch, cbEndMatch with
  | Some sm, Some em =>
      let startIndex := (index sm + List.length (matched sm))%nat in
      let endIndex := index em in
      if (startIndex <? endIndex)%nat then
        Some (keywordTriggered
          (lit "Full Cerebellum Mode: processing content within <cb>...</cb> tags")
          task)
      else None
  | Some _, None =>
      Some (keywordTriggered
        (lit "Full Cerebellum Mode: <cb> tag detected, all content processed by cerebellum")
        task)
  | None, _ => None
  end.

(** The two-character CJK word for "cerebellum", U+5C0F U+8111. *)
Definition xiaonao : jsstring := [23567%N; 33041%N].

(** The five prefixes: the CJK word, "cerebellum", and "cb" followed by a
    space, by the full-width comma U+FF0C or by an ASCII comma. *)
Definition hasTriggerPrefix (promptLower : jsstring) : bool :=
  startsWith promptLower xiaonao
  || startsWith promptLower (lit "cerebellum")
  || startsWith promptLower (lit "cb ")
  || startsWith promptLower (lit "cb" ++ [65292%N])
  || startsWith promptLower (lit "cb,").

(** Rule 2: the trigger prefix of the trimmed, lower-cased prompt. *)
Definition prefixRule (task : TaskInfo.t) : option TaskAssessment.t :=
  let promptLower := toLowerCase (trim (TaskInfo.prompt task)) in
  if hasTriggerPrefix promptLower then
    Some (keywordTriggered
            (lit "Triggered by keyword: " ++ xiaonao
             ++ lit "/Cerebellum/cb prefix") task)
  else None.

(** Rule 3: the two configured category lists, force-local first. *)
Definition categoryRules (self : t) (task : TaskInfo.t)
  : option TaskAssessment.t :=
  let ty := TaskInfo.type task in
  if includesType (CerebellumConfig.forceCerebellumFor (config self)) ty then
    Some {| TaskAssessment.useCerebellum := true;
            TaskAssessment.confidence := 1.0;
            TaskAssessment.reason := inListReason ty "forceCerebellumFor";
            TaskAssessment.taskType := ty;
            TaskAssessment.estimatedTokens := TaskInfo.estimatedTokens task;
            TaskAssessment.estimatedTime := 30;
            TaskAssessment.complexity := 2;
            TaskAssessment.precisionRequirement := low |}
  else if includesType (CerebellumConfig.forceCerebrumFor (config self)) ty
  then
    Some {| TaskAssessment.useCerebellum := false;
            TaskAssessment.confidence := 1.0;
            TaskAssessment.reason := inListReason ty "forceCerebrumFor";
            TaskAssessment.taskType := ty;
            TaskAssessment.estimatedTokens := TaskInfo.estimatedTokens task;
            TaskAssessment.estimatedTime := 300;
            TaskAssessment.complexity := 8;
            TaskAssessment.precisionRequirement := high |}
  else None.

(** What [checkForcedRules] does once the tag rule has not returned. *)
Definition afterMarkerRule (self : t) (task : TaskInfo.t)
  : option TaskAssessment.t :=
  match prefixRule task with
  | Some a => Some a
  | None => categoryRules self task
  end.

(** [checkForcedRules]: the first rule that returns wins; [None] is the
    [null] of the source. *)
Definition checkForcedRules (self : t) (task : TaskInfo.t)
  : option TaskAssessment.t :=
  match markerRule task with
  | Some a => Some a
  | None => afterMarkerRule self task
  end.

(** The keyword tables of [analyzeTask]. *)
Definition codeKeywords : list jsstring :=
  map lit ["code"; "program"; "function"; "class"; "debug"; "error"; "bug";
           "implement"; "algorithm"; "data structure"; "api"; "database";
           "refactor"; "optimize"; "performance"]%string.

Definition mathKeywords : list jsstring :=
  map lit ["calculate"; "compute"; "math"; "equation"; "formula"; "solve";
           "statistics"; "probability"; "algebra"; "calculus";
           "geometry"]%string.

Definition creativeKeywords : list jsstring :=
  map lit ["write"; "story"; "creative"; "poem"; "essay"; "article";
           "blog"; "content"; "marketing"; "copy"; "fiction"]%string.

Definition analysisKeywords : list jsstring :=
  map lit ["analyze"; "analysis"; "research"; "investigate"; "study";
           "review"; "evaluate"; "assess"; "compare"; "contrast";
           "synthesize"; "critique"]%string.

Definition planningKeywords : list jsstring :=
  map lit ["plan"; "strategy"; "roadmap"; "schedule"; "timeline";
           "project"; "steps"; "phases"; "milestone"; "goal"]%string.

Definition greetingKeywords : list jsstring :=
  map lit ["hello"; "hi"; "hey"; "good morning"; "good afternoon";
           "good evening"; "how are you"; "what's up";
           "greetings"]%string.

Definition statusKeywords : list jsstring :=
  map lit ["status"; "check"; "health"; "state"; "condition"; "progress";
           "update"; "report"; "summary"]%string.

(** [keywords.some((kw) => prompt.includes(kw))]. *)
Definition someIncluded (keywords : list jsstring) (prompt : jsstring)
  : bool :=
  existsb (fun kw => includes prompt kw) keywords.

(** The [if ... else if ...] chain of [analyzeTask] that picks the type. *)
Definition detectType (hasCode hasMath hasCreative hasAnalysis hasPlanning
                       isGreeting isStatusQuery isScheduledTask : bool)
                      (promptLength : Z) : TaskType :=
  if isGreeting && (promptLength <? 50)%Z then greeting
  else if isStatusQuery && (promptLength <? 100)%Z then status_check
  else if hasCode then code_generation
  else if hasMath then
    (if isScheduledTask then scheduled_task else complex_analysis)
  else if hasPlanning && (200 <? promptLength)%Z then multi_step_planning
  else if hasCreative && (150 <? promptLength)%Z then creative_writing
  else if hasAnalysis && (300 <? promptLength)%Z then complex_analysis
  else if (promptLength <? 150)%Z && negb hasCode && negb hasMath
  then simple_qa
  else if isScheduledTask then scheduled_task
  else unknown.

Definition analyzeTask (task : TaskInfo.t) : TaskAnalysis.t :=
  let prompt := toLowerCase (TaskInfo.prompt task) in
  let promptLength := Z.of_nat (List.length (TaskInfo.prompt task)) in
  let hasCode := someIncluded codeKeywords prompt || TaskInfo.hasCode task in
  let hasMath := someIncluded mathKeywords prompt || TaskInfo.hasMath task in
  let hasCreative := someIncluded creativeKeywords prompt in
  let hasAnalysis := someIncluded analysisKeywords prompt in
  let hasPlanning := someIncluded planningKeywords prompt in
  let isGreeting := someIncluded greetingKeywords prompt in
  let isStatusQuery := someIncluded statusKeywords prompt in
  {| TaskAnalysis.hasCode := hasCode;
     TaskAnalysis.hasMath := hasMath;
     TaskAnalysis.hasCreative := hasCreative;
     TaskAnalysis.hasAnalysis := hasAnalysis;
     TaskAnalysis.hasPlanning := hasPlanning;
     TaskAnalysis.isGreeting := isGreeting;
     TaskAnalysis.isStatusQuery := isStatusQuery;
     TaskAnalysis.detectedType :=
       detectType hasCode hasMath hasCreative hasAnalysis hasPlanning
                  isGreeting isStatusQuery (TaskInfo.isScheduledTask task)
                  promptLength;
     TaskAnalysis.promptLength := promptLength |}.

(** The table [typeComplexity]; it has no entry for "keyword_triggered". *)
Definition typeComplexity (ty : TaskType) : option Z :=
  match ty with
  | greeting => Some 1 | status_check => Some 2 | simple_qa => Some 2
  | scheduled_task => Some 3 | text_summary => Some 3
  | format_conversion => Some 2 | code_generation => Some 8
  | complex_analysis => Some 7 | multi_step_planning => Some 8
  | creative_writing => Some 6 | debugging => Some 7 | research => Some 8
  | unknown => Some 5
  | keyword_triggered => None
  end%Z.

(** [if (c) complexity += 1]. *)
Definition bump (c : bool) (complexity : Z) : Z :=
  if c then (complexity + 1)%Z else complexity.

Definition calculateComplexity (task : TaskInfo.t) (analysis : TaskAnalysis.t)
  : Z :=
  let complexity :=
    match typeComplexity (TaskAnalysis.detectedType analysis) with
    | Some c => c
    | None => 5%Z
    end in
  let complexity :=
    bump (2000 <? TaskAnalysis.promptLength analysis)%Z complexity in
  let complexity :=
    bump (5000 <? TaskAnalysis.promptLength analysis)%Z complexity in
  let complexity := bump (TaskAnalysis.hasCode analysis) complexity in
  let complexity := bump (TaskAnalysis.hasMath analysis) complexity in
  let complexity := bump (gt (TaskInfo.historyLength task) 10) complexity in
  let complexity := bump (gt (TaskInfo.historyLength task) 30) complexity in
  let complexity :=
    bump (gt (TaskInfo.estimatedTokens task) 2000) complexity in
  let complexity :=
    bump (gt (TaskInfo.estimatedTokens task) 4000) complexity in
  Z.min 10 (Z.max 1 complexity).

Definition assessPrecisionRequirement (task : TaskInfo.t)
                                      (analysis : TaskAnalysis.t)
  : Precision :=
  if TaskAnalysis.hasCode analysis || TaskAnalysis.hasMath analysis then high
  else if TaskAnalysis.hasAnalysis analysis
          || TaskAnalysis.hasCreative analysis then medium
  else if TaskType_eqb (TaskInfo.type task) simple_qa
          || TaskType_eqb (TaskInfo.type task) greeting then low
  else medium.

Definition estimateExecutionTime (self : t) (task : TaskInfo.t)
                                 (complexity : Z) : float :=
  let time := (of_Z complexity * 30)%float in
  let time :=
    if gt (TaskInfo.estimatedTokens task) 1000
    then (time + (TaskInfo.estimatedTokens task / 1000) * 60)%float
    else time in
  let time :=
    if CerebellumConfig.enabled (config self) then (time * 0.6)%float
    else time in
  Math_round time.

Definition calculateConfidence (task : TaskInfo.t)
                               (analysis : TaskAnalysis.t) (complexity : Z)
  : float :=
  let confidence := 0.5%float in
  let confidence :=
    if negb (TaskType_eqb (TaskAnalysis.detectedType analysis) unknown)
    then (confidence + 0.2)%float else confidence in
  let confidence :=
    if (complexity <=? 3)%Z then (confidence + 0.2)%float
    else if (8 <=? complexity)%Z then (confidence - 0.1)%float
    else confidence in
  let confidence :=
    if (TaskAnalysis.promptLength analysis <? 100)%Z
    then (confidence + 0.1)%float else confidence in
  let confidence :=
    if TaskInfo.isHighFrequency task then (confidence + 0.1)%float
    else confidence in
  Math_min 1 (Math_max 0 confidence).

Definition Precision_is_high (p : Precision) : bool :=
  match p with high => true | _ => false end.

Definition Precision_is_low (p : Precision) : bool :=
  match p with low => true | _ => false end.

Definition shouldUseCerebellum (self : t) (task : TaskInfo.t)
                               (complexity : Z)
                               (precisionRequirement : Precision)
                               (estimatedTime confidence : float) : bool :=
  if gt (of_Z complexity) (TaskThresholds.maxComplexity (thresholds self))
  then false
  else if gt estimatedTime
             (TaskThresholds.maxEstimatedTime (thresholds self))
  then false
  else if lt confidence (TaskThresholds.minConfidence (thresholds self))
  then false
  else if Precision_is_high precisionRequirement then false
  else if TaskInfo.isScheduledTask task && lt estimatedTime 600 then true
  else if TaskInfo.isHighFrequency task && (complexity <=? 3)%Z then true
  else (complexity <=? 5)%Z.

(** [if (c) reasons.push(r)]. *)
Definition pushIf (c : bool) (r : Template) (reasons : list Template)
  : list Template :=
  if c then reasons ++ [r] else reasons.

(** [reasons.join(", ") || fallback]: every pushed reason is non-empty, so
    the joined text is the empty (falsy) string exactly when nothing was
    pushed. *)
Fixpoint joinReasons (reasons : list Template) : Template :=
  match reasons with
  | [] => []
  | [r] => r
  | r :: rest => r ++ [Text (lit ", ")] ++ joinReasons rest
  end.

Definition joinOr (reasons : list Template) (fallback : string) : Template :=
  match reasons with
  | [] => [Text (lit fallback)]
  | _ => joinReasons reasons
  end.

Definition generateReason (self : t) (useCerebellum : bool)
                          (task : TaskInfo.t) (complexity : Z)
                          (precisionRequirement : Precision)
                          (estimatedTime confidence : float) : Template :=
  if useCerebellum then
    let reasons := [] in
    let reasons :=
      pushIf (complexity <=? 3)%Z [Text (lit "low complexity")] reasons in
    let reasons :=
      pushIf (TaskInfo.isScheduledTask task && lt estimatedTime 600)
             [Text (lit "scheduled task under 10min")] reasons in
    let reasons :=
      pushIf (TaskInfo.isHighFrequency task)
             [Text (lit "high frequency pattern")] reasons in
    let reasons :=
      pushIf (Precision_is_low precisionRequirement)
             [Text (lit "low precision requirement")] reasons in
    Text (lit "Using cerebellum: ")
      :: joinOr reasons "suitable for local model"
  else
    let th := thresholds self in
    let reasons := [] in
    let reasons :=
      pushIf (gt (of_Z complexity) (TaskThresholds.maxComplexity th))
             [Text (lit "high complexity (" ++ Z_toString complexity
                    ++ lit "/"); Num (TaskThresholds.maxComplexity th);
              Text (lit ")")] reasons in
    let reasons :=
      pushIf (gt estimatedTime (TaskThresholds.maxEstimatedTime th))
             [Text (lit "long execution time (");
              Num (Math_round (estimatedTime / 60)%float);
              Text (lit "min)")] reasons in
    let reasons :=
      pushIf (Precision_is_high precisionRequirement)
             [Text (lit "high precision requirement")] reasons in
    let reasons :=
      pushIf (lt confidence (TaskThresholds.minConfidence th))
             [Text (lit "low confidence ("); Fixed confidence 2;
              Text (lit ")")] reasons in
    Text (lit "Using cerebrum: ")
      :: joinOr reasons "task requires cloud model".

(** [evaluate]: a forced rule if one applies, the heuristic score
    otherwise. *)
Definition evaluate (self : t) (task : TaskInfo.t) : TaskAssessment.t :=
  match checkForcedRules self task with
  | Some forcedDecision => forcedDecision
  | None =>
      let analysis := analyzeTask task in
      let complexity := calculateComplexity task analysis in
      let precisionRequirement := assessPrecisionRequirement task analysis in
      let estimatedTime := estimateExecutionTime self task complexity in
      let confidence := calculateConfidence task analysis complexity in
      let useCerebellum :=
        shouldUseCerebellum self task complexity precisionRequirement
                            estimatedTime confidence in
      let reason :=
        generateReason self useCerebellum task complexity
                       precisionRequirement estimatedTime confidence in
      {| TaskAssessment.useCerebellum := useCerebellum;
         TaskAssessment.confidence := confidence;
         TaskAssessment.reason := reason;
         TaskAssessment.taskType := TaskAnalysis.detectedType analysis;
         TaskAssessment.estimatedTokens := TaskInfo.estimatedTokens task;
         TaskAssessment.estimatedTime := estimatedTime;
         TaskAssessment.complexity := complexity;
         TaskAssessment.precisionRequirement := precisionRequirement |}
  end.

End TaskEvaluator.

(** [createTaskEvaluator]. *)
Definition createTaskEvaluator (cfg : CerebellumConfig.t) : TaskEvaluator.t :=
  TaskEvaluator.new cfg.

(* ================================================================== *)
(** * The world outside the program *)
(* ================================================================== *)

(** A state monad; [S] is what a computation may read and change. *)
Definition State (S A : Type) : Type := S -> A * S.

Definition ret {S A} (a : A) : State S A := fun s => (a, s).

Definition bind {S A B} (m : State S A) (k : A -> State S B) : State S B :=
  fun s => let (a, s') := m s in k a s'.

Definition gets {S A} (f : S -> A) : State S A := fun s => (f s, s).

Definition modify {S} (f : S -> S) : State S unit := fun s => (tt, f s).

Declare Scope state_scope.
Delimit Scope state_scope with state.
Notation "x <- m ;; k" := (bind m (fun x => k))
  (at level 61, m at next level, right associativity) : state_scope.
Notation "m ;; k" := (bind m (fun _ => k))
  (at level 61, right associativity) : state_scope.
Open Scope state_scope.

(** What [catch (error)] receives: an [Error] object with its message, or
    any other value with its [String(error)]. *)
Inductive Thrown :=
| ErrorObject (message : jsstring)
| OtherValue (asString : jsstring).

(** [error instanceof Error ? error.message : String(error)]. *)
Definition errorText (e : Thrown) : jsstring :=
  match e with
  | ErrorObject message => message
  | OtherValue asString => asString
  end.

(** An operation that returns or throws. *)
Definition Outcome (A : Type) : Type := (Thrown + A)%type.

(** A computation that may throw.  The state it has reached when it throws
    stays: what an [async] method did before its promise rejects is not
    undone. *)
Definition Throwing (S A : Type) : Type := State S (Outcome A).

Definition retT {S A} (a : A) : Throwing S A := ret (inr a).

Definition throw {S A} (e : Thrown) : Throwing S A := ret (inl e).

Definition bindT {S A B} (m : Throwing S A) (k : A -> Throwing S B)
  : Throwing S B :=
  fun s =>
    let (r, s') := m s in
    match r with
    | inl e => (inl e, s')
    | inr a => k a s'
    end.

(** A computation that cannot throw, inside one that may. *)
Definition lift {S A} (m : State S A) : Throwing S A :=
  fun s => let (a, s') := m s in (inr a, s').

Declare Scope throwing_scope.
Delimit Scope throwing_scope with throwing.
Notation "x <- m ;; k" := (bindT m (fun x => k))
  (at level 61, m at next level, right associativity) : throwing_scope.
Notation "m ;; k" := (bindT m (fun _ => k))
  (at level 61, right associativity) : throwing_scope.

Inductive Method := GET | POST.

(** The [options] object of [OllamaGenerateRequest]. *)
Module GenerateOptions.
Record t := mk {
  temperature : float;
  num_predict : float;
  top_p : float;
  top_k : float }.
End GenerateOptions.

(** The interface [OllamaGenerateRequest]; [stream] is always [false]. *)
Module OllamaGenerateRequest.
Record t := mk {
  model : jsstring;
  prompt : jsstring;
  system : option jsstring;
  stream : bool;
  options : GenerateOptions.t }.
End OllamaGenerateRequest.

Inductive RequestBody :=
| NoBody
| PullBody (name : jsstring)
| GenerateBody (request : OllamaGenerateRequest.t).

Module Request.
Record t := mk {
  url : jsstring;
  method : Method;
  body : RequestBody;
  timeoutMs : Z }.
End Request.

(** The fields of [OllamaGenerateResponse] that the kernel reads; a field
    missing from the received document is [None]. *)
Module OllamaGenerateResponse.
Record t := mk {
  model : option jsstring;
  response : option jsstring;
  prompt_eval_count : option Z;
  eval_count : option Z }.
End OllamaGenerateResponse.

(** The document behind [response.json()]: a model listing (the names of
    [OllamaTagsResponse.models]), a generation result, or [null]. *)
Inductive Json :=
| JsonTags (names : list jsstring)
| JsonGenerate (data : OllamaGenerateResponse.t)
| JsonNull.

Module Response.
Record t := mk {
  ok : bool;
  text : Outcome jsstring;
  json : Outcome Json }.
End Response.

(** The statistics log, as [stats-collector.ts] declares it.  A time stamp
    is the clock reading it was rendered from; the other numbers are the
    binary64 values that [JSON.parse] reads and the code adds to. *)
Module StatsEntry.
Record t := mk {
  timestamp : Z;
  target : Target.t;
  taskType : TaskType;
  success : option bool;
  error : option jsstring;
  durationMs : option float;
  tokensInput : option float;
  tokensOutput : option float }.
End StatsEntry.

Module StatsData.
Record t := mk {
  entries : list StatsEntry.t;
  totalRequests : float;
  successfulRequests : float;
  failedRequests : float;
  totalDurationMs : float;
  tokensSaved : float;
  lastUpdated : Z }.
End StatsData.

(** What [fs.readFile] followed by [JSON.parse] makes of a path: nothing
    readable; text that does not parse; a document of the shape of
    [StatsData]; or a document without that shape, of which the model covers
    those that are [null] or have no [entries] property at all, such as
    [{}].  [loadData] casts whatever it parsed to [StatsData] and checks
    nothing; [truthy] tells [{}], which [if (this.cache)] takes for a cache,
    from [null], which it does not.  A document that has an [entries]
    property but not the declared shape (entries that are no array of
    entries, a total that is missing or no number) has no value here: what
    is stated of statistics is stated of documents of the declared shape. *)
Inductive File :=
| Unreadable
| Malformed
| Stored (data : StatsData.t)
| NoEntries (truthy : bool).

(** What [loadData] hands to its callers: statistics, or a value on which
    reading [data.entries.push], [data.entries.length] or iterating
    [data.entries] throws a [TypeError]. *)
Inductive Document :=
| Data (data : StatsData.t)
| Shapeless.

(** The notifications of [RouterCallbacks], in the order they are made. *)
Inductive Event :=
| OnRoutingDecision (decision : RoutingDecision.t)
| OnCerebellumSuccess (response : CerebellumResponse.t) (task : TaskInfo.t)
| OnCerebellumFailure (error : jsstring) (task : TaskInfo.t)
| OnFallbackToCerebrum (reason : jsstring) (task : TaskInfo.t).

Module World.
Record t := mk {
  (** the successive readings of the clock, and how many were taken *)
  clock : nat -> Z;
  reads : nat;
  (** the outcome of the n-th [fetch], and the requests sent so far *)
  network : nat -> Request.t -> Outcome Response.t;
  sent : list Request.t;
  (** how many times [CerebellumKernel.generate] was entered *)
  generateCalls : nat;
  (** the file system: contents, and the paths that refuse a write *)
  files : jsstring -> File;
  readOnly : jsstring -> bool;
  homedir : jsstring;
  (** the callbacks invoked so far, oldest first *)
  events : list Event }.

Definition tick (w : t) : t :=
  mk (clock w) (S (reads w)) (network w) (sent w) (generateCalls w)
     (files w) (readOnly w) (homedir w) (events w).

Definition send (req : Request.t) (w : t) : t :=
  mk (clock w) (reads w) (network w) (sent w ++ [req]) (generateCalls w)
     (files w) (readOnly w) (homedir w) (events w).

Definition enterGenerate (w : t) : t :=
  mk (clock w) (reads w) (network w) (sent w) (S (generateCalls w))
     (files w) (readOnly w) (homedir w) (events w).

(** [fs.writeFile(path, JSON.stringify(data, null, 2))] on a path that
    accepts it: the path then holds the text of [data].  (Read back, the
    text of finite numbers parses to the same data; JSON writes a number
    that is not finite as [null].  The collector does not read back what it
    wrote: [saveData] sets the cache before it writes.) *)
Definition store (path : jsstring) (data : StatsData.t) (w : t) : t :=
  mk (clock w) (reads w) (network w) (sent w) (generateCalls w)
     (fun p => if list_eq_dec N.eq_dec p path then Stored data
               else files w p)
     (readOnly w) (homedir w) (events w).

Definition notify (e : Event) (w : t) : t :=
  mk (clock w) (reads w) (network w) (sent w) (generateCalls w)
     (files w) (readOnly w) (homedir w) (events w ++ [e]).
End World.

(** [Date.now()], and the reading behind [new Date().toISOString()]. *)
Definition Date_now : State World.t Z :=
  fun w => (World.clock w (World.reads w), World.tick w).

(** [fetch(url, init)]: the request is sent and the network answers. *)
Definition fetch (req : Request.t) : State World.t (Outcome Response.t) :=
  fun w => (World.network w (List.length (World.sent w)) req,
            World.send req w).

(* ================================================================== *)
(** * The local backend client ([cerebellum-kernel.ts]) *)
(* ================================================================== *)

Module CerebellumKernel.

Record t := mk {
  config : CerebellumConfig.t;
  baseUrl : jsstring }.

(** [s.replace(/\/$/, "")]: a final slash is removed. *)
Definition stripFinalSlash (s : jsstring) : jsstring :=
  match rev s with
  | 47%N :: r => rev r
  | _ => s
  end.

Definition new (cfg : CerebellumConfig.t) : t :=
  {| config := cfg;
     baseUrl := stripFinalSlash (CerebellumConfig.baseUrl cfg) |}.

Definition isAvailable (self : t) : State World.t bool :=
  r <- fetch {| Request.url := baseUrl self ++ lit "/api/tags";
                Request.method := GET;
                Request.body := NoBody;
                Request.timeoutMs := 5000 |} ;;
  match r with
  | inr response => ret (Response.ok response)
  | inl _ => ret false
  end.

(** [(m) => m.name === targetModel || m.name.startsWith(targetModel + ":")]. *)
Definition namesModel (targetModel name : jsstring) : bool :=
  (if list_eq_dec N.eq_dec name targetModel then true else false)
  || startsWith name (targetModel ++ lit ":").

(** Reading [.models] of a document that has none throws, and the throw is
    caught like any other. *)
Definition isModelAvailable (self : t) (modelName : option jsstring)
  : State World.t bool :=
  let targetModel :=
    match modelName with
    | Some m => m
    | None => CerebellumConfig.model (config self)
    end in
  r <- fetch {| Request.url := baseUrl self ++ lit "/api/tags";
                Request.method := GET;
                Request.body := NoBody;
                Request.timeoutMs := 5000 |} ;;
  match r with
  | inr response =>
      if negb (Response.ok response) then ret false
      else match Response.json response with
           | inr (JsonTags names) => ret (existsb (namesModel targetModel) names)
           | _ => ret false
           end
  | inl _ => ret false
  end.

(** The result of [pullModel]. *)
Record PullResult := mkPull { pulled : bool; pullError : option jsstring }.

Definition pullModel (self : t) (modelName : option jsstring)
  : State World.t PullResult :=
  let targetModel :=
    match modelName with
    | Some m => m
    | None => CerebellumConfig.model (config self)
    end in
  r <- fetch {| Request.url := baseUrl self ++ lit "/api/pull";
                Request.method := POST;
                Request.body := PullBody targetModel;
                Request.timeoutMs := 300000 |} ;;
  let caught e :=
    mkPull false (Some (lit "Error pulling model: " ++ errorText e)) in
  match r with
  | inr response =>
      if negb (Response.ok response) then
        match Response.text response with
        | inr errorText' =>
            ret (mkPull false
                   (Some (lit "Failed to pull model: " ++ errorText')))
        | inl e => ret (caught e)
        end
      else ret (mkPull true None)
  | inl e => ret (caught e)
  end.

(** The optional third argument of [generate]. *)
Record Options := mkOptions {
  temperature : option float;
  maxTokens : option float }.

Definition orDefault {A} (o : option A) (d : A) : A :=
  match o with Some a => a | None => d end.

(** A failed response: no text, the error, the configured model. *)
Definition failure (self : t) (startTime : Z) (error : jsstring)
  : State World.t CerebellumResponse.t :=
  finished <- Date_now ;;
  ret {| CerebellumResponse.text := [];
         CerebellumResponse.success := false;
         CerebellumResponse.error := Some error;
         CerebellumResponse.model := CerebellumConfig.model (config self);
         CerebellumResponse.durationMs := (finished - startTime)%Z;
         CerebellumResponse.usage := None |}.

(** The fields read from the received document; reading a field of [null]
    throws a [TypeError]. *)
Definition generateFields (data : Json)
  : Outcome OllamaGenerateResponse.t :=
  match data with
  | JsonGenerate d => inr d
  | JsonTags _ => inr (OllamaGenerateResponse.mk None None None None)
  | JsonNull =>
      inl (ErrorObject
             (lit "Cannot read properties of null (reading 'response')"))
  end.

Definition generate (self : t) (prompt : jsstring)
                    (systemPrompt : option jsstring)
                    (options : option Options)
  : State World.t CerebellumResponse.t :=
  modify World.enterGenerate ;;
  startTime <- Date_now ;;
  available <- isAvailable self ;;
  if negb available then
    failure self startTime
      (lit "Ollama service is not available. Please ensure Ollama is running.")
  else
    modelAvailable <- isModelAvailable self None ;;
    if negb modelAvailable then
      failure self startTime
        (lit "Model " ++ CerebellumConfig.model (config self)
         ++ lit " is not available. Run 'ollama pull "
         ++ CerebellumConfig.model (config self) ++ lit "' first.")
    else
      let request :=
        {| OllamaGenerateRequest.model := CerebellumConfig.model (config self);
           OllamaGenerateRequest.prompt := prompt;
           OllamaGenerateRequest.system :=
             match systemPrompt with
             | Some (c :: s) => Some (c :: s)
             | _ => None
             end;
           OllamaGenerateRequest.stream := false;
           OllamaGenerateRequest.options :=
             {| GenerateOptions.temperature :=
                  orDefault (match options with
                             | Some o => temperature o
                             | None => None
                             end) 0.7%float;
                GenerateOptions.num_predict :=
                  orDefault (match options with
                             | Some o => maxTokens o
                             | None => None
                             end) 2048%float;
                GenerateOptions.top_p := 0.9%float;
                GenerateOptions.top_k := 40%float |} |} in
      r <- fetch {| Request.url := baseUrl self ++ lit "/api/generate";
                    Request.method := POST;
                    Request.body := GenerateBody request;
                    Request.timeoutMs := 120000 |} ;;
      let caught e := failure self startTime (errorText e) in
      match r with
      | inl e => caught e
      | inr response =>
          if negb (Response.ok response) then
            match Response.text response with
            | inl e => caught e
            | inr errorText' =>
                failure self startTime
                        (lit "Ollama API error: " ++ errorText')
            end
          else
            match Response.json response with
            | inl e => caught e
            | inr document =>
                (* [durationMs] is computed before the first field of the
                   document is read *)
                finished <- Date_now ;;
                match generateFields document with
                | inl e => caught e
                | inr data =>
                    let durationMs := (finished - startTime)%Z in
                    let input :=
                      orDefault
                        (OllamaGenerateResponse.prompt_eval_count data) 0%Z in
                    let output :=
                      orDefault (OllamaGenerateResponse.eval_count data) 0%Z in
                    ret {| CerebellumResponse.text :=
                             orDefault
                               (OllamaGenerateResponse.response data) [];
                           CerebellumResponse.success := true;
                           CerebellumResponse.error := None;
                           CerebellumResponse.model :=
                             orDefault (OllamaGenerateResponse.model data)
                               (CerebellumConfig.model (config self));
                           CerebellumResponse.durationMs := durationMs;
                           CerebellumResponse.usage :=
                             Some {| Usage.input := input;
                                     Usage.output := output;
                                     Usage.total := (input + output)%Z |} |}
                end
            end
      end.

(** The line break inside the template literals. *)
Definition nl : jsstring := [10%N].

Definition quickAnswer (self : t) (question : jsstring)
  : State World.t CerebellumResponse.t :=
  let systemPrompt :=
    lit "You are a helpful assistant. Provide concise, accurate answers. "
    ++ nl
    ++ lit "Keep responses brief and to the point. If you're unsure, say so."
  in
  generate self question (Some systemPrompt)
           (Some (mkOptions (Some 0.5%float) (Some 512%float))).

Definition summarize (self : t) (text : jsstring) (maxLength : option Z)
  : State World.t CerebellumResponse.t :=
  let maxSentences := orDefault maxLength 3%Z in
  let prompt :=
    lit "Please summarize the following text in " ++ Z_toString maxSentences
    ++ lit " sentences or less:" ++ nl ++ nl ++ text ++ nl ++ nl
    ++ lit "Summary:" in
  generate self prompt None
           (Some (mkOptions (Some 0.3%float) (Some 256%float))).

Inductive Format := json | yaml | markdown | csv.

(** [targetFormat.toUpperCase()]. *)
Definition Format_upper (f : Format) : jsstring :=
  lit match f with
      | json => "JSON" | yaml => "YAML" | markdown => "MARKDOWN"
      | csv => "CSV"
      end.

Definition convertFormat (self : t) (content : jsstring)
                         (targetFormat : Format)
  : State World.t CerebellumResponse.t :=
  let prompt :=
    lit "Convert the following content to " ++ Format_upper targetFormat
    ++ lit " format:" ++ nl ++ nl ++ content ++ nl ++ nl
    ++ lit "Converted " ++ Format_upper targetFormat ++ lit ":" in
  generate self prompt None
           (Some (mkOptions (Some 0.2%float) (Some 1024%float))).

(** The object that [getStatus] resolves to (its [version] is never set). *)
Record Status := mkStatus {
  available : bool;
  modelAvailable : bool;
  statusModel : jsstring }.

(** [getStatus]: the model is looked for only when the service answers. *)
Definition getStatus (self : t) : State World.t Status :=
  available <- isAvailable self ;;
  modelAvailable <- (if available then isModelAvailable self None
                     else ret false) ;;
  ret {| available := available;
         modelAvailable := modelAvailable;
         statusModel := CerebellumConfig.model (config self) |}.

End CerebellumKernel.

(** [createCerebellumKernel]. *)
Definition createCerebellumKernel (cfg : CerebellumConfig.t)
  : CerebellumKernel.t :=
  CerebellumKernel.new cfg.

(* ================================================================== *)
(** * The statistics collector ([stats-collector.ts]) *)
(* ================================================================== *)

(** One row of [CerebellumStats.taskTypeStats].  A count is built by [++]
    from 0, once per entry of an array, so it is an integer below 2^32. *)
Module TypeStats.
Record t := mk { count : Z; successRate : float; averageTime : float }.
End TypeStats.

(** The interface [CerebellumStats]; the per-type object is the list of its
    own properties in insertion order. *)
Module CerebellumStats.
Record t := mk {
  totalRequests : float;
  successfulRequests : float;
  failedRequests : float;
  averageResponseTime : float;
  tokensSaved : float;
  costSaved : float;
  taskTypeStats : list (TaskType * TypeStats.t);
  lastUpdated : Z }.
End CerebellumStats.

Definition DEFAULT_COST_PER_1K_TOKENS : float := 0.03.

Module StatsCollector.

Local Open Scope throwing_scope.

(** The three private fields; [cache] starts as [null].  Whatever
    [loadData] parsed is put there, statistics or not; a parsed value that
    is not truthy leaves the cache empty for [if (this.cache)]. *)
Record t := mk {
  config : StatsConfig.t;
  logPath : jsstring;
  cache : option Document }.

Definition setCache (c : option Document) (self : t) : t :=
  mk (config self) (logPath self) c.

(** A method of the collector changes the collector and the world, and
    returns or throws. *)
Definition M (A : Type) : Type := Throwing (t * World.t) A.

Definition inWorld {A} (m : State World.t A) : M A :=
  fun s => let (a, w) := m (snd s) in (inr a, (fst s, w)).

(** [path.join] of the home directory and the rest of the path, up to the
    normalisation of separators and dot segments, which is not modelled. *)
Definition path_join (a b : jsstring) : jsstring := a ++ lit "/" ++ b.

Definition resolveLogPath (homedir logPath : jsstring) : jsstring :=
  if startsWith logPath (lit "~/") then path_join homedir (skipn 2 logPath)
  else logPath.

Definition new (cfg : StatsConfig.t) : State World.t t :=
  (homedir <- gets World.homedir ;;
   ret {| config := cfg;
          logPath := resolveLogPath homedir (StatsConfig.logPath cfg);
          cache := None |})%state.

(** The [defaultData] of [loadData] and the [emptyData] of [reset]. *)
Definition emptyData (now : Z) : StatsData.t :=
  {| StatsData.entries := [];
     StatsData.totalRequests := 0;
     StatsData.successfulRequests := 0;
     StatsData.failedRequests := 0;
     StatsData.totalDurationMs := 0;
     StatsData.tokensSaved := 0;
     StatsData.lastUpdated := now |}.

(** [loadData]: the cache if there is one; otherwise what the file parses
    to, whatever its shape, or the default data when reading or parsing
    throws.  The result becomes the cache.  It never throws: its [catch]
    covers the read and the parse, and nothing else in it can fail. *)
Definition loadData : State (t * World.t) Document :=
  fun s =>
    let (self, w) := s in
    match cache self with
    | Some document => (document, (self, w))
    | None =>
        match World.files w (logPath self) with
        | Stored data => (Data data, (setCache (Some (Data data)) self, w))
        | NoEntries truthy =>
            (Shapeless,
             (setCache (if truthy then Some Shapeless else None) self, w))
        | Unreadable | Malformed =>
            let (now, w') := Date_now w in
            let defaultData := emptyData now in
            (Data defaultData, (setCache (Some (Data defaultData)) self, w'))
        end
    end.

(** The [TypeError] of reading [entries] off a value that has none.  Its
    message depends on the value and on the engine; nothing reads it. *)
Definition noEntriesError : Thrown :=
  ErrorObject (lit "Cannot read properties of undefined").

(** [const data = await this.loadData()], followed by the first use of
    [data.entries], which is where a shapeless value throws.  (Before that
    use [recordSuccess] and [recordFailure] may have set a counter on the
    value; it still has no [entries].) *)
Definition loadStatistics : M StatsData.t :=
  document <- lift loadData ;;
  match document with
  | Data data => retT data
  | Shapeless => throw noEntriesError
  end.

Definition setLastUpdated (now : Z) (data : StatsData.t) : StatsData.t :=
  StatsData.mk (StatsData.entries data) (StatsData.totalRequests data)
               (StatsData.successfulRequests data)
               (StatsData.failedRequests data)
               (StatsData.totalDurationMs data) (StatsData.tokensSaved data)
               now.

(** [saveData]: nothing when the statistics are disabled; otherwise the
    data is stamped, cached and written, a failed write being ignored.
    ([ensureDir] creates the directory and ignores every error; a directory
    that could not be created shows as a path that refuses the write.) *)
Definition saveData (data : StatsData.t) : M unit :=
  fun s =>
    let (self, w) := s in
    if negb (StatsConfig.enabled (config self)) then (inr tt, (self, w))
    else
      let (now, w1) := Date_now w in
      let data := setLastUpdated now data in
      let self := setCache (Some (Data data)) self in
      let w2 := if World.readOnly w1 (logPath self) then w1
                else World.store (logPath self) data w1 in
      (inr tt, (self, w2)).

(** [entries.slice(-n)]: the elements from index [max(length - n, 0)]
    on, that is the last [n]. *)
Definition sliceLast {A} (n : Z) (l : list A) : list A :=
  skipn (Z.to_nat (Z.max (Z.of_nat (List.length l) - n) 0)) l.

Definition withEntries (entries : list StatsEntry.t) (data : StatsData.t)
  : StatsData.t :=
  StatsData.mk entries (StatsData.totalRequests data)
               (StatsData.successfulRequests data)
               (StatsData.failedRequests data)
               (StatsData.totalDurationMs data) (StatsData.tokensSaved data)
               (StatsData.lastUpdated data).

(** The body of [recordDecision] between [loadData] and [saveData].  The
    object that [loadData] returned is the cached one and is updated in
    place; [saveData] then caches that same object, so the updated value is
    threaded instead.  [totalRequests++] adds 1 in binary64. *)
Definition addDecision (now : Z) (decision : RoutingDecision.t)
                       (data : StatsData.t) : StatsData.t :=
  let entries :=
    StatsData.entries data
    ++ [{| StatsEntry.timestamp := now;
           StatsEntry.target := RoutingDecision.target decision;
           StatsEntry.taskType :=
             TaskAssessment.taskType (RoutingDecision.assessment decision);
           StatsEntry.success := None;
           StatsEntry.error := None;
           StatsEntry.durationMs := None;
           StatsEntry.tokensInput := None;
           StatsEntry.tokensOutput := None |}] in
  let totalRequests := (StatsData.totalRequests data + 1)%float in
  let entries :=
    if (10000 <? Z.of_nat (List.length entries))%Z
    then sliceLast 5000 entries
    else entries in
  StatsData.mk entries totalRequests (StatsData.successfulRequests data)
               (StatsData.failedRequests data)
               (StatsData.totalDurationMs data) (StatsData.tokensSaved data)
               (StatsData.lastUpdated data).

Definition isEnabled : M bool :=
  lift (gets (fun s => StatsConfig.enabled (config (fst s)))).

(** The time stamp of the new entry is taken inside the argument of
    [push], after [data.entries.push] itself has been looked up. *)
Definition recordDecision (decision : RoutingDecision.t) : M unit :=
  enabled <- isEnabled ;;
  if negb enabled then retT tt
  else
    data <- loadStatistics ;;
    now <- inWorld Date_now ;;
    saveData (addDecision now decision data).

(** [const lastEntry = entries[entries.length - 1]; if (lastEntry &&
    lastEntry.target === "cerebellum") { ... }]. *)
Fixpoint updateLastLocal (f : StatsEntry.t -> StatsEntry.t)
                         (entries : list StatsEntry.t)
  : list StatsEntry.t :=
  match entries with
  | [] => []
  | [lastEntry] =>
      if Target.eqb (StatsEntry.target lastEntry) Target.cerebellum
      then [f lastEntry] else [lastEntry]
  | e :: rest => e :: updateLastLocal f rest
  end.

Definition markSuccess (response : CerebellumResponse.t)
                       (e : StatsEntry.t) : StatsEntry.t :=
  StatsEntry.mk (StatsEntry.timestamp e) (StatsEntry.target e)
                (StatsEntry.taskType e)
                (Some true)
                (StatsEntry.error e)
                (Some (of_Z (CerebellumResponse.durationMs response)))
                (option_map (fun u => of_Z (Usage.input u))
                            (CerebellumResponse.usage response))
                (option_map (fun u => of_Z (Usage.output u))
                            (CerebellumResponse.usage response)).

Definition markFailure (error : option jsstring) (e : StatsEntry.t)
  : StatsEntry.t :=
  StatsEntry.mk (StatsEntry.timestamp e) (StatsEntry.target e)
                (StatsEntry.taskType e)
                (Some false)
                error
                (StatsEntry.durationMs e) (StatsEntry.tokensInput e)
                (StatsEntry.tokensOutput e).

(** [successfulRequests++], [totalDurationMs += response.durationMs] and
    [tokensSaved += response.usage.total], each an addition in binary64. *)
Definition addSuccess (response : CerebellumResponse.t)
                      (data : StatsData.t) : StatsData.t :=
  let successfulRequests := (StatsData.successfulRequests data + 1)%float in
  let totalDurationMs :=
    (StatsData.totalDurationMs data
     + of_Z (CerebellumResponse.durationMs response))%float in
  let tokensSaved :=
    match CerebellumResponse.usage response with
    | Some usage =>
        (StatsData.tokensSaved data + of_Z (Usage.total usage))%float
    | None => StatsData.tokensSaved data
    end in
  StatsData.mk (updateLastLocal (markSuccess response)
                                (StatsData.entries data))
               (StatsData.totalRequests data) successfulRequests
               (StatsData.failedRequests data) totalDurationMs tokensSaved
               (StatsData.lastUpdated data).

Definition recordSuccess (task : TaskInfo.t)
                         (response : CerebellumResponse.t) : M unit :=
  enabled <- isEnabled ;;
  if negb enabled then retT tt
  else
    data <- loadStatistics ;;
    saveData (addSuccess response data).

Definition addFailure (error : option jsstring) (data : StatsData.t)
  : StatsData.t :=
  StatsData.mk (updateLastLocal (markFailure error)
                                (StatsData.entries data))
               (StatsData.totalRequests data)
               (StatsData.successfulRequests data)
               (StatsData.failedRequests data + 1)%float
               (StatsData.totalDurationMs data) (StatsData.tokensSaved data)
               (StatsData.lastUpdated data).

Definition recordFailure (task : TaskInfo.t) (error : option jsstring)
  : M unit :=
  enabled <- isEnabled ;;
  if negb enabled then retT tt
  else
    data <- loadStatistics ;;
    saveData (addFailure error data).

(** The accumulator of the first loop of [getStats]: two counts, and the
    sum of the durations, which come from the entries as numbers. *)
Record Tally := mkTally { count : Z; successCount : Z; totalTime : float }.

Fixpoint hasKey (ty : TaskType) (o : list (TaskType * Tally)) : bool :=
  match o with
  | [] => false
  | (k, _) :: o' => TaskType_eqb k ty || hasKey ty o'
  end.

Fixpoint updateKey (ty : TaskType) (f : Tally -> Tally)
                   (o : list (TaskType * Tally))
  : list (TaskType * Tally) :=
  match o with
  | [] => []
  | (k, v) :: o' =>
      if TaskType_eqb k ty then (k, f v) :: o'
      else (k, v) :: updateKey ty f o'
  end.

Definition tallyEntry (o : list (TaskType * Tally)) (entry : StatsEntry.t)
  : list (TaskType * Tally) :=
  let ty := StatsEntry.taskType entry in
  let o := if hasKey ty o then o else o ++ [(ty, mkTally 0 0 0)] in
  updateKey ty
    (fun v =>
       let n := (count v + 1)%Z in
       match StatsEntry.success entry with
       | Some true =>
           mkTally n (successCount v + 1)%Z
                   (totalTime v
                    + match StatsEntry.durationMs entry with
                      | Some d => d
                      | None => 0
                      end)%float
       | _ => mkTally n (successCount v) (totalTime v)
       end)
    o.

(** [guard ? numerator / denominator : 0]. *)
Definition ratioIf (guard : bool) (numerator denominator : float) : float :=
  if guard then (numerator / denominator)%float else 0%float.

Definition formatTally (kv : TaskType * Tally) : TaskType * TypeStats.t :=
  let (ty, v) := kv in
  (ty, {| TypeStats.count := count v;
          TypeStats.successRate :=
            ratioIf (0 <? count v)%Z
                    (of_Z (successCount v)) (of_Z (count v));
          TypeStats.averageTime :=
            ratioIf (0 <? successCount v)%Z
                    (totalTime v) (of_Z (successCount v)) |}).

(** The snapshot computed from the loaded data. *)
Definition snapshot (data : StatsData.t) : CerebellumStats.t :=
  let taskTypeStats := fold_left tallyEntry (StatsData.entries data) [] in
  {| CerebellumStats.totalRequests := StatsData.totalRequests data;
     CerebellumStats.successfulRequests := StatsData.successfulRequests data;
     CerebellumStats.failedRequests := StatsData.failedRequests data;
     CerebellumStats.averageResponseTime :=
       ratioIf (gt (StatsData.successfulRequests data) 0)
               (StatsData.totalDurationMs data)
               (StatsData.successfulRequests data);
     CerebellumStats.tokensSaved := StatsData.tokensSaved data;
     CerebellumStats.costSaved :=
       (StatsData.tokensSaved data / 1000
        * DEFAULT_COST_PER_1K_TOKENS)%float;
     CerebellumStats.taskTypeStats := map formatTally taskTypeStats;
     CerebellumStats.lastUpdated := StatsData.lastUpdated data |}.

(** [getStats] has no guard on [config.enabled]: it loads and reports, and
    throws where the loop over [data.entries] does. *)
Definition getStats : M CerebellumStats.t :=
  data <- loadStatistics ;;
  retT (snapshot data).

Definition reset : M unit :=
  now <- inWorld Date_now ;;
  saveData (emptyData now).

End StatsCollector.

(** [createStatsCollector]. *)
Definition createStatsCollector (cfg : StatsConfig.t)
  : State World.t StatsCollector.t :=
  StatsCollector.new cfg.

(* ================================================================== *)
(** * The dual-kernel router ([router.ts]) *)
(* ================================================================== *)

(** [RouterCallbacks]: which of the four optional callbacks are supplied.
    A supplied callback is observed through the event it leaves in the
    world; it is taken to return normally. *)
Module RouterCallbacks.
Record t := mk {
  onRoutingDecision : bool;
  onCerebellumSuccess : bool;
  onCerebellumFailure : bool;
  onFallbackToCerebrum : bool }.

(** The [{}] that stands in for a missing [callbacks] option. *)
Definition none : t := mk false false false false.
End RouterCallbacks.

Module RouterOptions.
Record t := mk {
  config : CerebellumConfig.t;
  callbacks : option RouterCallbacks.t;
  enableFallback : option bool }.
End RouterOptions.

(** The object that [route] resolves to. *)
Module RouteResult.
Record t := mk {
  target : Target.t;
  assessment : TaskAssessment.t;
  cerebellumResponse : option CerebellumResponse.t;
  fallbackReason : option jsstring }.
End RouteResult.

(** The object that [getStatus] resolves to. *)
Module RouterStatus.
Record t := mk {
  enabled : bool;
  available : bool;
  model : jsstring;
  stats : CerebellumStats.t }.
End RouterStatus.

Module DualKernelRouter.

Local Open Scope throwing_scope.

Record t := mk {
  config : CerebellumConfig.t;
  cerebellum : CerebellumKernel.t;
  evaluator : TaskEvaluator.t;
  stats : StatsCollector.t;
  callbacks : RouterCallbacks.t;
  enableFallback : bool;
  cerebellumAvailable : bool }.

(** A method of the router changes the router and the world, and returns
    or throws: no method of the router catches anything, so what a method
    of the collector throws leaves the router's method with it. *)
Definition M (A : Type) : Type := Throwing (t * World.t) A.

Definition inWorld {A} (m : State World.t A) : M A :=
  fun s => let (a, w) := m (snd s) in (inr a, (fst s, w)).

Definition self_ : M t := lift (gets fst).

Definition setStats (sc : StatsCollector.t) (self : t) : t :=
  mk (config self) (cerebellum self) (evaluator self) sc (callbacks self)
     (enableFallback self) (cerebellumAvailable self).

Definition setAvailable (b : bool) (self : t) : t :=
  mk (config self) (cerebellum self) (evaluator self) (stats self)
     (callbacks self) (enableFallback self) b.

(** A method of [this.stats] awaited from the router. *)
Definition inStats {A} (m : StatsCollector.M A) : M A :=
  fun s =>
    let (self, w) := s in
    let (a, s') := m (stats self, w) in
    (a, (setStats (fst s') self, snd s')).

(** [this.callbacks.on...?.(...)]. *)
Definition emit (supplied : RouterCallbacks.t -> bool) (e : Event)
  : M unit :=
  fun s =>
    let (self, w) := s in
    if supplied (callbacks self) then (inr tt, (self, World.notify e w))
    else (inr tt, (self, w)).

(** The constructor.  It starts [checkAvailability] without awaiting it, so
    the flag is [false] until that check, whenever it runs, completes. *)
Definition new (options : RouterOptions.t) : State World.t t :=
  (let config := RouterOptions.config options in
   sc <- createStatsCollector (CerebellumConfig.stats config) ;;
   ret {| config := config;
          cerebellum := createCerebellumKernel config;
          evaluator := createTaskEvaluator config;
          stats := sc;
          callbacks :=
            match RouterOptions.callbacks options with
            | Some c => c
            | None => RouterCallbacks.none
            end;
          enableFallback :=
            match RouterOptions.enableFallback options with
            | Some b => b
            | None => true
            end;
          cerebellumAvailable := false |})%state.

Definition checkAvailability : M unit :=
  self <- self_ ;;
  available <- inWorld (CerebellumKernel.isAvailable (cerebellum self)) ;;
  lift (modify (fun s => (setAvailable available (fst s), snd s))).

Definition detectTargetFormat (prompt : jsstring)
  : CerebellumKernel.Format :=
  let lower := toLowerCase prompt in
  if includes lower (lit "json") then CerebellumKernel.json
  else if includes lower (lit "yaml") || includes lower (lit "yml")
  then CerebellumKernel.yaml
  else if includes lower (lit "csv") then CerebellumKernel.csv
  else CerebellumKernel.markdown.

(** [executeWithCerebellum]: one call of the kernel, chosen by the assessed
    task type.  The kernel catches what its requests throw, so this returns. *)
Definition executeWithCerebellum (task : TaskInfo.t)
                                 (assessment : TaskAssessment.t)
  : M CerebellumResponse.t :=
  self <- self_ ;;
  let kernel := cerebellum self in
  match TaskAssessment.taskType assessment with
  | greeting | simple_qa | status_check =>
      inWorld (CerebellumKernel.quickAnswer kernel (TaskInfo.prompt task))
  | text_summary =>
      inWorld (CerebellumKernel.summarize kernel (TaskInfo.prompt task)
                                          (Some 3%Z))
  | format_conversion =>
      let format := detectTargetFormat (TaskInfo.prompt task) in
      inWorld (CerebellumKernel.convertFormat kernel (TaskInfo.prompt task)
                                              format)
  | _ =>
      inWorld (CerebellumKernel.generate kernel (TaskInfo.prompt task)
                                         None None)
  end.

(** [response.error ?? "Unknown error"]. *)
Definition errorOrUnknown (error : option jsstring) : jsstring :=
  match error with
  | Some e => e
  | None => lit "Unknown error"
  end.

(** [`Cerebellum failed: ${response.error}`]; a missing error interpolates
    as "undefined". *)
Definition fallbackMessage (error : option jsstring) : jsstring :=
  lit "Cerebellum failed: "
  ++ match error with
     | Some e => e
     | None => lit "undefined"
     end.

Definition route (task : TaskInfo.t) : M RouteResult.t :=
  self <- self_ ;;
  (* 1. evaluate the task *)
  let assessment := TaskEvaluator.evaluate (evaluator self) task in
  (* 2. decide *)
  let useCerebellum :=
    TaskAssessment.useCerebellum assessment
    && CerebellumConfig.enabled (config self)
    && cerebellumAvailable self in
  (* 3. record the decision *)
  now <- inWorld Date_now ;;
  let decision :=
    {| RoutingDecision.target :=
         if useCerebellum then Target.cerebellum
         else Target.cerebrum;
       RoutingDecision.assessment := assessment;
       RoutingDecision.isManualOverride := false;
       RoutingDecision.timestamp := now |} in
  emit RouterCallbacks.onRoutingDecision (OnRoutingDecision decision) ;;
  inStats (StatsCollector.recordDecision decision) ;;
  (* 4. the local kernel *)
  if useCerebellum then
    response <- executeWithCerebellum task assessment ;;
    if CerebellumResponse.success response then
      inStats (StatsCollector.recordSuccess task response) ;;
      emit RouterCallbacks.onCerebellumSuccess
           (OnCerebellumSuccess response task) ;;
      retT {| RouteResult.target := Target.cerebellum;
              RouteResult.assessment := assessment;
              RouteResult.cerebellumResponse := Some response;
              RouteResult.fallbackReason := None |}
    else
      inStats (StatsCollector.recordFailure
                 task (CerebellumResponse.error response)) ;;
      emit RouterCallbacks.onCerebellumFailure
           (OnCerebellumFailure
              (errorOrUnknown (CerebellumResponse.error response)) task) ;;
      if enableFallback self then
        emit RouterCallbacks.onFallbackToCerebrum
             (OnFallbackToCerebrum
                (fallbackMessage (CerebellumResponse.error response))
                task) ;;
        retT {| RouteResult.target := Target.cerebrum;
                RouteResult.assessment := assessment;
                RouteResult.cerebellumResponse := None;
                RouteResult.fallbackReason :=
                  CerebellumResponse.error response |}
      else
        retT {| RouteResult.target := Target.cerebellum;
                RouteResult.assessment := assessment;
                RouteResult.cerebellumResponse := Some response;
                RouteResult.fallbackReason := None |}
  else
    (* 5. the remote kernel *)
    retT {| RouteResult.target := Target.cerebrum;
            RouteResult.assessment := assessment;
            RouteResult.cerebellumResponse := None;
            RouteResult.fallbackReason := None |}.

Definition forceCerebellum (task : TaskInfo.t) : M CerebellumResponse.t :=
  let assessment :=
    {| TaskAssessment.useCerebellum := true;
       TaskAssessment.confidence := 1;
       TaskAssessment.reason := [Text (lit "Manual override to cerebellum")];
       TaskAssessment.taskType := TaskInfo.type task;
       TaskAssessment.estimatedTokens := TaskInfo.estimatedTokens task;
       TaskAssessment.estimatedTime := 60;
       TaskAssessment.complexity := 3;
       TaskAssessment.precisionRequirement := low |} in
  now <- inWorld Date_now ;;
  let decision :=
    {| RoutingDecision.target := Target.cerebellum;
       RoutingDecision.assessment := assessment;
       RoutingDecision.isManualOverride := true;
       RoutingDecision.timestamp := now |} in
  emit RouterCallbacks.onRoutingDecision (OnRoutingDecision decision) ;;
  inStats (StatsCollector.recordDecision decision) ;;
  response <- executeWithCerebellum task assessment ;;
  (if CerebellumResponse.success response then
     inStats (StatsCollector.recordSuccess task response)
   else
     inStats (StatsCollector.recordFailure
                task (CerebellumResponse.error response))) ;;
  retT response.

Definition forceCerebrum (task : TaskInfo.t)
  : M (Target.t * TaskAssessment.t) :=
  let assessment :=
    {| TaskAssessment.useCerebellum := false;
       TaskAssessment.confidence := 1;
       TaskAssessment.reason := [Text (lit "Manual override to cerebrum")];
       TaskAssessment.taskType := TaskInfo.type task;
       TaskAssessment.estimatedTokens := TaskInfo.estimatedTokens task;
       TaskAssessment.estimatedTime := 300;
       TaskAssessment.complexity := 7;
       TaskAssessment.precisionRequirement := high |} in
  now <- inWorld Date_now ;;
  let decision :=
    {| RoutingDecision.target := Target.cerebrum;
       RoutingDecision.assessment := assessment;
       RoutingDecision.isManualOverride := true;
       RoutingDecision.timestamp := now |} in
  emit RouterCallbacks.onRoutingDecision (OnRoutingDecision decision) ;;
  inStats (StatsCollector.recordDecision decision) ;;
  retT (Target.cerebrum, assessment).

Definition getStats : M CerebellumStats.t :=
  inStats StatsCollector.getStats.

Definition getStatus : M RouterStatus.t :=
  stats <- getStats ;;
  self <- self_ ;;
  retT {| RouterStatus.enabled := CerebellumConfig.enabled (config self);
          RouterStatus.available := cerebellumAvailable self;
          RouterStatus.model := CerebellumConfig.model (config self);
          RouterStatus.stats := stats |}.

Definition resetStats : M unit := inStats StatsCollector.reset.

End DualKernelRouter.

(** [createDualKernelRouter]. *)
Definition createDualKernelRouter (options : RouterOptions.t)
  : State World.t DualKernelRouter.t :=
  DualKernelRouter.new options.

(* ================================================================== *)
(** * Vocabulary of the statements *)
(* ================================================================== *)

(** [{ ...task, prompt }]: the same task with another prompt. *)
Definition withPrompt (prompt : jsstring) (task : TaskInfo.t) : TaskInfo.t :=
  TaskInfo.mk (TaskInfo.type task) prompt (TaskInfo.hasCode task)
              (TaskInfo.hasMath task) (TaskInfo.estimatedTokens task)
              (TaskInfo.isHighFrequency task) (TaskInfo.historyLength task)
              (TaskInfo.isScheduledTask task).

Definition openTag : jsstring := lit "<cb>".
Definition closeTag : jsstring := lit "</cb>".

(** [pat] occurs in [s] at index [i], letter case ignored. *)
Definition occursAt (pat s : jsstring) (i : nat) : Prop :=
  prefix_by unit_eqb_ci pat (skipn i s) = true.

(** The prompt contains an open tag, and after it a close tag, with at least
    one code unit between the two. *)
Definition hasPairedMarker (prompt : jsstring) : Prop :=
  exists i j : nat,
    occursAt openTag prompt i /\ occursAt closeTag prompt j
    /\ (i + List.length openTag < j)%nat.

(** The leftmost open tag ends strictly before the leftmost close tag
    starts. *)
Definition leftmostPairDelimitsContent (prompt : jsstring) : Prop :=
  exists sm em : RegExpMatch,
    match_ci openTag prompt = Some sm /\ match_ci closeTag prompt = Some em
    /\ (index sm + List.length (matched sm) < index em)%nat.

(** Both tags occur, and the leftmost close tag starts at or before the end
    of the leftmost open tag: the content is empty, or the close tag comes
    first. *)
Definition leftmostPairIsEmptyOrReversed (prompt : jsstring) : Prop :=
  exists sm em : RegExpMatch,
    match_ci openTag prompt = Some sm /\ match_ci closeTag prompt = Some em
    /\ (index em <= index sm + List.length (matched sm))%nat.

(** The assessment when no forced rule applies: steps 2 to 8 of
    [evaluate]. *)
Definition heuristicAssessment (self : TaskEvaluator.t) (task : TaskInfo.t)
  : TaskAssessment.t :=
  let analysis := TaskEvaluator.analyzeTask task in
  let complexity := TaskEvaluator.calculateComplexity task analysis in
  let precisionRequirement :=
    TaskEvaluator.assessPrecisionRequirement task analysis in
  let estimatedTime :=
    TaskEvaluator.estimateExecutionTime self task complexity in
  let confidence :=
    TaskEvaluator.calculateConfidence task analysis complexity in
  let useCerebellum :=
    TaskEvaluator.shouldUseCerebellum self task complexity
      precisionRequirement estimatedTime confidence in
  TaskAssessment.mk useCerebellum confidence
    (TaskEvaluator.generateReason self useCerebellum task complexity
       precisionRequirement estimatedTime confidence)
    (TaskAnalysis.detectedType analysis) (TaskInfo.estimatedTokens task)
    estimatedTime complexity precisionRequirement.

(** The complexity score that [evaluate] computes for a task. *)
Definition computedComplexity (task : TaskInfo.t) : Z :=
  TaskEvaluator.calculateComplexity task (TaskEvaluator.analyzeTask task).

(** The seven keyword findings of [analyzeTask] agree on two tasks. *)
Definition sameKeywordAnalysis (t1 t2 : TaskInfo.t) : Prop :=
  let a1 := TaskEvaluator.analyzeTask t1 in
  let a2 := TaskEvaluator.analyzeTask t2 in
  TaskAnalysis.hasCode a1 = TaskAnalysis.hasCode a2
  /\ TaskAnalysis.hasMath a1 = TaskAnalysis.hasMath a2
  /\ TaskAnalysis.hasCreative a1 = TaskAnalysis.hasCreative a2
  /\ TaskAnalysis.hasAnalysis a1 = TaskAnalysis.hasAnalysis a2
  /\ TaskAnalysis.hasPlanning a1 = TaskAnalysis.hasPlanning a2
  /\ TaskAnalysis.isGreeting a1 = TaskAnalysis.isGreeting a2
  /\ TaskAnalysis.isStatusQuery a1 = TaskAnalysis.isStatusQuery a2.

(** Sample tasks. *)
Definition sampleTask (type : TaskType) (prompt : jsstring) : TaskInfo.t :=
  {| TaskInfo.type := type;
     TaskInfo.prompt := prompt;
     TaskInfo.hasCode := false;
     TaskInfo.hasMath := false;
     TaskInfo.estimatedTokens := 100;
     TaskInfo.isHighFrequency := false;
     TaskInfo.historyLength := 0;
     TaskInfo.isScheduledTask := false |}.

Definition defaultEvaluator : TaskEvaluator.t :=
  createTaskEvaluator DEFAULT_CEREBELLUM_CONFIG.

(** The base score of a detected type: [typeComplexity[type] ?? 5]. *)
Definition baseComplexity (ty : TaskType) : Z :=
  match TaskEvaluator.typeComplexity ty with
  | Some c => c
  | None => 5%Z
  end.

(** [recordDecision] called on each decision of a list, in order, each
    call awaited before the next. *)
Fixpoint recordAll (decisions : list RoutingDecision.t)
  : StatsCollector.M unit :=
  match decisions with
  | [] => retT tt
  | d :: rest =>
      (StatsCollector.recordDecision d ;; recordAll rest)%throwing
  end.

(** [m * 2^k] on positive numbers. *)
Definition shl (m : positive) (k : Z) : positive :=
  match k with
  | Zpos n => Pos.iter xO m n
  | _ => m
  end.

(** A number is the natural number [n], which is small enough for binary64
    to count on from it exactly. *)
Definition counts (x : float) (n : Z) : Prop :=
  x = of_Z n /\ (0 <= n < 2 ^ 53)%Z.

(** The five running totals of the statistics. *)
Definition runningTotals (data : StatsData.t)
  : float * float * float * float * float :=
  (StatsData.totalRequests data, StatsData.successfulRequests data,
   StatsData.failedRequests data, StatsData.totalDurationMs data,
   StatsData.tokensSaved data).

(** The entry that [recordDecision] appends for a decision: its target and
    task type, and no outcome yet. *)
Definition entryOf (decision : RoutingDecision.t) (entry : StatsEntry.t)
  : Prop :=
  StatsEntry.target entry = RoutingDecision.target decision
  /\ StatsEntry.taskType entry
     = TaskAssessment.taskType (RoutingDecision.assessment decision)
  /\ StatsEntry.success entry = None.

(** What the collector works on: what [loadData] returns. *)
Definition loadedDocument (sc : StatsCollector.t) (w : World.t) : Document :=
  fst (StatsCollector.loadData (sc, w)).

(** The statistics that the collector works on, when what it has cached or
    finds in its file (or the default, with no parsable file) is a document
    of the [StatsData] shape. *)
Definition statisticsOf (sc : StatsCollector.t) (w : World.t)
  : option StatsData.t :=
  match loadedDocument sc w with
  | Data data => Some data
  | Shapeless => None
  end.

(** Two worlds that differ at most in the files and in how often the clock
    was read. *)
Definition sameButFilesAndReads (w' w : World.t) : Prop :=
  World.clock w' = World.clock w
  /\ World.network w' = World.network w
  /\ World.sent w' = World.sent w
  /\ World.generateCalls w' = World.generateCalls w
  /\ World.readOnly w' = World.readOnly w
  /\ World.homedir w' = World.homedir w
  /\ World.events w' = World.events w.

(** What a write of [data] to [path] leaves in the files of [w']: the data
    at that path when it accepts the write, and otherwise the files as they
    were. *)
Definition filesAfterWrite (path : jsstring) (data : StatsData.t)
           (w w' : World.t) : Prop :=
  (forall p, p <> path -> World.files w' p = World.files w p)
  /\ (World.readOnly w path = false -> World.files w' path = Stored data)
  /\ (World.readOnly w path = true -> World.files w' = World.files w).

(** Recording cannot throw: the statistics are disabled, or the collector
    works on a document of the [StatsData] shape. *)
Definition statsReady (sc : StatsCollector.t) (w : World.t) : Prop :=
  StatsConfig.enabled (StatsCollector.config sc) = false
  \/ exists data, statisticsOf sc w = Some data.

(** A snapshot with zero counts and an empty per-type map. *)
Definition emptySnapshot (snap : CerebellumStats.t) : Prop :=
  CerebellumStats.totalRequests snap = 0%float
  /\ CerebellumStats.successfulRequests snap = 0%float
  /\ CerebellumStats.failedRequests snap = 0%float
  /\ CerebellumStats.tokensSaved snap = 0%float
  /\ CerebellumStats.averageResponseTime snap = 0%float
  /\ CerebellumStats.costSaved snap = 0%float
  /\ CerebellumStats.taskTypeStats snap = [].

(** The four operations of the kernel that produce a response. *)
Inductive KernelCall :=
| CallGenerate (prompt : jsstring) (systemPrompt : option jsstring)
               (options : option CerebellumKernel.Options)
| CallQuickAnswer (question : jsstring)
| CallSummarize (text : jsstring) (maxLength : option Z)
| CallConvertFormat (content : jsstring)
                    (targetFormat : CerebellumKernel.Format).

Definition perform (kernel : CerebellumKernel.t) (call : KernelCall)
  : State World.t CerebellumResponse.t :=
  match call with
  | CallGenerate prompt systemPrompt options =>
      CerebellumKernel.generate kernel prompt systemPrompt options
  | CallQuickAnswer question => CerebellumKernel.quickAnswer kernel question
  | CallSummarize text maxLength =>
      CerebellumKernel.summarize kernel text maxLength
  | CallConvertFormat content targetFormat =>
      CerebellumKernel.convertFormat kernel content targetFormat
  end.

(** Every exception that the HTTP layer raises, from [fetch] or from reading
    a body, has a non-empty description. *)
Definition exceptionsCarryText (w : World.t) : Prop :=
  forall (n : nat) (req : Request.t),
    match World.network w n req with
    | inl e => errorText e <> []
    | inr response =>
        (forall e, Response.text response = inl e -> errorText e <> [])
        /\ (forall e, Response.json response = inl e -> errorText e <> [])
    end.

(** The three failures that [generate] words itself: the service does not
    answer, the model is not listed, the generation request is answered
    with an HTTP error, whose body follows the prefix. *)
Definition unavailableMessage : jsstring :=
  lit "Ollama service is not available. Please ensure Ollama is running.".

Definition missingModelMessage (kernel : CerebellumKernel.t) : jsstring :=
  lit "Model " ++ CerebellumConfig.model (CerebellumKernel.config kernel)
  ++ lit " is not available. Run 'ollama pull "
  ++ CerebellumConfig.model (CerebellumKernel.config kernel)
  ++ lit "' first.".

Definition wordedByKernel (kernel : CerebellumKernel.t) (e : jsstring)
  : Prop :=
  e = unavailableMessage
  \/ e = missingModelMessage kernel
  \/ exists body : jsstring, e = lit "Ollama API error: " ++ body.

(** An exception that [generate] can catch in a world: one that the network
    raises for a request, one that reading the body of an answer raises, or
    the [TypeError] of reading a field of a [null] document. *)
Definition raisedIn (w : World.t) (ex : Thrown) : Prop :=
  (exists (n : nat) (req : Request.t), World.network w n req = inl ex)
  \/ (exists (n : nat) (req : Request.t) (response : Response.t),
         World.network w n req = inr response
         /\ (Response.text response = inl ex
             \/ Response.json response = inl ex))
  \/ CerebellumKernel.generateFields JsonNull = inl ex.

(** The shape of a response, as the data model states it. *)
Definition failedResponseShape (r : CerebellumResponse.t) : Prop :=
  CerebellumResponse.text r = []
  /\ exists e, CerebellumResponse.error r = Some e /\ e <> [].

Definition statedResponseInvariant (r : CerebellumResponse.t) : Prop :=
  (CerebellumResponse.success r = false -> failedResponseShape r)
  /\ (CerebellumResponse.success r = true ->
      CerebellumResponse.error r = None).

(** Whatever is asked of it, in whatever state of the world over the same
    network, the kernel reports a failure. *)
Definition backendAlwaysFails (kernel : CerebellumKernel.t) (w : World.t)
  : Prop :=
  forall (call : KernelCall) (w' : World.t),
    World.network w' = World.network w ->
    CerebellumResponse.success (fst (perform kernel call w')) = false.

(** A world in which nothing answers: every [fetch] is refused, no file can
    be read, the clock stands at 0. *)
Definition deadWorld : World.t :=
  {| World.clock := fun _ => 0%Z;
     World.reads := 0;
     World.network := fun _ _ => inl (ErrorObject (lit "fetch failed"));
     World.sent := [];
     World.generateCalls := 0;
     World.files := fun _ => Unreadable;
     World.readOnly := fun _ => false;
     World.homedir := lit "/home/user";
     World.events := [] |}.

Definition withFiles (files : jsstring -> File) (w : World.t) : World.t :=
  World.mk (World.clock w) (World.reads w) (World.network w) (World.sent w)
           (World.generateCalls w) files (World.readOnly w) (World.homedir w)
           (World.events w).

Definition withNetwork (network : nat -> Request.t -> Outcome Response.t)
                       (w : World.t) : World.t :=
  World.mk (World.clock w) (World.reads w) network (World.sent w)
           (World.generateCalls w) (World.files w) (World.readOnly w)
           (World.homedir w) (World.events w).

(** A collector as [createStatsCollector] returns it. *)
Definition sampleCollector (enabled : bool) : StatsCollector.t :=
  fst (createStatsCollector
         {| StatsConfig.enabled := enabled;
            StatsConfig.logPath := lit "stats.json" |} deadWorld).

Definition sampleDecision (target : Target.t) : RoutingDecision.t :=
  {| RoutingDecision.target := target;
     RoutingDecision.assessment :=
       TaskEvaluator.evaluate defaultEvaluator
         (sampleTask greeting (lit "hello"));
     RoutingDecision.isManualOverride := false;
     RoutingDecision.timestamp := 0 |}.

(** Statistics left behind by an earlier run: three requests, one entry. *)
Definition earlierData : StatsData.t :=
  {| StatsData.entries :=
       [{| StatsEntry.timestamp := 0;
           StatsEntry.target := Target.cerebellum;
           StatsEntry.taskType := greeting;
           StatsEntry.success := Some true;
           StatsEntry.error := None;
           StatsEntry.durationMs := Some 40%float;
           StatsEntry.tokensInput := Some 5%float;
           StatsEntry.tokensOutput := Some 7%float |}];
     StatsData.totalRequests := 3;
     StatsData.successfulRequests := 1;
     StatsData.failedRequests := 0;
     StatsData.totalDurationMs := 40;
     StatsData.tokensSaved := 12;
     StatsData.lastUpdated := 0 |}.

(** A log that has reached the cap: 10000 entries and as many requests. *)
Definition fullLog : StatsData.t :=
  {| StatsData.entries :=
       repeat {| StatsEntry.timestamp := 0;
                 StatsEntry.target := Target.cerebrum;
                 StatsEntry.taskType := greeting;
                 StatsEntry.success := None;
                 StatsEntry.error := None;
                 StatsEntry.durationMs := None;
                 StatsEntry.tokensInput := None;
                 StatsEntry.tokensOutput := None |} (100 * 100);
     StatsData.totalRequests := 10000;
     StatsData.successfulRequests := 0;
     StatsData.failedRequests := 0;
     StatsData.totalDurationMs := 0;
     StatsData.tokensSaved := 0;
     StatsData.lastUpdated := 0 |}.

(** A log whose request count is 2^53, where binary64 stops counting in
    steps of one. *)
Definition saturatedLog : StatsData.t :=
  {| StatsData.entries := [];
     StatsData.totalRequests := 9007199254740992;
     StatsData.successfulRequests := 0;
     StatsData.failedRequests := 0;
     StatsData.totalDurationMs := 0;
     StatsData.tokensSaved := 0;
     StatsData.lastUpdated := 0 |}.

(** A network on which the model listing answers and names the configured
    model, and the generation request is refused with an [Error] whose
    message is the empty string. *)
Definition silentRefusalWorld : World.t :=
  withNetwork
    (fun n _ =>
       match n with
       | 0%nat | 1%nat =>
           inr {| Response.ok := true;
                  Response.text := inr [];
                  Response.json := inr (JsonTags [lit "qwen2.5:0.5b"]) |}
       | _ => inl (ErrorObject [])
       end)
    deadWorld.

Definition defaultKernel : CerebellumKernel.t :=
  createCerebellumKernel DEFAULT_CEREBELLUM_CONFIG.

(** The data of two loads agree on the entries and on the running totals
    (they may differ in the time stamp of the default data). *)
Definition sameRecords (a b : StatsData.t) : Prop :=
  StatsData.entries a = StatsData.entries b
  /\ runningTotals a = runningTotals b.

(** A router as [createDualKernelRouter] returns it, after its availability
    check has found the local backend reachable. *)
Definition sampleRouter (enableFallback : bool) : DualKernelRouter.t :=
  DualKernelRouter.setAvailable true
    (fst (createDualKernelRouter
            {| RouterOptions.config := DEFAULT_CEREBELLUM_CONFIG;
               RouterOptions.callbacks :=
                 Some (RouterCallbacks.mk true true true true);
               RouterOptions.enableFallback := Some enableFallback |}
            deadWorld)).

(** The greeting of the test suite. *)
Definition helloTask : TaskInfo.t :=
  {| TaskInfo.type := greeting;
     TaskInfo.prompt := lit "Hello there!";
     TaskInfo.hasCode := false;
     TaskInfo.hasMath := false;
     TaskInfo.estimatedTokens := 50;
     TaskInfo.isHighFrequency := true;
     TaskInfo.historyLength := 0;
     TaskInfo.isScheduledTask := false |}.

(** The result of [route] when the local kernel was tried and failed. *)
Definition failedRouteResult (enableFallback : bool)
           (assessment : TaskAssessment.t) (response : CerebellumResponse.t)
  : RouteResult.t :=
  if enableFallback then
    {| RouteResult.target := Target.cerebrum;
       RouteResult.assessment := assessment;
       RouteResult.cerebellumResponse := None;
       RouteResult.fallbackReason := CerebellumResponse.error response |}
  else
    {| RouteResult.target := Target.cerebellum;
       RouteResult.assessment := assessment;
       RouteResult.cerebellumResponse := Some response;
       RouteResult.fallbackReason := None |}.

(** A complete configuration written out as a [cerebellum] section, every
    property present. *)
Definition asSection (c : CerebellumConfig.t) : OpenClawConfig.t :=
  {| OpenClawConfig.cerebellum :=
       Some
         {| CerebellumOpenClawConfig.enabled :=
              Some (CerebellumConfig.enabled c);
            CerebellumOpenClawConfig.provider :=
              Some (CerebellumConfig.provider c);
            CerebellumOpenClawConfig.model := Some (CerebellumConfig.model c);
            CerebellumOpenClawConfig.baseUrl :=
              Some (CerebellumConfig.baseUrl c);
            CerebellumOpenClawConfig.thresholds :=
              Some
                {| CerebellumThresholdsConfig.maxEstimatedTime :=
                     Some (TaskThresholds.maxEstimatedTime
                             (CerebellumConfig.thresholds c));
                   CerebellumThresholdsConfig.maxComplexity :=
                     Some (TaskThresholds.maxComplexity
                             (CerebellumConfig.thresholds c));
                   CerebellumThresholdsConfig.minConfidence :=
                     Some (TaskThresholds.minConfidence
                             (CerebellumConfig.thresholds c)) |};
            CerebellumOpenClawConfig.forceCerebellumFor :=
              Some (CerebellumConfig.forceCerebellumFor c);
            CerebellumOpenClawConfig.forceCerebrumFor :=
              Some (CerebellumConfig.forceCerebrumFor c);
            CerebellumOpenClawConfig.stats :=
              Some
                {| CerebellumStatsConfig.enabled :=
                     Some (StatsConfig.enabled (CerebellumConfig.stats c));
                   CerebellumStatsConfig.logPath :=
                     Some (StatsConfig.logPath (CerebellumConfig.stats c)) |}
         |} |}.

(** The request by which the kernel asks for the model listing. *)
Definition tagsRequest (kernel : CerebellumKernel.t) : Request.t :=
  {| Request.url := CerebellumKernel.baseUrl kernel ++ lit "/api/tags";
     Request.method := GET;
     Request.body := NoBody;
     Request.timeoutMs := 5000 |}.

(** A request is the generation request of a kernel for a prompt: a POST to
    [/api/generate] whose body names the configured model and the prompt and
    asks for no streaming. *)
Definition isGenerateRequest (kernel : CerebellumKernel.t)
           (prompt : jsstring) (req : Request.t) : Prop :=
  Request.url req = CerebellumKernel.baseUrl kernel ++ lit "/api/generate"
  /\ Request.method req = POST
  /\ Request.timeoutMs req = 120000%Z
  /\ exists body,
       Request.body req = GenerateBody body
       /\ OllamaGenerateRequest.model body
          = CerebellumConfig.model (CerebellumKernel.config kernel)
       /\ OllamaGenerateRequest.prompt body = prompt
       /\ OllamaGenerateRequest.stream body = false.

(** [DEFAULT_CEREBELLUM_CONFIG] with another base URL. *)
Definition configAt (baseUrl : jsstring) : CerebellumConfig.t :=
  CerebellumConfig.mk
    (CerebellumConfig.enabled DEFAULT_CEREBELLUM_CONFIG)
    (CerebellumConfig.provider DEFAULT_CEREBELLUM_CONFIG)
    (CerebellumConfig.model DEFAULT_CEREBELLUM_CONFIG)
    baseUrl
    (CerebellumConfig.thresholds DEFAULT_CEREBELLUM_CONFIG)
    (CerebellumConfig.forceCerebellumFor DEFAULT_CEREBELLUM_CONFIG)
    (CerebellumConfig.forceCerebrumFor DEFAULT_CEREBELLUM_CONFIG)
    (CerebellumConfig.stats DEFAULT_CEREBELLUM_CONFIG).

(** A network on which the service answers every request with [ok], lists
    the default model, and returns a generation document. *)
Definition healthyWorld : World.t :=
  withNetwork
    (fun n _ =>
       match n with
       | 0%nat | 1%nat =>
           inr {| Response.ok := true;
                  Response.text := inr [];
                  Response.json := inr (JsonTags [lit "qwen2.5:0.5b"]) |}
       | _ =>
           inr {| Response.ok := true;
                  Response.text := inr [];
                  Response.json :=
                    inr (JsonGenerate
                           {| OllamaGenerateResponse.model :=
                                Some (lit "qwen2.5:0.5b");
                              OllamaGenerateResponse.response :=
                                Some (lit "Hello!");
                              OllamaGenerateResponse.prompt_eval_count :=
                                Some 5%Z;
                              OllamaGenerateResponse.eval_count :=
                                Some 7%Z |}) |}
       end)
    deadWorld.

(** The four writing operations of the collector. *)
Inductive StatsCall :=
| RecordDecision (decision : RoutingDecision.t)
| RecordSuccess (task : TaskInfo.t) (response : CerebellumResponse.t)
| RecordFailure (task : TaskInfo.t) (error : option jsstring)
| ResetStats.

Definition runStats (call : StatsCall) : StatsCollector.M unit :=
  match call with
  | RecordDecision decision => StatsCollector.recordDecision decision
  | RecordSuccess task response => StatsCollector.recordSuccess task response
  | RecordFailure task error => StatsCollector.recordFailure task error
  | ResetStats => StatsCollector.reset
  end.

Fixpoint runAllStats (calls : list StatsCall) : StatsCollector.M unit :=
  match calls with
  | [] => retT tt
  | c :: rest => (runStats c ;; runAllStats rest)%throwing
  end.

Definition isDecision (c : StatsCall) : bool :=
  match c with RecordDecision _ => true | _ => false end.

Definition isSuccess (c : StatsCall) : bool :=
  match c with RecordSuccess _ _ => true | _ => false end.

Definition isFailure (c : StatsCall) : bool :=
  match c with RecordFailure _ _ => true | _ => false end.

Definition isReset (c : StatsCall) : bool :=
  match c with ResetStats => true | _ => false end.

(** How many calls of a list satisfy a test. *)
Definition howMany (test : StatsCall -> bool) (calls : list StatsCall) : Z :=
  Z.of_nat (List.length (filter test calls)).

(** The collector of a new process at the same path: nothing cached. *)
Definition restarted (sc : StatsCollector.t) : StatsCollector.t :=
  StatsCollector.setCache None sc.

(** The entries of a task type, and those among them marked successful. *)
Definition entriesOf (ty : TaskType) (entries : list StatsEntry.t)
  : list StatsEntry.t :=
  filter (fun e => TaskType_eqb (StatsEntry.taskType e) ty) entries.

Definition isSuccessful (e : StatsEntry.t) : bool :=
  match StatsEntry.success e with Some true => true | _ => false end.


(** The sum of the counts of an accumulator of [getStats]. *)
Definition totalCount (o : list (TaskType * StatsCollector.Tally)) : Z :=
  fold_right (fun kv acc => (StatsCollector.count (snd kv) + acc)%Z) 0%Z o.

(** An accumulator of [getStats] tallies a list of entries: one key per
    task type that occurs, with the number of its entries and of its
    successful entries, and counts that add up to the length of the list. *)
Definition talliesOf (o : list (TaskType * StatsCollector.Tally))
           (entries : list StatsEntry.t) : Prop :=
  NoDup (map fst o)
  /\ (forall k, In k (map fst o) <-> In k (map StatsEntry.taskType entries))
  /\ (forall k v,
         In (k, v) o ->
         StatsCollector.count v
         = Z.of_nat (List.length (entriesOf k entries))
         /\ StatsCollector.successCount v
            = Z.of_nat (List.length
                          (filter isSuccessful (entriesOf k entries))))
  /\ totalCount o = Z.of_nat (List.length entries).

(** The sum of the counts of the per-type rows of a snapshot. *)
Definition totalRows (rows : list (TaskType * TypeStats.t)) : Z :=
  fold_right (fun kv acc => (TypeStats.count (snd kv) + acc)%Z) 0%Z rows.

(** The test that [route] makes before anything else: the assessment chose
    the local kernel, the configuration enables it, and the last
    availability check found it. *)
Definition routesLocally (self : DualKernelRouter.t) (task : TaskInfo.t)
  : bool :=
  TaskAssessment.useCerebellum
    (TaskEvaluator.evaluate (DualKernelRouter.evaluator self) task)
  && CerebellumConfig.enabled (DualKernelRouter.config self)
  && DualKernelRouter.cerebellumAvailable self.

(** The decision that [route] records for a task at a time. *)
Definition routeDecision (self : DualKernelRouter.t) (task : TaskInfo.t)
           (now : Z) : RoutingDecision.t :=
  {| RoutingDecision.target :=
       if routesLocally self task then Target.cerebellum
       else Target.cerebrum;
     RoutingDecision.assessment :=
       TaskEvaluator.evaluate (DualKernelRouter.evaluator self) task;
     RoutingDecision.isManualOverride := false;
     RoutingDecision.timestamp := now |}.

(** The two results of [route] that carry no fallback reason. *)
Definition remoteResult (assessment : TaskAssessment.t) : RouteResult.t :=
  {| RouteResult.target := Target.cerebrum;
     RouteResult.assessment := assessment;
     RouteResult.cerebellumResponse := None;
     RouteResult.fallbackReason := None |}.

Definition localResult (assessment : TaskAssessment.t)
           (response : CerebellumResponse.t) : RouteResult.t :=
  {| RouteResult.target := Target.cerebellum;
     RouteResult.assessment := assessment;
     RouteResult.cerebellumResponse := Some response;
     RouteResult.fallbackReason := None |}.

(** The kernel operation that [executeWithCerebellum] picks for a task
    type. *)
Definition kernelCallFor (ty : TaskType) (prompt : jsstring) : KernelCall :=
  match ty with
  | greeting | simple_qa | status_check => CallQuickAnswer prompt
  | text_summary => CallSummarize prompt (Some 3%Z)
  | format_conversion =>
      CallConvertFormat prompt (DualKernelRouter.detectTargetFormat prompt)
  | _ => CallGenerate prompt None None
  end.

(** Two routers that differ at most in what their collector has cached. *)
Definition sameRouterButCache (a b : DualKernelRouter.t) : Prop :=
  DualKernelRouter.config a = DualKernelRouter.config b
  /\ DualKernelRouter.cerebellum a = DualKernelRouter.cerebellum b
  /\ DualKernelRouter.evaluator a = DualKernelRouter.evaluator b
  /\ DualKernelRouter.callbacks a = DualKernelRouter.callbacks b
  /\ DualKernelRouter.enableFallback a = DualKernelRouter.enableFallback b
  /\ DualKernelRouter.cerebellumAvailable a
     = DualKernelRouter.cerebellumAvailable b
  /\ StatsCollector.config (DualKernelRouter.stats a)
     = StatsCollector.config (DualKernelRouter.stats b)
  /\ StatsCollector.logPath (DualKernelRouter.stats a)
     = StatsCollector.logPath (DualKernelRouter.stats b).

(** The callbacks that [route] invokes once the kernel has answered. *)
Definition outcomeEvents (self : DualKernelRouter.t) (task : TaskInfo.t)
           (response : CerebellumResponse.t) : list Event :=
  let callbacks := DualKernelRouter.callbacks self in
  if CerebellumResponse.success response then
    if RouterCallbacks.onCerebellumSuccess callbacks
    then [OnCerebellumSuccess response task] else []
  else
    (if RouterCallbacks.onCerebellumFailure callbacks
     then [OnCerebellumFailure
             (DualKernelRouter.errorOrUnknown
                (CerebellumResponse.error response)) task]
     else [])
    ++ (if DualKernelRouter.enableFallback self
           && RouterCallbacks.onFallbackToCerebrum callbacks
        then [OnFallbackToCerebrum
                (DualKernelRouter.fallbackMessage
                   (CerebellumResponse.error response)) task]
        else []).

(** What [route] records once the kernel has answered. *)
Definition outcomeCall (task : TaskInfo.t) (response : CerebellumResponse.t)
  : StatsCall :=
  if CerebellumResponse.success response then RecordSuccess task response
  else RecordFailure task (CerebellumResponse.error response).

(** The effect of a writing operation on the data it loads. *)
Definition applyCall (now : Z) (call : StatsCall) (data : StatsData.t)
  : StatsData.t :=
  match call with
  | RecordDecision decision => StatsCollector.addDecision now decision data
  | RecordSuccess _ response => StatsCollector.addSuccess response data
  | RecordFailure _ error => StatsCollector.addFailure error data
  | ResetStats => StatsCollector.emptyData now
  end.

(** How the statistics move, each addition in binary64: by one request; by
    no outcome; by the success of a response, with its duration and its
    tokens; by one failure. *)
Definition countedRequest (before after : StatsData.t) : Prop :=
  StatsData.totalRequests after
  = (StatsData.totalRequests before + 1)%float.

Definition noOutcome (before after : StatsData.t) : Prop :=
  StatsData.successfulRequests after = StatsData.successfulRequests before
  /\ StatsData.failedRequests after = StatsData.failedRequests before
  /\ StatsData.totalDurationMs after = StatsData.totalDurationMs before
  /\ StatsData.tokensSaved after = StatsData.tokensSaved before.

Definition countedSuccess (response : CerebellumResponse.t)
           (before after : StatsData.t) : Prop :=
  StatsData.successfulRequests after
  = (StatsData.successfulRequests before + 1)%float
  /\ StatsData.failedRequests after = StatsData.failedRequests before
  /\ StatsData.totalDurationMs after
     = (StatsData.totalDurationMs before
        + of_Z (CerebellumResponse.durationMs response))%float
  /\ StatsData.tokensSaved after
     = match CerebellumResponse.usage response with
       | Some usage =>
           (StatsData.tokensSaved before + of_Z (Usage.total usage))%float
       | None => StatsData.tokensSaved before
       end.

Definition countedFailure (before after : StatsData.t) : Prop :=
  StatsData.successfulRequests after = StatsData.successfulRequests before
  /\ StatsData.failedRequests after
     = (StatsData.failedRequests before + 1)%float
  /\ StatsData.totalDurationMs after = StatsData.totalDurationMs before
  /\ StatsData.tokensSaved after = StatsData.tokensSaved before.

Definition countedOutcome (response : CerebellumResponse.t)
           (before after : StatsData.t) : Prop :=
  if CerebellumResponse.success response
  then countedSuccess response before after
  else countedFailure before after.

(** Tasks routed one after the other, each awaited before the next. *)
Fixpoint routeAll (tasks : list TaskInfo.t)
  : DualKernelRouter.M (list RouteResult.t) :=
  match tasks with
  | [] => retT []
  | task :: rest =>
      (r <- DualKernelRouter.route task ;;
       rs <- routeAll rest ;;
       retT (r :: rs))%throwing
  end.

(** The statistics that a router reports from. *)
Definition routerStatistics (s : DualKernelRouter.t * World.t)
  : option StatsData.t :=
  statisticsOf (DualKernelRouter.stats (fst s)) (snd s).

(** A router as [createDualKernelRouter] returns it, before its
    availability check has completed. *)
Definition freshRouter : DualKernelRouter.t :=
  fst (createDualKernelRouter
         {| RouterOptions.config := DEFAULT_CEREBELLUM_CONFIG;
            RouterOptions.callbacks := None;
            RouterOptions.enableFallback := None |}
         deadWorld).

(** How many tasks of a list a router routes locally. *)
Definition howManyLocal (self : DualKernelRouter.t)
           (tasks : list TaskInfo.t) : nat :=
  List.length (filter (routesLocally self) tasks).

(** One of the two keyword rules of [checkForcedRules] applies to a task:
    the leftmost tags delimit content, an open tag has no close tag, or the
    trimmed prompt starts with a trigger prefix. *)
Definition keywordRuleFires (task : TaskInfo.t) : Prop :=
  leftmostPairDelimitsContent (TaskInfo.prompt task)
  \/ (match_ci openTag (TaskInfo.prompt task) <> None
      /\ match_ci closeTag (TaskInfo.prompt task) = None)
  \/ TaskEvaluator.hasTriggerPrefix
       (toLowerCase (trim (TaskInfo.prompt task))) = true.

(* ================================================================== *)
(** * Properties of the string primitives *)
(* ================================================================== *)

Lemma search_by_sound (eq : N -> N -> bool) (pat s : jsstring) (i : nat) :
  search_by eq pat s = Some i -> prefix_by eq pat (skipn i s) = true.
Proof.
  revert i. induction s as [|c s IH]; intros i; cbn [search_by].
  - destruct (prefix_by eq pat []) eqn:E; [|discriminate].
    intros [= <-]. exact E.
  - destruct (prefix_by eq pat (c :: s)) eqn:E.
    + intros [= <-]. exact E.
    + destruct (search_by eq pat s) as [k|]; [|discriminate].
      cbn [option_map]. intros [= <-]. cbn [skipn]. now apply IH.
Qed.

Lemma search_by_leftmost (eq : N -> N -> bool) (pat s : jsstring) (i j : nat) :
  search_by eq pat s = Some i -> (j < i)%nat ->
  prefix_by eq pat (skipn j s) = false.
Proof.
  revert i j. induction s as [|c s IH]; intros i j; cbn [search_by].
  - destruct (prefix_by eq pat []) eqn:E; [|discriminate].
    intros [= <-]. lia.
  - destruct (prefix_by eq pat (c :: s)) eqn:E.
    + intros [= <-]. lia.
    + destruct (search_by eq pat s) as [k|] eqn:Ek; [|discriminate].
      cbn [option_map]. intros [= <-] Hj.
      destruct j as [|j]; [exact E|]. cbn [skipn]. apply (IH k); [reflexivity|lia].
Qed.

Lemma search_by_complete (eq : N -> N -> bool) (pat s : jsstring) (j : nat) :
  prefix_by eq pat (skipn j s) = true ->
  exists i, search_by eq pat s = Some i /\ (i <= j)%nat.
Proof.
  revert j. induction s as [|c s IH]; intros j H; cbn [search_by].
  - rewrite skipn_nil in H. rewrite H. exists 0%nat. split; [reflexivity|lia].
  - destruct (prefix_by eq pat (c :: s)) eqn:E.
    + exists 0%nat. split; [reflexivity|lia].
    + destruct j as [|j]; [cbn in H; congruence|].
      cbn [skipn] in H. destruct (IH j H) as (i & -> & Hi).
      exists (S i). split; [reflexivity|lia].
Qed.

Lemma prefix_by_length (eq : N -> N -> bool) (pat s : jsstring) :
  prefix_by eq pat s = true -> (List.length pat <= List.length s)%nat.
Proof.
  revert s. induction pat as [|p pat IH]; intros [|c s]; cbn; intros H;
    try lia; try discriminate.
  apply andb_true_iff in H. destruct H as [_ H]. apply IH in H. lia.
Qed.

(** A match of a literal pattern has the length of the pattern and is
    leftmost. *)
Lemma match_ci_spec (pat s : jsstring) (m : RegExpMatch) :
  match_ci pat s = Some m ->
  occursAt pat s (index m)
  /\ List.length (matched m) = List.length pat
  /\ forall j, occursAt pat s j -> (index m <= j)%nat.
Proof.
  unfold match_ci, occursAt.
  destruct (search_by unit_eqb_ci pat s) as [i|] eqn:E; [|discriminate].
  intros [= <-]. cbn [index matched].
  pose proof (search_by_sound _ _ _ _ E) as Hs.
  split; [exact Hs|]. split.
  - rewrite length_firstn. apply prefix_by_length in Hs. lia.
  - intros j Hj. destruct (Nat.le_gt_cases i j) as [|Hlt]; [assumption|].
    rewrite (search_by_leftmost _ _ _ _ _ E Hlt) in Hj. discriminate.
Qed.

Lemma match_ci_none (pat s : jsstring) (j : nat) :
  match_ci pat s = None -> ~ occursAt pat s j.
Proof.
  unfold match_ci, occursAt. intros H Hj.
  destruct (search_by_complete _ _ _ _ Hj) as (i & E & _).
  rewrite E in H. discriminate.
Qed.

(** The tags delimited by the leftmost matches are a pair of tags with
    content between them. *)
Lemma leftmost_pair_is_paired (prompt : jsstring) :
  leftmostPairDelimitsContent prompt -> hasPairedMarker prompt.
Proof.
  intros (sm & em & Es & Ee & Hlt).
  destruct (match_ci_spec _ _ _ Es) as (Ho & Hlen & _).
  destruct (match_ci_spec _ _ _ Ee) as (Hc & _ & _).
  exists (index sm), (index em). repeat split; try assumption.
  now rewrite <- Hlen.
Qed.

(** A prompt with an open tag that ends before every close tag of the prompt
    starts, and with a close tag, is one whose leftmost matches delimit
    content. *)
Lemma open_before_every_close (prompt : jsstring) (i k : nat) :
  occursAt openTag prompt i ->
  occursAt closeTag prompt k ->
  (forall j, occursAt closeTag prompt j -> (i + List.length openTag < j)%nat) ->
  leftmostPairDelimitsContent prompt.
Proof.
  intros Ho Hc Hall.
  destruct (search_by_complete _ _ _ _ Ho) as (i0 & Ei & Hi).
  destruct (search_by_complete _ _ _ _ Hc) as (k0 & Ek & Hk).
  exists (mkMatch i0 (firstn (List.length openTag) (skipn i0 prompt))),
         (mkMatch k0 (firstn (List.length closeTag) (skipn k0 prompt))).
  unfold match_ci. rewrite Ei, Ek. repeat split. cbn [index matched].
  pose proof (search_by_sound _ _ _ _ Ei) as Hs.
  pose proof (Hall k0 (search_by_sound _ _ _ _ Ek)) as Hlt.
  rewrite length_firstn. apply prefix_by_length in Hs. lia.
Qed.

(* ================================================================== *)
(** * The forced rules of the evaluator *)
(* ================================================================== *)

Section ForcedRules.

Variable self : TaskEvaluator.t.
Variable task : TaskInfo.t.

Let forceLocal : bool :=
  includesType (CerebellumConfig.forceCerebellumFor
                  (TaskEvaluator.config self)) (TaskInfo.type task).

Let forceRemote : bool :=
  includesType (CerebellumConfig.forceCerebrumFor
                  (TaskEvaluator.config self)) (TaskInfo.type task).

(** The tag rule and the prefix rule only ever force the local kernel. *)
Lemma markerRule_local (a : TaskAssessment.t) :
  TaskEvaluator.markerRule task = Some a ->
  TaskAssessment.useCerebellum a = true
  /\ TaskAssessment.confidence a = 1%float
  /\ TaskAssessment.taskType a = keyword_triggered.
Proof.
  unfold TaskEvaluator.markerRule.
  destruct (match_ci (lit "<cb>") (TaskInfo.prompt task)) as [sm|];
    [|discriminate].
  destruct (match_ci (lit "</cb>") (TaskInfo.prompt task)) as [em|].
  - destruct (_ <? _)%nat; [|discriminate].
    intros [= <-]. repeat split.
  - intros [= <-]. repeat split.
Qed.

Lemma prefixRule_local (a : TaskAssessment.t) :
  TaskEvaluator.prefixRule task = Some a ->
  TaskAssessment.useCerebellum a = true
  /\ TaskAssessment.confidence a = 1%float
  /\ TaskAssessment.taskType a = keyword_triggered.
Proof.
  unfold TaskEvaluator.prefixRule.
  destruct (TaskEvaluator.hasTriggerPrefix _); [|discriminate].
  intros [= <-]. repeat split.
Qed.

(** Every assessment of the category rules has confidence 1. *)
Lemma categoryRules_confident (a : TaskAssessment.t) :
  TaskEvaluator.categoryRules self task = Some a ->
  TaskAssessment.confidence a = 1%float.
Proof.
  unfold TaskEvaluator.categoryRules.
  destruct (includesType _ _); [intros [= <-]; reflexivity|].
  destruct (includesType _ _); [intros [= <-]; reflexivity|discriminate].
Qed.

Lemma categoryRules_forceLocal :
  forceLocal = true ->
  exists a, TaskEvaluator.categoryRules self task = Some a
            /\ TaskAssessment.useCerebellum a = true.
Proof.
  unfold forceLocal, TaskEvaluator.categoryRules. intros ->.
  eexists. split; reflexivity.
Qed.

Lemma categoryRules_forceRemote :
  forceLocal = false -> forceRemote = true ->
  exists a, TaskEvaluator.categoryRules self task = Some a
            /\ TaskAssessment.useCerebellum a = false.
Proof.
  unfold forceLocal, forceRemote, TaskEvaluator.categoryRules.
  intros -> ->. eexists. split; reflexivity.
Qed.

(** On a task of either forced list some rule fires, and whichever fires
    reports confidence 1. *)
Lemma forced_type_is_decided :
  forceLocal = true \/ forceRemote = true ->
  exists a, TaskEvaluator.checkForcedRules self task = Some a
            /\ TaskAssessment.confidence a = 1%float.
Proof.
  intros H. unfold TaskEvaluator.checkForcedRules.
  destruct (TaskEvaluator.markerRule task) as [a|] eqn:Em.
  { exists a. split; [reflexivity|]. now apply markerRule_local. }
  unfold TaskEvaluator.afterMarkerRule.
  destruct (TaskEvaluator.prefixRule task) as [a|] eqn:Ep.
  { exists a. split; [reflexivity|]. now apply prefixRule_local. }
  destruct (TaskEvaluator.categoryRules self task) as [a|] eqn:Ec.
  { exists a. split; [reflexivity|]. now apply categoryRules_confident. }
  exfalso. revert Ec. unfold TaskEvaluator.categoryRules.
  fold forceLocal forceRemote.
  destruct H as [-> | H]; [discriminate|].
  destruct forceLocal; [discriminate|]. rewrite H. discriminate.
Qed.

(** No forced rule matches: no tag rule, no trigger prefix, and a declared
    type in neither list. *)
Lemma checkForcedRules_none :
  TaskEvaluator.checkForcedRules self task = None
  <-> TaskEvaluator.markerRule task = None
      /\ TaskEvaluator.prefixRule task = None
      /\ forceLocal = false /\ forceRemote = false.
Proof.
  unfold TaskEvaluator.checkForcedRules, TaskEvaluator.afterMarkerRule,
    TaskEvaluator.categoryRules.
  fold forceLocal forceRemote.
  destruct (TaskEvaluator.markerRule task), (TaskEvaluator.prefixRule task),
    forceLocal, forceRemote; split; try discriminate; try tauto;
    intros (? & ? & ? & ?); discriminate.
Qed.

Lemma evaluate_forced (a : TaskAssessment.t) :
  TaskEvaluator.checkForcedRules self task = Some a ->
  TaskEvaluator.evaluate self task = a.
Proof. unfold TaskEvaluator.evaluate. now intros ->. Qed.

Lemma evaluate_heuristic :
  TaskEvaluator.checkForcedRules self task = None ->
  TaskEvaluator.evaluate self task = heuristicAssessment self task.
Proof. unfold TaskEvaluator.evaluate. now intros ->. Qed.

(** C1, as amended.  A task whose declared type is in [forceCerebellumFor]
    is assessed with [useCerebellum = true] and confidence 1.0 whatever its
    prompt.  A task whose declared type is in [forceCerebrumFor] is
    assessed with confidence 1.0 whatever its prompt, and with
    [useCerebellum = false] when neither the tag rule nor the prefix rule
    fires and the type is not in [forceCerebellumFor] as well. *)
Theorem forced_category_precedence :
  (forceLocal = true ->
   TaskAssessment.useCerebellum (TaskEvaluator.evaluate self task) = true
   /\ TaskAssessment.confidence (TaskEvaluator.evaluate self task)
      = 1%float)
  /\ (forceRemote = true ->
      TaskAssessment.confidence (TaskEvaluator.evaluate self task)
      = 1%float
      /\ (TaskEvaluator.markerRule task = None ->
          TaskEvaluator.prefixRule task = None ->
          forceLocal = false ->
          TaskAssessment.useCerebellum (TaskEvaluator.evaluate self task)
          = false)).
Proof.
  split.
  - intros H.
    destruct (forced_type_is_decided (or_introl H)) as (a & Ea & Hc).
    rewrite (evaluate_forced _ Ea). split; [|exact Hc].
    revert Ea. unfold TaskEvaluator.checkForcedRules.
    destruct (TaskEvaluator.markerRule task) as [b|] eqn:Em.
    { intros [= <-]. now apply markerRule_local. }
    unfold TaskEvaluator.afterMarkerRule.
    destruct (TaskEvaluator.prefixRule task) as [b|] eqn:Ep.
    { intros [= <-]. now apply prefixRule_local. }
    destruct (categoryRules_forceLocal H) as (b & -> & Hb).
    now intros [= <-].
  - intros H.
    destruct (forced_type_is_decided (or_intror H)) as (a & Ea & Hc).
    rewrite (evaluate_forced _ Ea). split; [exact Hc|].
    intros Em Ep Hl. revert Ea.
    unfold TaskEvaluator.checkForcedRules, TaskEvaluator.afterMarkerRule.
    rewrite Em, Ep.
    destruct (categoryRules_forceRemote Hl H) as (b & -> & Hb).
    now intros [= <-].
Qed.

(** C2, as amended.  When the leftmost open tag of the prompt ends strictly
    before its leftmost close tag starts, the task is routed to the local
    kernel with confidence 1.0 as a "keyword_triggered" task, whatever the
    two category lists say about its declared type: the tag rule is
    applied before them. *)
Theorem marker_precedence_over_category :
  leftmostPairDelimitsContent (TaskInfo.prompt task) ->
  TaskAssessment.useCerebellum (TaskEvaluator.evaluate self task) = true
  /\ TaskAssessment.confidence (TaskEvaluator.evaluate self task) = 1%float
  /\ TaskAssessment.taskType (TaskEvaluator.evaluate self task)
     = keyword_triggered.
Proof.
  intros (sm & em & Es & Ee & Hlt).
  assert (exists a, TaskEvaluator.markerRule task = Some a) as (a & Ea).
  { unfold TaskEvaluator.markerRule. fold openTag closeTag.
    rewrite Es, Ee. apply Nat.ltb_lt in Hlt. rewrite Hlt. eauto. }
  rewrite (evaluate_forced a).
  - exact (markerRule_local _ Ea).
  - unfold TaskEvaluator.checkForcedRules. now rewrite Ea.
Qed.

(** C10.  When both tags occur and the leftmost close tag starts at or
    before the end of the leftmost open tag (empty content, or the close
    tag first), the tag rule returns nothing: [checkForcedRules] is then
    the prefix rule followed by the category lists, the branch of the
    unpaired open tag is not taken, and in particular a task without a
    trigger prefix whose type is only in [forceCerebrumFor] is routed to
    the remote kernel. *)
Theorem empty_or_reversed_marker_falls_through :
  leftmostPairIsEmptyOrReversed (TaskInfo.prompt task) ->
  TaskEvaluator.markerRule task = None
  /\ TaskEvaluator.checkForcedRules self task
     = TaskEvaluator.afterMarkerRule self task
  /\ (TaskEvaluator.prefixRule task = None ->
      TaskEvaluator.checkForcedRules self task
      = TaskEvaluator.categoryRules self task)
  /\ (TaskEvaluator.prefixRule task = None ->
      forceLocal = false -> forceRemote = true ->
      TaskAssessment.useCerebellum (TaskEvaluator.evaluate self task)
      = false).
Proof.
  intros (sm & em & Es & Ee & Hle).
  assert (TaskEvaluator.markerRule task = None) as Em.
  { unfold TaskEvaluator.markerRule. fold openTag closeTag.
    rewrite Es, Ee.
    destruct (Nat.ltb_spec (index sm + List.length (matched sm))
                           (index em)); [lia|reflexivity]. }
  assert (TaskEvaluator.checkForcedRules self task
          = TaskEvaluator.afterMarkerRule self task) as Ec.
  { unfold TaskEvaluator.checkForcedRules. now rewrite Em. }
  split; [exact Em|]. split; [exact Ec|]. split.
  - intros Ep. rewrite Ec. unfold TaskEvaluator.afterMarkerRule.
    now rewrite Ep.
  - intros Ep Hl Hr.
    destruct (categoryRules_forceRemote Hl Hr) as (b & Eb & Hb).
    rewrite (evaluate_forced b); [exact Hb|].
    rewrite Ec. unfold TaskEvaluator.afterMarkerRule. now rewrite Ep.
Qed.

(** The first test of [shouldUseCerebellum] decides alone. *)
Lemma shouldUseCerebellum_over_complexity
      (complexity : Z) (precision : Precision) (time confidence : float) :
  gt (of_Z complexity)
     (TaskThresholds.maxComplexity (TaskEvaluator.thresholds self)) = true ->
  TaskEvaluator.shouldUseCerebellum self task complexity precision time
                                    confidence = false.
Proof. unfold TaskEvaluator.shouldUseCerebellum. now intros ->. Qed.

(** C3.  When no forced rule matches and the computed complexity exceeds
    the configured [maxComplexity], [evaluate] returns
    [useCerebellum = false], whatever precision, time, confidence and
    hints come with it. *)
Theorem threshold_gating :
  TaskEvaluator.checkForcedRules self task = None ->
  gt (of_Z (computedComplexity task))
     (TaskThresholds.maxComplexity (TaskEvaluator.thresholds self)) = true ->
  TaskAssessment.useCerebellum (TaskEvaluator.evaluate self task) = false.
Proof.
  intros Hn Hc. rewrite (evaluate_heuristic Hn).
  unfold heuristicAssessment. cbn [TaskAssessment.useCerebellum].
  now apply shouldUseCerebellum_over_complexity.
Qed.

End ForcedRules.

(** C1, refuted as stated: with the default configuration, a task declared
    "code_generation" (in [forceCerebrumFor]) whose prompt is
    [<cb>summarize this</cb>] is assessed with [useCerebellum = true]. *)
Lemma forced_remote_overridden_by_marker :
  let task := sampleTask code_generation (lit "<cb>summarize this</cb>") in
  includesType (CerebellumConfig.forceCerebrumFor
                  (TaskEvaluator.config defaultEvaluator))
               (TaskInfo.type task) = true
  /\ TaskAssessment.useCerebellum (TaskEvaluator.evaluate defaultEvaluator task)
     = true.
Proof. split; vm_compute; reflexivity. Qed.

(** The forced lists at work on two tasks of the default configuration. *)
Lemma forced_category_precedence_witness :
  (let task := sampleTask greeting (lit "implement an algorithm") in
   TaskAssessment.useCerebellum (TaskEvaluator.evaluate defaultEvaluator task)
   = true
   /\ TaskAssessment.confidence (TaskEvaluator.evaluate defaultEvaluator task)
      = 1%float)
  /\ (let task := sampleTask research (lit "what is new in physics") in
      TaskAssessment.useCerebellum
        (TaskEvaluator.evaluate defaultEvaluator task) = false
      /\ TaskAssessment.confidence
           (TaskEvaluator.evaluate defaultEvaluator task) = 1%float).
Proof.
  split.
  - apply (proj1 (forced_category_precedence defaultEvaluator
                    (sampleTask greeting (lit "implement an algorithm")))).
    vm_compute; reflexivity.
  - pose proof (proj2 (forced_category_precedence defaultEvaluator
                  (sampleTask research (lit "what is new in physics")))) as H.
    destruct H as [Hc Hu]; [vm_compute; reflexivity|].
    split; [|exact Hc].
    apply Hu; vm_compute; reflexivity.
Defined.

(** C2, refuted as stated: the prompt [</cb><cb>x</cb>] contains an open tag
    followed, one code unit later, by a close tag, yet with the default
    configuration and the declared type "code_generation" the assessment is
    [useCerebellum = false]: the leftmost close tag is the stray one at
    index 0. *)
Lemma paired_marker_after_stray_close_goes_remote :
  let task := sampleTask code_generation (lit "</cb><cb>x</cb>") in
  hasPairedMarker (TaskInfo.prompt task)
  /\ includesType (CerebellumConfig.forceCerebrumFor
                     (TaskEvaluator.config defaultEvaluator))
                  (TaskInfo.type task) = true
  /\ TaskAssessment.useCerebellum (TaskEvaluator.evaluate defaultEvaluator task)
     = false.
Proof.
  split; [|split; vm_compute; reflexivity].
  exists 5%nat, 10%nat. repeat split; vm_compute; first [reflexivity | lia].
Qed.

(** The example of the specification: the tagged prompt of a task declared
    "code_generation". *)
Lemma marker_precedence_over_category_witness :
  let task := sampleTask code_generation (lit "<cb>summarize this</cb>") in
  TaskAssessment.useCerebellum (TaskEvaluator.evaluate defaultEvaluator task)
  = true
  /\ TaskAssessment.confidence (TaskEvaluator.evaluate defaultEvaluator task)
     = 1%float
  /\ TaskAssessment.taskType (TaskEvaluator.evaluate defaultEvaluator task)
     = keyword_triggered.
Proof.
  apply marker_precedence_over_category.
  exists (mkMatch 0 (lit "<cb>")), (mkMatch 18 (lit "</cb>")).
  repeat split; vm_compute; first [reflexivity | lia].
Defined.

(** A pair of tags with nothing between them. *)
Lemma empty_or_reversed_marker_witness :
  let task := sampleTask code_generation (lit "<cb></cb>") in
  TaskEvaluator.markerRule task = None
  /\ TaskAssessment.useCerebellum (TaskEvaluator.evaluate defaultEvaluator task)
     = false.
Proof.
  assert (leftmostPairIsEmptyOrReversed (lit "<cb></cb>")) as H.
  { exists (mkMatch 0 (lit "<cb>")), (mkMatch 4 (lit "</cb>")).
    repeat split; vm_compute; first [reflexivity | lia]. }
  destruct (empty_or_reversed_marker_falls_through defaultEvaluator
              (sampleTask code_generation (lit "<cb></cb>")) H)
    as (Hm & _ & _ & Hu).
  split; [exact Hm|]. apply Hu; vm_compute; reflexivity.
Defined.

(** A task detected as code generation, scored 9 against the default
    maximum of 4. *)
Lemma threshold_gating_witness :
  let task :=
    TaskInfo.mk unknown
      (lit "Implement a binary search tree with insertion and deletion")
      true false 1000 false 0 false in
  TaskAssessment.useCerebellum (TaskEvaluator.evaluate defaultEvaluator task)
  = false.
Proof.
  apply threshold_gating; vm_compute; reflexivity.
Defined.

(* ================================================================== *)
(** * The cases of [task-evaluator.test.ts], evaluated *)
(* ================================================================== *)

Example test_greeting :
  let a := TaskEvaluator.evaluate defaultEvaluator helloTask in
  TaskAssessment.useCerebellum a = true
  /\ TaskAssessment.taskType a = greeting
  /\ gt (TaskAssessment.confidence a) 0.5 = true.
Proof. repeat split. Qed.

Example test_code_generation :
  let a :=
    TaskEvaluator.evaluate defaultEvaluator
      (TaskInfo.mk code_generation
         (lit "Write a Python function to reverse a string")
         true false 500 false 0 false) in
  TaskAssessment.useCerebellum a = false
  /\ TaskAssessment.precisionRequirement a = high.
Proof. repeat split. Qed.

Example test_simple_qa :
  let a :=
    TaskEvaluator.evaluate defaultEvaluator
      (TaskInfo.mk simple_qa (lit "What is the capital of France?")
                   false false 100 true 0 false) in
  TaskAssessment.useCerebellum a = true
  /\ (TaskAssessment.complexity a <= 5)%Z
  /\ TaskAssessment.precisionRequirement a = low.
Proof. repeat split. cbn. lia. Qed.

Example test_complex_analysis :
  let a :=
    TaskEvaluator.evaluate defaultEvaluator
      (TaskInfo.mk complex_analysis
         (lit "Analyze the economic impact of artificial intelligence on global markets over the next decade")
         false true 2000 false 0 false) in
  TaskAssessment.useCerebellum a = false
  /\ (5 < TaskAssessment.complexity a)%Z.
Proof. repeat split. Qed.

Example test_scheduled_task :
  let a :=
    TaskEvaluator.evaluate defaultEvaluator
      (TaskInfo.mk scheduled_task (lit "Check disk space")
                   false false 100 true 0 true) in
  TaskAssessment.useCerebellum a = true
  /\ TaskAssessment.taskType a = scheduled_task.
Proof. repeat split. Qed.

Example test_complexity_of_code :
  let codeAssessment :=
    TaskEvaluator.evaluate defaultEvaluator
      (TaskInfo.mk unknown
         (lit "Implement a binary search tree with insertion and deletion")
         true false 1000 false 0 false) in
  let simpleAssessment :=
    TaskEvaluator.evaluate defaultEvaluator
      (TaskInfo.mk unknown (lit "What time is it?")
                   false false 50 true 0 false) in
  TaskAssessment.complexity codeAssessment = 9%Z
  /\ TaskAssessment.complexity simpleAssessment = 2%Z.
Proof. split; vm_compute; reflexivity. Qed.

Example test_complexity_of_length :
  let shortAssessment :=
    TaskEvaluator.evaluate defaultEvaluator
      (TaskInfo.mk unknown (lit "Short prompt")
                   false false 100 false 0 false) in
  let longAssessment :=
    TaskEvaluator.evaluate defaultEvaluator
      (TaskInfo.mk unknown (repeat 65%N 3000)
                   false false 800 false 0 false) in
  TaskAssessment.complexity shortAssessment = 2%Z
  /\ TaskAssessment.complexity longAssessment = 6%Z.
Proof. split; vm_compute; reflexivity. Qed.

Example test_confidence :
  let greetingAssessment :=
    TaskEvaluator.evaluate defaultEvaluator
      (TaskInfo.mk greeting (lit "Hello") false false 10 true 0 false) in
  let vagueAssessment :=
    TaskEvaluator.evaluate defaultEvaluator
      (TaskInfo.mk unknown (lit "Do something") false false 100 false 0 false)
  in
  gt (TaskAssessment.confidence greetingAssessment)
     (TaskAssessment.confidence vagueAssessment) = true.
Proof. vm_compute. reflexivity. Qed.

Example test_precision_of_math :
  TaskAssessment.precisionRequirement
    (TaskEvaluator.evaluate defaultEvaluator
       (TaskInfo.mk unknown
          (lit "Calculate the compound interest on $1000 at 5% for 10 years")
          false true 200 false 0 false)) = high.
Proof. vm_compute. reflexivity. Qed.

(* ================================================================== *)
(** * The complexity score *)
(* ================================================================== *)

Ltac split_comparisons :=
  repeat match goal with
         | |- context [(?a <? ?b)%Z] => destruct (Z.ltb_spec a b)
         end.

(** With the keyword findings and the scheduled hint fixed, a longer prompt
    never lowers the base score of the detected type. *)
Lemma detectType_base_monotone
      (hasCode hasMath hasCreative hasAnalysis hasPlanning isGreeting
       isStatusQuery isScheduledTask : bool) (n m : Z) :
  (n <= m)%Z ->
  (baseComplexity
     (TaskEvaluator.detectType hasCode hasMath hasCreative hasAnalysis
        hasPlanning isGreeting isStatusQuery isScheduledTask n)
   <= baseComplexity
        (TaskEvaluator.detectType hasCode hasMath hasCreative hasAnalysis
           hasPlanning isGreeting isStatusQuery isScheduledTask m))%Z.
Proof.
  intros Hnm. unfold TaskEvaluator.detectType.
  destruct isGreeting, isStatusQuery, hasCode, hasMath, isScheduledTask,
    hasPlanning, hasCreative, hasAnalysis;
    cbn [andb negb];
    split_comparisons; cbn; lia.
Qed.

Lemma bump_monotone (c d : bool) (x y : Z) :
  (c = true -> d = true) -> (x <= y)%Z ->
  (TaskEvaluator.bump c x <= TaskEvaluator.bump d y)%Z.
Proof.
  unfold TaskEvaluator.bump.
  destruct c, d; intros H Hxy; try lia; discriminate (H eq_refl).
Qed.

Lemma longer_than_monotone (k n m : Z) :
  (n <= m)%Z -> (k <? n)%Z = true -> (k <? m)%Z = true.
Proof. intros H Hk. apply Z.ltb_lt in Hk. apply Z.ltb_lt. lia. Qed.

(** C6.  Two tasks that differ in their prompts only, with the same keyword
    findings: if the second prompt is at least as long as the first, its
    computed complexity is at least that of the first.  This covers every
    growth of the prompt, across the 2000 and 5000 character thresholds and
    across the length thresholds of the type detection. *)
Theorem complexity_monotone_in_prompt_length
        (task : TaskInfo.t) (longer : jsstring) :
  sameKeywordAnalysis task (withPrompt longer task) ->
  (List.length (TaskInfo.prompt task) <= List.length longer)%nat ->
  (computedComplexity task <= computedComplexity (withPrompt longer task))%Z.
Proof.
  intros (Hcode & Hmath & Hcreative & Hanalysis & Hplanning & Hgreeting
          & Hstatus) Hlen.
  apply Nat2Z.inj_le in Hlen.
  unfold computedComplexity, TaskEvaluator.calculateComplexity.
  rewrite <- Hcode, <- Hmath.
  apply Z.min_le_compat_l, Z.max_le_compat_l.
  repeat (apply bump_monotone; [tauto|]).
  apply bump_monotone; [now apply longer_than_monotone|].
  apply bump_monotone; [now apply longer_than_monotone|].
  fold (baseComplexity
          (TaskAnalysis.detectedType (TaskEvaluator.analyzeTask task))).
  fold (baseComplexity
          (TaskAnalysis.detectedType
             (TaskEvaluator.analyzeTask (withPrompt longer task)))).
  revert Hcode Hmath Hcreative Hanalysis Hplanning Hgreeting Hstatus.
  unfold TaskEvaluator.analyzeTask.
  cbn [TaskAnalysis.hasCode TaskAnalysis.hasMath TaskAnalysis.hasCreative
       TaskAnalysis.hasAnalysis TaskAnalysis.hasPlanning
       TaskAnalysis.isGreeting TaskAnalysis.isStatusQuery
       TaskAnalysis.detectedType TaskAnalysis.promptLength
       withPrompt TaskInfo.prompt TaskInfo.hasCode TaskInfo.hasMath
       TaskInfo.isScheduledTask].
  intros <- <- <- <- <- <- <-.
  now apply detectType_base_monotone.
Qed.

(** A prompt of 1500 code units grown to 5200, across both thresholds. *)
Lemma complexity_monotone_witness :
  let task := sampleTask unknown (repeat 120%N 1500) in
  (computedComplexity task
   <= computedComplexity (withPrompt (repeat 120%N (52 * 100)) task))%Z.
Proof.
  apply complexity_monotone_in_prompt_length.
  - vm_compute. repeat split.
  - apply Nat.leb_le. vm_compute. reflexivity.
Defined.

(* ================================================================== *)
(** * Counting in binary64 *)
(* ================================================================== *)

Lemma Zpos_iter_xO (m n : positive) :
  Zpos (Pos.iter xO m n) = (Zpos m * 2 ^ Zpos n)%Z.
Proof.
  induction n as [|n IH] using Pos.peano_ind.
  - cbn [Pos.iter]. lia.
  - rewrite Pos.iter_succ, Pos2Z.inj_succ, Z.pow_succ_r by lia.
    change (Zpos (Pos.iter xO m n)~0) with (2 * Zpos (Pos.iter xO m n))%Z.
    rewrite IH. ring.
Qed.

Lemma Zpos_shl (m : positive) (k : Z) :
  (0 <= k)%Z -> Zpos (shl m k) = (Zpos m * 2 ^ k)%Z.
Proof.
  destruct k as [|n|n]; cbn [shl]; intros H;
    [rewrite Z.pow_0_r; lia | apply Zpos_iter_xO | lia].
Qed.

Lemma digits2_pos_iter_xO (m n : positive) :
  digits2_pos (Pos.iter xO m n) = (digits2_pos m + n)%positive.
Proof.
  induction n as [|n IH] using Pos.peano_ind.
  - cbn [Pos.iter digits2_pos]. lia.
  - rewrite Pos.iter_succ. cbn [digits2_pos]. rewrite IH. lia.
Qed.

Lemma digits_shl (m : positive) (k : Z) :
  (0 <= k)%Z ->
  Zpos (digits2_pos (shl m k)) = (Zpos (digits2_pos m) + k)%Z.
Proof.
  destruct k as [|n|n]; cbn [shl]; intros H; [lia| |lia].
  rewrite digits2_pos_iter_xO. lia.
Qed.

Lemma digits2_pos_lower (m : positive) :
  (2 ^ (Zpos (digits2_pos m) - 1) <= Zpos m)%Z.
Proof.
  induction m as [m IH|m IH|]; cbn [digits2_pos].
  - rewrite Pos2Z.inj_succ. change (Zpos m~1) with (2 * Zpos m + 1)%Z.
    replace (Z.succ (Zpos (digits2_pos m)) - 1)%Z
      with (Z.succ (Zpos (digits2_pos m) - 1)) by lia.
    rewrite Z.pow_succ_r by lia. lia.
  - rewrite Pos2Z.inj_succ. change (Zpos m~0) with (2 * Zpos m)%Z.
    replace (Z.succ (Zpos (digits2_pos m)) - 1)%Z
      with (Z.succ (Zpos (digits2_pos m) - 1)) by lia.
    rewrite Z.pow_succ_r by lia. lia.
  - cbn. lia.
Qed.

Lemma digits_below_2p53 (m : positive) :
  (Zpos m < 2 ^ 53)%Z -> (Zpos (digits2_pos m) <= 53)%Z.
Proof.
  intros H. pose proof (digits2_pos_lower m) as L.
  destruct (Z_le_gt_dec (Zpos (digits2_pos m)) 53) as [|G]; [assumption|].
  assert (2 ^ 53 <= 2 ^ (Zpos (digits2_pos m) - 1))%Z
    by (apply Z.pow_le_mono_r; lia).
  lia.
Qed.

Lemma iter_shr_1 (n : positive) :
  forall m : positive,
    SpecFloat.iter_pos shr_1 n
      {| shr_m := Zpos (Pos.iter xO m n); shr_r := false; shr_s := false |}
    = {| shr_m := Zpos m; shr_r := false; shr_s := false |}.
Proof.
  induction n as [n IH|n IH|]; intros m;
    cbn [SpecFloat.iter_pos Pos.iter shr_1 orb].
  - now rewrite !IH.
  - now rewrite !IH.
  - reflexivity.
Qed.

(** A mantissa of 53 bits at an exponent in range is a binary64 number as
    it stands. *)
Lemma round_aux_canonical (m : positive) (e : Z) :
  Zpos (digits2_pos m) = 53%Z -> (-1074 <= e <= 971)%Z ->
  binary_round_aux prec emax false (Zpos m) e loc_Exact
  = S754_finite false m e.
Proof.
  intros Hd He.
  assert (fexp prec emax (53 + e) - e = 0)%Z as Hf.
  { unfold fexp, emin, prec, emax. lia. }
  unfold binary_round_aux, shr_fexp. cbn [Zdigits2 shr_record_of_loc].
  rewrite Hd, Hf.
  cbn [shr shr_m loc_of_shr_record round_nearest_even Zdigits2
       shr_record_of_loc].
  rewrite Hd, Hf. cbn [shr shr_m].
  unfold emax, prec.
  destruct (Z.leb_spec e (1024 - 53)); [reflexivity|lia].
Qed.

(** Rounding a mantissa of at most 53 bits shifts it up to 53 bits. *)
Lemma round_short (m : positive) (e : Z) :
  let d := Zpos (digits2_pos m) in
  (d <= 53)%Z -> (-1074 <= d + e - 53 <= 971)%Z ->
  binary_round prec emax false m e
  = S754_finite false (shl m (53 - d)) (d + e - 53).
Proof.
  intros d Hd He.
  assert (fexp prec emax (d + e) = d + e - 53)%Z as Hf.
  { unfold fexp, emin, prec, emax. lia. }
  unfold binary_round. fold d. rewrite Hf.
  assert (shl_align m e (d + e - 53) = (shl m (53 - d), d + e - 53)%Z)
    as ->.
  { unfold shl_align.
    replace (d + e - 53 - e)%Z with (d - 53)%Z by lia.
    destruct (d - 53)%Z as [|k|k] eqn:Ek; [|lia|].
    - replace (53 - d)%Z with 0%Z by lia. cbn [shl]. f_equal. lia.
    - replace (53 - d)%Z with (Zpos k) by lia. reflexivity. }
  apply round_aux_canonical; [|lia].
  rewrite digits_shl by lia. fold d. lia.
Qed.

(** Rounding a mantissa that is a 53-bit one followed by zeros drops the
    zeros. *)
Lemma round_long (m : positive) (s e : Z) :
  Zpos (digits2_pos m) = 53%Z -> (0 <= s)%Z -> (-1074 <= e + s <= 971)%Z ->
  binary_round prec emax false (shl m s) e = S754_finite false m (e + s).
Proof.
  intros Hd Hs He.
  assert (Zpos (digits2_pos (shl m s)) = 53 + s)%Z as Hds
      by (rewrite digits_shl by lia; lia).
  assert (fexp prec emax (53 + s + e) = e + s)%Z as Hf.
  { unfold fexp, emin, prec, emax. lia. }
  unfold binary_round. rewrite Hds, Hf.
  assert (shl_align (shl m s) e (e + s) = (shl m s, e)) as ->.
  { unfold shl_align. replace (e + s - e)%Z with s by lia.
    destruct s; try reflexivity. lia. }
  destruct s as [|k|k]; [|clear Hs|lia].
  - cbn [shl] in *. replace (e + 0)%Z with e by lia.
    apply round_aux_canonical; [assumption|lia].
  - unfold binary_round_aux, shr_fexp. cbn [Zdigits2 shr_record_of_loc].
    rewrite Hds, Hf. replace (e + Zpos k - e)%Z with (Zpos k) by lia.
    cbn [shr shl]. rewrite iter_shr_1.
    cbn [shr_m loc_of_shr_record round_nearest_even Zdigits2
         shr_record_of_loc].
    rewrite Hd.
    assert (fexp prec emax (53 + (e + Zpos k)) - (e + Zpos k) = 0)%Z as ->.
    { unfold fexp, emin, prec, emax. lia. }
    cbn [shr shr_m]. unfold emax, prec.
    destruct (Z.leb_spec (e + Zpos k) (1024 - 53)); [reflexivity|lia].
Qed.

Lemma shl_shl (m : positive) (a b : Z) :
  (0 <= a)%Z -> (0 <= b)%Z -> shl (shl m a) b = shl m (a + b).
Proof.
  intros Ha Hb. apply Pos2Z.inj.
  rewrite !Zpos_shl by lia. rewrite Z.pow_add_r by lia. ring.
Qed.

Lemma Prim2SF_inj (x y : float) : Prim2SF x = Prim2SF y -> x = y.
Proof.
  intros H. rewrite <- (SF2Prim_Prim2SF x), <- (SF2Prim_Prim2SF y).
  now rewrite H.
Qed.

(** Below 2^63 the conversion is the one of the machine integers. *)
Lemma of_Z_small (z : Z) :
  (0 <= z < 2 ^ 63)%Z -> of_Z z = PrimFloat.of_uint63 (Uint63.of_Z z).
Proof.
  intros Hz. unfold of_Z.
  assert (Uint63Axioms.to_Z (Uint63.of_Z z) = z) as E.
  { rewrite Uint63.of_Z_spec. apply Z.mod_small.
    change Uint63.wB with (2 ^ 63)%Z. exact Hz. }
  transitivity (SF2Prim (Prim2SF (PrimFloat.of_uint63 (Uint63.of_Z z)))).
  - now rewrite of_uint63_spec, E.
  - apply SF2Prim_Prim2SF.
Qed.

(** The number that stands for a positive integer below 2^53. *)
Lemma Prim2SF_of_Z (p : positive) :
  (Zpos p < 2 ^ 53)%Z ->
  let d := Zpos (digits2_pos p) in
  Prim2SF (of_Z (Zpos p)) = S754_finite false (shl p (53 - d)) (d - 53).
Proof.
  intros Hp d.
  assert (Zpos p < 2 ^ 63)%Z as Hp'
      by (apply Z.lt_trans with (2 ^ 53)%Z; [assumption|reflexivity]).
  rewrite of_Z_small by (split; [lia|exact Hp']).
  rewrite of_uint63_spec.
  assert (Uint63Axioms.to_Z (Uint63.of_Z (Zpos p)) = Zpos p) as ->.
  { rewrite Uint63.of_Z_spec. apply Z.mod_small.
    change Uint63.wB with (2 ^ 63)%Z. split; [lia|exact Hp']. }
  cbn [binary_normalize].
  pose proof (digits_below_2p53 p Hp) as Hd.
  assert (1 <= Zpos (digits2_pos p))%Z by lia.
  rewrite round_short by (fold d; lia).
  fold d. f_equal; lia.
Qed.

(** Adding one to a natural number below 2^53 - 1 is exact. *)
Theorem of_Z_succ (z : Z) :
  (0 <= z)%Z -> (z + 1 < 2 ^ 53)%Z ->
  (of_Z z + 1)%float = of_Z (z + 1).
Proof.
  intros H0 H1. destruct z as [|p|p]; [reflexivity| |lia].
  apply Prim2SF_inj. rewrite FloatAxioms.add_spec.
  assert (Zpos p + 1 = Zpos (p + 1))%Z as Es by lia.
  rewrite Es.
  rewrite (Prim2SF_of_Z p) by lia.
  rewrite (Prim2SF_of_Z (p + 1)) by lia.
  set (d := Zpos (digits2_pos p)).
  set (d' := Zpos (digits2_pos (p + 1))).
  assert (1 <= d <= 53)%Z as Hd.
  { subst d. split; [lia|]. apply digits_below_2p53. lia. }
  assert (1 <= d' <= 53)%Z as Hd'.
  { subst d'. split; [lia|]. apply digits_below_2p53. lia. }
  change (Prim2SF 1) with (S754_finite false (shl 1 52) (-52)).
  unfold SF64add, SFadd.
  assert (Z.min (d - 53) (-52) = -52)%Z as -> by lia.
  assert (fst (shl_align (shl p (53 - d)) (d - 53) (-52)) = shl p 52) as ->.
  { unfold shl_align. 
    destruct (-52 - (d - 53))%Z as [|k|k] eqn:Ek; cbn [fst].
    - replace (53 - d)%Z with 52%Z by lia. reflexivity.
    - lia.
    - change (Pos.iter xO (shl p (53 - d)) k)
        with (shl (shl p (53 - d)) (Zpos k)).
      rewrite shl_shl by lia. f_equal. lia. }
  assert (fst (shl_align (shl 1 52) (-52) (-52)) = shl 1 52) as ->
      by reflexivity.
  cbn [cond_Zopp].
  assert (Zpos (shl p 52) + Zpos (shl 1 52) = Zpos (shl (p + 1) 52))%Z as ->.
  { rewrite !Zpos_shl by lia. lia. }
  cbn [binary_normalize].
  replace (shl (p + 1) 52) with (shl (shl (p + 1) (53 - d')) (d' - 1))
    by (rewrite shl_shl by lia; f_equal; lia).
  rewrite round_long.
  - f_equal. lia.
  - rewrite digits_shl by lia. fold d'. lia.
  - lia.
  - lia.
Qed.

(* ================================================================== *)
(** * The statistics collector *)
(* ================================================================== *)

Lemma sliceLast_spec {A} (n : Z) (l : list A) :
  (0 <= n)%Z ->
  (exists older, l = older ++ StatsCollector.sliceLast n l)
  /\ Z.of_nat (List.length (StatsCollector.sliceLast n l))
     = Z.min n (Z.of_nat (List.length l)).
Proof.
  intros Hn. unfold StatsCollector.sliceLast. split.
  - eexists. symmetry. apply firstn_skipn.
  - rewrite length_skipn. lia.
Qed.

Lemma sliceLast_keeps_last {A} (n : Z) (l : list A) (x : A) :
  (1 <= n)%Z ->
  exists older, StatsCollector.sliceLast n (l ++ [x]) = older ++ [x].
Proof.
  intros Hn. unfold StatsCollector.sliceLast.
  rewrite skipn_app, length_app. cbn [List.length].
  match goal with
  | |- context [skipn ?k [x]] => replace k with 0%nat by lia
  end.
  cbn [skipn]. eauto.
Qed.

Lemma sameButFilesAndReads_refl (w : World.t) : sameButFilesAndReads w w.
Proof. repeat split. Qed.

Lemma sameButFilesAndReads_trans (a b c : World.t) :
  sameButFilesAndReads a b -> sameButFilesAndReads b c ->
  sameButFilesAndReads a c.
Proof.
  intros (A1 & A2 & A3 & A4 & A5 & A6 & A7) (B1 & B2 & B3 & B4 & B5 & B6 & B7).
  repeat split; congruence.
Qed.

Lemma sameButFilesAndReads_tick (w : World.t) :
  sameButFilesAndReads (World.tick w) w.
Proof. repeat split. Qed.

(** [loadData], spelled out: it returns the loaded document, keeps every
    file, and leaves a collector that loads a document of the same kind
    wherever the files are the same. *)
Lemma loadData_run (sc : StatsCollector.t) (w : World.t) :
  exists (sc' : StatsCollector.t) (w' : World.t),
    StatsCollector.loadData (sc, w) = (loadedDocument sc w, (sc', w'))
    /\ StatsCollector.config sc' = StatsCollector.config sc
    /\ StatsCollector.logPath sc' = StatsCollector.logPath sc
    /\ World.files w' = World.files w
    /\ sameButFilesAndReads w' w
    /\ (forall data, loadedDocument sc w = Data data ->
                     sc' = StatsCollector.setCache (Some (Data data)) sc)
    /\ (loadedDocument sc w = Shapeless ->
        forall w'', World.files w'' = World.files w ->
                    loadedDocument sc' w'' = Shapeless).
Proof.
  unfold loadedDocument, StatsCollector.loadData.
  destruct sc as [cfg path [document|]]; cbn [StatsCollector.cache fst].
  - exists (StatsCollector.mk cfg path (Some document)), w.
    repeat split; try reflexivity.
    + now intros data ->.
    + now intros ->.
  - cbn [StatsCollector.logPath].
    destruct (World.files w path) as [| |data|truthy] eqn:Ef;
      cbn [Date_now fst snd StatsCollector.setCache StatsCollector.config
           StatsCollector.logPath];
      do 2 eexists; (split; [reflexivity|]);
      (split; [reflexivity|]); (split; [reflexivity|]);
      (split; [reflexivity|]);
      (split; [repeat split|]); split.
    + now intros data [= <-].
    + intros H; discriminate H.
    + now intros data [= <-].
    + intros H; discriminate H.
    + now intros data' [= <-].
    + intros H; discriminate H.
    + intros data' H; discriminate H.
    + intros _ w'' Hf.
      unfold loadedDocument, StatsCollector.loadData.
      destruct truthy;
        cbn [StatsCollector.cache StatsCollector.logPath
             StatsCollector.setCache fst]; [reflexivity|].
      now rewrite Hf, Ef.
Qed.

Lemma loadData_cached (sc : StatsCollector.t) (w : World.t)
      (document : Document) :
  StatsCollector.cache sc = Some document ->
  StatsCollector.loadData (sc, w) = (document, (sc, w)).
Proof. unfold StatsCollector.loadData. now intros ->. Qed.

Lemma statisticsOf_cached (sc : StatsCollector.t) (w : World.t)
      (data : StatsData.t) :
  StatsCollector.cache sc = Some (Data data) ->
  statisticsOf sc w = Some data.
Proof.
  intros H. unfold statisticsOf, loadedDocument.
  now rewrite (loadData_cached sc w _ H).
Qed.

Lemma statisticsOf_Data (sc : StatsCollector.t) (w : World.t)
      (data : StatsData.t) :
  statisticsOf sc w = Some data <-> loadedDocument sc w = Data data.
Proof.
  unfold statisticsOf. destruct (loadedDocument sc w); split; congruence.
Qed.

(** [loadStatistics]: the loaded statistics, or the [TypeError]. *)
Lemma loadStatistics_run (sc : StatsCollector.t) (w : World.t) :
  exists (sc' : StatsCollector.t) (w' : World.t),
    StatsCollector.loadStatistics (sc, w)
    = (match loadedDocument sc w with
       | Data data => inr data
       | Shapeless => inl StatsCollector.noEntriesError
       end, (sc', w'))
    /\ StatsCollector.config sc' = StatsCollector.config sc
    /\ StatsCollector.logPath sc' = StatsCollector.logPath sc
    /\ World.files w' = World.files w
    /\ sameButFilesAndReads w' w
    /\ (forall data, loadedDocument sc w = Data data ->
                     sc' = StatsCollector.setCache (Some (Data data)) sc)
    /\ (loadedDocument sc w = Shapeless ->
        forall w'', World.files w'' = World.files w ->
                    loadedDocument sc' w'' = Shapeless).
Proof.
  destruct (loadData_run sc w) as (sc' & w' & E & H).
  exists sc', w'. split; [|exact H].
  unfold StatsCollector.loadStatistics, bindT, lift. rewrite E.
  now destruct (loadedDocument sc w).
Qed.

(** [saveData] with the statistics enabled: the stamped data is cached and
    written where the path accepts it. *)
Lemma saveData_enabled (sc : StatsCollector.t) (w : World.t)
      (data : StatsData.t) :
  StatsConfig.enabled (StatsCollector.config sc) = true ->
  exists (stamp : Z) (w' : World.t),
    StatsCollector.saveData data (sc, w)
    = (inr tt,
       (StatsCollector.setCache
          (Some (Data (StatsCollector.setLastUpdated stamp data))) sc, w'))
    /\ sameButFilesAndReads w' w
    /\ filesAfterWrite (StatsCollector.logPath sc)
                       (StatsCollector.setLastUpdated stamp data) w w'.
Proof.
  intros He. unfold StatsCollector.saveData, Date_now. rewrite He.
  cbn [negb StatsCollector.logPath StatsCollector.setCache World.readOnly
       World.tick].
  exists (World.clock w (World.reads w)). eexists.
  split; [reflexivity|].
  unfold filesAfterWrite.
  destruct (World.readOnly w (StatsCollector.logPath sc));
    cbn [World.files World.store World.tick]; repeat split;
    try reflexivity; try discriminate.
  - intros p Hp. now destruct (list_eq_dec N.eq_dec p _).
  - intros _. now destruct (list_eq_dec N.eq_dec _ _).
Qed.

Lemma saveData_disabled (sc : StatsCollector.t) (w : World.t)
      (data : StatsData.t) :
  StatsConfig.enabled (StatsCollector.config sc) = false ->
  StatsCollector.saveData data (sc, w) = (inr tt, (sc, w)).
Proof. intros He. unfold StatsCollector.saveData. now rewrite He. Qed.

Lemma filesAfterWrite_after (path : jsstring) (data : StatsData.t)
      (w0 w w' : World.t) :
  World.files w = World.files w0 -> World.readOnly w = World.readOnly w0 ->
  filesAfterWrite path data w w' -> filesAfterWrite path data w0 w'.
Proof.
  intros Hf Hr (H1 & H2 & H3). unfold filesAfterWrite.
  rewrite <- Hf, <- Hr. now repeat split.
Qed.

(** [reset] with the statistics enabled, whatever the collector worked
    on. *)
Lemma reset_enabled (sc : StatsCollector.t) (w : World.t) :
  StatsConfig.enabled (StatsCollector.config sc) = true ->
  exists (now stamp : Z) (w' : World.t),
    StatsCollector.reset (sc, w)
    = (inr tt,
       (StatsCollector.setCache
          (Some (Data (StatsCollector.setLastUpdated
                         stamp (StatsCollector.emptyData now)))) sc, w'))
    /\ sameButFilesAndReads w' w
    /\ filesAfterWrite (StatsCollector.logPath sc)
                       (StatsCollector.setLastUpdated
                          stamp (StatsCollector.emptyData now)) w w'.
Proof.
  intros He.
  unfold StatsCollector.reset, bindT, StatsCollector.inWorld.
  cbn [fst snd]. unfold Date_now at 1.
  destruct (saveData_enabled sc (World.tick w)
              (StatsCollector.emptyData (World.clock w (World.reads w)))
              He) as (stamp & w' & E & Hs' & Hw).
  rewrite E. exists (World.clock w (World.reads w)), stamp, w'.
  split; [reflexivity|]. split.
  - apply sameButFilesAndReads_trans with (World.tick w);
      [exact Hs'|apply sameButFilesAndReads_tick].
  - exact Hw.
Qed.

(** A writing operation with the statistics enabled, on a collector that
    works on statistics: the statistics, changed as the operation says and
    stamped, are the new cache and are written where the path accepts
    it. *)
Lemma runStats_enabled (call : StatsCall) (sc : StatsCollector.t)
      (w : World.t) (before : StatsData.t) :
  StatsConfig.enabled (StatsCollector.config sc) = true ->
  statisticsOf sc w = Some before ->
  exists (now stamp : Z) (w' : World.t),
    runStats call (sc, w)
    = (inr tt,
       (StatsCollector.setCache
          (Some (Data (StatsCollector.setLastUpdated
                         stamp (applyCall now call before)))) sc, w'))
    /\ sameButFilesAndReads w' w
    /\ filesAfterWrite (StatsCollector.logPath sc)
                       (StatsCollector.setLastUpdated
                          stamp (applyCall now call before)) w w'.
Proof.
  intros He Hb. apply statisticsOf_Data in Hb.
  destruct (loadStatistics_run sc w)
    as (sc1 & w1 & El & Hc1 & Hp1 & Hf1 & Hs1 & Hdata & _).
  rewrite Hb in El. specialize (Hdata before Hb). subst sc1.
  assert (forall data w0,
             World.files w0 = World.files w -> sameButFilesAndReads w0 w ->
             exists stamp w',
               StatsCollector.saveData
                 data (StatsCollector.setCache (Some (Data before)) sc, w0)
               = (inr tt,
                  (StatsCollector.setCache
                     (Some (Data (StatsCollector.setLastUpdated stamp data)))
                     sc, w'))
               /\ sameButFilesAndReads w' w
               /\ filesAfterWrite (StatsCollector.logPath sc)
                    (StatsCollector.setLastUpdated stamp data) w w')
    as Hsave.
  { intros data w0 Hf Hs.
    destruct (saveData_enabled
                (StatsCollector.setCache (Some (Data before)) sc) w0 data He)
      as (stamp & w' & E & Hs' & Hw).
    exists stamp, w'. split; [exact E|]. split.
    - now apply sameButFilesAndReads_trans with w0.
    - apply filesAfterWrite_after with w0; [exact Hf| |exact Hw].
      now destruct Hs as (_ & _ & _ & _ & ? & _). }
  destruct call as [d|task response|task error|]; cbn [runStats applyCall].
  - unfold StatsCollector.recordDecision, StatsCollector.isEnabled, bindT,
      lift, gets, StatsCollector.inWorld.
    cbn [fst snd]. rewrite He. cbn [negb]. rewrite El. cbn [fst snd].
    unfold Date_now at 1.
    destruct (Hsave (StatsCollector.addDecision
                       (World.clock w1 (World.reads w1)) d before)
                    (World.tick w1))
      as (stamp & w' & E & H); [exact Hf1| |].
    { apply sameButFilesAndReads_trans with w1;
        [apply sameButFilesAndReads_tick|exact Hs1]. }
    rewrite E. now exists (World.clock w1 (World.reads w1)), stamp, w'.
  - unfold StatsCollector.recordSuccess, StatsCollector.isEnabled, bindT,
      lift, gets.
    cbn [fst snd]. rewrite He. cbn [negb]. rewrite El.
    destruct (Hsave (StatsCollector.addSuccess response before) w1)
      as (stamp & w' & E & H); [exact Hf1|exact Hs1|].
    rewrite E. now exists 0%Z, stamp, w'.
  - unfold StatsCollector.recordFailure, StatsCollector.isEnabled, bindT,
      lift, gets.
    cbn [fst snd]. rewrite He. cbn [negb]. rewrite El.
    destruct (Hsave (StatsCollector.addFailure error before) w1)
      as (stamp & w' & E & H); [exact Hf1|exact Hs1|].
    rewrite E. now exists 0%Z, stamp, w'.
  - now apply reset_enabled.
Qed.

(** With the statistics disabled the three recording methods return at
    their first test, and [reset] at the first test of [saveData], after
    it has read the clock for the data that it then drops. *)
Lemma recordDecision_disabled (sc : StatsCollector.t) (w : World.t)
      (d : RoutingDecision.t) :
  StatsConfig.enabled (StatsCollector.config sc) = false ->
  StatsCollector.recordDecision d (sc, w) = (inr tt, (sc, w)).
Proof.
  intros He.
  unfold StatsCollector.recordDecision, StatsCollector.isEnabled, bindT,
    lift, gets.
  cbn [fst]. now rewrite He.
Qed.

Lemma recordSuccess_disabled (sc : StatsCollector.t) (w : World.t)
      (task : TaskInfo.t) (response : CerebellumResponse.t) :
  StatsConfig.enabled (StatsCollector.config sc) = false ->
  StatsCollector.recordSuccess task response (sc, w) = (inr tt, (sc, w)).
Proof.
  intros He.
  unfold StatsCollector.recordSuccess, StatsCollector.isEnabled, bindT,
    lift, gets.
  cbn [fst]. now rewrite He.
Qed.

Lemma recordFailure_disabled (sc : StatsCollector.t) (w : World.t)
      (task : TaskInfo.t) (error : option jsstring) :
  StatsConfig.enabled (StatsCollector.config sc) = false ->
  StatsCollector.recordFailure task error (sc, w) = (inr tt, (sc, w)).
Proof.
  intros He.
  unfold StatsCollector.recordFailure, StatsCollector.isEnabled, bindT,
    lift, gets.
  cbn [fst]. now rewrite He.
Qed.

Lemma reset_disabled (sc : StatsCollector.t) (w : World.t) :
  StatsConfig.enabled (StatsCollector.config sc) = false ->
  StatsCollector.reset (sc, w) = (inr tt, (sc, World.tick w)).
Proof.
  intros He.
  unfold StatsCollector.reset, bindT, StatsCollector.inWorld, Date_now.
  cbn [fst snd]. now rewrite saveData_disabled.
Qed.

Lemma runStats_disabled (call : StatsCall) (sc : StatsCollector.t)
      (w : World.t) :
  StatsConfig.enabled (StatsCollector.config sc) = false ->
  exists w', runStats call (sc, w) = (inr tt, (sc, w'))
             /\ World.files w' = World.files w
             /\ sameButFilesAndReads w' w.
Proof.
  intros He. destruct call; cbn [runStats].
  - rewrite recordDecision_disabled by exact He. exists w.
    split; [reflexivity|]. split; [reflexivity|].
    apply sameButFilesAndReads_refl.
  - rewrite recordSuccess_disabled by exact He. exists w.
    split; [reflexivity|]. split; [reflexivity|].
    apply sameButFilesAndReads_refl.
  - rewrite recordFailure_disabled by exact He. exists w.
    split; [reflexivity|]. split; [reflexivity|].
    apply sameButFilesAndReads_refl.
  - rewrite reset_disabled by exact He. exists (World.tick w).
    split; [reflexivity|]. split; [reflexivity|].
    apply sameButFilesAndReads_tick.
Qed.

(** [getStats], whatever the switch: the snapshot of the statistics, or the
    [TypeError]; no file changes. *)
Lemma getStats_run (sc : StatsCollector.t) (w : World.t) :
  exists (sc' : StatsCollector.t) (w' : World.t),
    StatsCollector.getStats (sc, w)
    = (match loadedDocument sc w with
       | Data data => inr (StatsCollector.snapshot data)
       | Shapeless => inl StatsCollector.noEntriesError
       end, (sc', w'))
    /\ StatsCollector.config sc' = StatsCollector.config sc
    /\ StatsCollector.logPath sc' = StatsCollector.logPath sc
    /\ World.files w' = World.files w
    /\ sameButFilesAndReads w' w
    /\ (forall data, loadedDocument sc w = Data data ->
                     sc' = StatsCollector.setCache (Some (Data data)) sc)
    /\ (loadedDocument sc w = Shapeless ->
        forall w'', World.files w'' = World.files w ->
                    loadedDocument sc' w'' = Shapeless).
Proof.
  destruct (loadStatistics_run sc w) as (sc' & w' & E & H).
  exists sc', w'. split; [|exact H].
  unfold StatsCollector.getStats, bindT. rewrite E.
  now destruct (loadedDocument sc w).
Qed.

(** A recording method with the statistics enabled, on a collector that
    works on a document without entries: the [TypeError], and nothing
    written. *)
Lemma runStats_shapeless (call : StatsCall) (sc : StatsCollector.t)
      (w : World.t) :
  StatsConfig.enabled (StatsCollector.config sc) = true ->
  loadedDocument sc w = Shapeless ->
  isReset call = false ->
  exists (sc' : StatsCollector.t) (w' : World.t),
    runStats call (sc, w) = (inl StatsCollector.noEntriesError, (sc', w'))
    /\ StatsCollector.config sc' = StatsCollector.config sc
    /\ StatsCollector.logPath sc' = StatsCollector.logPath sc
    /\ World.files w' = World.files w
    /\ sameButFilesAndReads w' w
    /\ (forall w'', World.files w'' = World.files w ->
                    loadedDocument sc' w'' = Shapeless).
Proof.
  intros He Hd Hr.
  destruct (loadStatistics_run sc w)
    as (sc' & w' & El & Hc & Hp & Hf & Hs & _ & Hstuck).
  rewrite Hd in El. specialize (Hstuck Hd).
  exists sc', w'.
  split; [|repeat (split; [assumption|]); exact Hstuck].
  destruct call; try discriminate Hr; cbn [runStats];
    unfold StatsCollector.recordDecision, StatsCollector.recordSuccess,
      StatsCollector.recordFailure, StatsCollector.isEnabled, bindT, lift,
      gets; cbn [fst snd]; rewrite He; cbn [negb]; now rewrite El.
Qed.

Lemma counts_succ (x : float) (n : Z) :
  counts x n -> (n + 1 < 2 ^ 53)%Z -> counts (x + 1)%float (n + 1).
Proof.
  intros [-> [Hn _]] Hlt. split; [|lia].
  apply of_Z_succ; assumption.
Qed.

Lemma counts_zero : counts 0%float 0.
Proof. split; [reflexivity|lia]. Qed.

(** What one recorded decision does to the data. *)
Lemma addDecision_spec (now : Z) (d : RoutingDecision.t)
      (data : StatsData.t) :
  let after := StatsCollector.addDecision now d data in
  exists (entry : StatsEntry.t) (dropped : list StatsEntry.t),
    entryOf d entry
    /\ StatsEntry.timestamp entry = now
    /\ StatsData.entries data ++ [entry]
       = dropped ++ StatsData.entries after
    /\ ((Z.of_nat (List.length (StatsData.entries data)) < 10000)%Z ->
        dropped = [])
    /\ ((10000 <= Z.of_nat (List.length (StatsData.entries data)))%Z ->
        Z.of_nat (List.length (StatsData.entries after)) = 5000%Z)
    /\ (Z.of_nat (List.length (StatsData.entries after)) <= 10000)%Z
    /\ StatsData.totalRequests after
       = (StatsData.totalRequests data + 1)%float
    /\ StatsData.successfulRequests after
       = StatsData.successfulRequests data
    /\ StatsData.failedRequests after = StatsData.failedRequests data
    /\ StatsData.totalDurationMs after = StatsData.totalDurationMs data
    /\ StatsData.tokensSaved after = StatsData.tokensSaved data.
Proof.
  cbn zeta. unfold StatsCollector.addDecision.
  set (entry := StatsEntry.mk now _ _ None None None None None).
  cbn [StatsData.entries StatsData.totalRequests
       StatsData.successfulRequests StatsData.failedRequests
       StatsData.totalDurationMs StatsData.tokensSaved].
  set (entries := StatsData.entries data ++ [entry]).
  assert (List.length entries = S (List.length (StatsData.entries data)))
    as Hlen.
  { unfold entries. rewrite length_app. cbn. lia. }
  exists entry.
  destruct (10000 <? Z.of_nat (List.length entries))%Z eqn:Ecap.
  - apply Z.ltb_lt in Ecap.
    destruct (sliceLast_spec 5000 entries ltac:(lia)) as [[older Ho] Hl].
    exists older. repeat split; try reflexivity.
    + exact Ho.
    + intros H. lia.
    + intros _. lia.
    + lia.
  - apply Z.ltb_ge in Ecap. exists [].
    repeat split; try reflexivity; lia.
Qed.

(** The entry of a recorded decision is the last of the kept list. *)
Lemma addDecision_last (now : Z) (d : RoutingDecision.t)
      (data : StatsData.t) :
  exists (older : list StatsEntry.t) (entry : StatsEntry.t),
    StatsData.entries (StatsCollector.addDecision now d data)
    = older ++ [entry]
    /\ entryOf d entry
    /\ StatsEntry.timestamp entry = now
    /\ StatsEntry.error entry = None
    /\ StatsEntry.durationMs entry = None
    /\ StatsEntry.tokensInput entry = None
    /\ StatsEntry.tokensOutput entry = None.
Proof.
  unfold StatsCollector.addDecision. cbn [StatsData.entries].
  set (entry := StatsEntry.mk now _ _ None None None None None).
  destruct (10000 <? _)%Z.
  - destruct (sliceLast_keeps_last 5000 (StatsData.entries data) entry
                ltac:(lia)) as [older ->].
    exists older, entry. now repeat split.
  - exists (StatsData.entries data), entry. now repeat split.
Qed.

(** Decisions recorded one after the other by a collector that has its
    statistics cached and on file. *)
Lemma recordAll_run (ds : list RoutingDecision.t) :
  forall (sc : StatsCollector.t) (w : World.t) (data : StatsData.t) (n : Z),
    StatsConfig.enabled (StatsCollector.config sc) = true ->
    StatsCollector.cache sc = Some (Data data) ->
    (World.readOnly w (StatsCollector.logPath sc) = false ->
     World.files w (StatsCollector.logPath sc) = Stored data) ->
    counts (StatsData.totalRequests data) n ->
    (n + Z.of_nat (List.length ds) < 2 ^ 53)%Z ->
    (Z.of_nat (List.length (StatsData.entries data)) <= 10000)%Z ->
    exists (after : StatsData.t) (w' : World.t),
      recordAll ds (sc, w)
      = (inr tt, (StatsCollector.setCache (Some (Data after)) sc, w'))
      /\ counts (StatsData.totalRequests after)
                (n + Z.of_nat (List.length ds))
      /\ StatsData.successfulRequests after
         = StatsData.successfulRequests data
      /\ StatsData.failedRequests after = StatsData.failedRequests data
      /\ StatsData.totalDurationMs after = StatsData.totalDurationMs data
      /\ StatsData.tokensSaved after = StatsData.tokensSaved data
      /\ (Z.of_nat (List.length (StatsData.entries after)) <= 10000)%Z
      /\ sameButFilesAndReads w' w
      /\ (World.readOnly w (StatsCollector.logPath sc) = false ->
          World.files w' (StatsCollector.logPath sc) = Stored after).
Proof.
  induction ds as [|d ds IH]; intros sc w data n He Hc Hfile Hn Hlt Hlen.
  - exists data, w. cbn [recordAll List.length]. split; [|split].
    + unfold retT, ret. destruct sc as [cfg path c]. cbn in Hc. now subst c.
    + now rewrite Z.add_0_r.
    + repeat split; try reflexivity; assumption.
  - cbn [recordAll List.length] in *. unfold bindT at 1.
    destruct (runStats_enabled (RecordDecision d) sc w data He
                (statisticsOf_cached sc w data Hc))
      as (now & stamp & w1 & E & Hs1 & _ & Hw1' & _).
    cbn [runStats applyCall] in E, Hw1'. rewrite E.
    destruct (addDecision_spec now d data)
      as (entry & dropped & _ & _ & _ & _ & _ & Hcap & Htot & Hsu & Hfa
          & Hdu & Hto).
    cbn zeta in *.
    set (data1 := StatsCollector.setLastUpdated
                    stamp (StatsCollector.addDecision now d data)) in *.
    assert (World.readOnly w1 = World.readOnly w) as Hro
        by now destruct Hs1 as (_ & _ & _ & _ & ? & _).
    destruct (IH (StatsCollector.setCache (Some (Data data1)) sc) w1 data1
                 (n + 1)%Z He eq_refl)
      as (after & w' & E' & Hn' & Hsu' & Hfa' & Hdu' & Hto' & Hcap' & Hs'
          & Hfile').
    + cbn [StatsCollector.logPath StatsCollector.setCache]. rewrite Hro.
      exact Hw1'.
    + unfold data1. cbn [StatsCollector.setLastUpdated
                           StatsData.totalRequests].
      rewrite Htot. apply counts_succ; [exact Hn|lia].
    + lia.
    + exact Hcap.
    + rewrite E'. exists after, w'. split; [reflexivity|].
      split; [|split; [|split; [|split; [|split; [|split; [|split]]]]]].
      * replace (n + Z.of_nat (S (List.length ds)))%Z
          with (n + 1 + Z.of_nat (List.length ds))%Z by lia.
        exact Hn'.
      * now rewrite Hsu'.
      * now rewrite Hfa'.
      * now rewrite Hdu'.
      * now rewrite Hto'.
      * exact Hcap'.
      * now apply sameButFilesAndReads_trans with w1.
      * intros Hw. apply Hfile'.
        cbn [StatsCollector.logPath StatsCollector.setCache].
        now rewrite Hro.
Qed.

(** C7, as amended.  With the statistics enabled and a collector that
    works on statistics, one [recordDecision] appends one entry for the
    decision and adds one to [totalRequests] in binary64, which is the next
    integer as long as the count is an integer below 2^53 - 1.  When the
    list had already 10000 entries, only the most recent 5000 of the
    extended list are kept: the extended list is some dropped entries
    followed by the 5000 kept ones.  The other four totals are those of the data it loaded,
    so truncation never touches a total.  Hence after [reset] and fewer
    than 2^53 calls of [recordDecision] the stored list (in the cache, and
    in the file when the path accepts writes) has at most 10000 entries and
    [totalRequests] is the number of calls. *)
Theorem record_decision_totals_and_cap
        (sc : StatsCollector.t) (w : World.t) :
  StatsConfig.enabled (StatsCollector.config sc) = true ->
  (forall (d : RoutingDecision.t) (before : StatsData.t),
      statisticsOf sc w = Some before ->
      exists (after : StatsData.t) (entry : StatsEntry.t)
             (dropped : list StatsEntry.t),
        fst (StatsCollector.recordDecision d (sc, w)) = inr tt
        /\ StatsCollector.cache
             (fst (snd (StatsCollector.recordDecision d (sc, w))))
           = Some (Data after)
        /\ (World.readOnly w (StatsCollector.logPath sc) = false ->
            World.files (snd (snd (StatsCollector.recordDecision d (sc, w))))
                        (StatsCollector.logPath sc)
            = Stored after)
        /\ entryOf d entry
        /\ StatsData.entries before ++ [entry]
           = dropped ++ StatsData.entries after
        /\ ((Z.of_nat (List.length (StatsData.entries before)) < 10000)%Z ->
            dropped = [])
        /\ ((10000 <= Z.of_nat (List.length (StatsData.entries before)))%Z ->
            Z.of_nat (List.length (StatsData.entries after)) = 5000%Z)
        /\ (Z.of_nat (List.length (StatsData.entries after)) <= 10000)%Z
        /\ StatsData.totalRequests after
           = (StatsData.totalRequests before + 1)%float
        /\ (forall n : Z,
               counts (StatsData.totalRequests before) n ->
               (n + 1 < 2 ^ 53)%Z ->
               counts (StatsData.totalRequests after) (n + 1))
        /\ StatsData.successfulRequests after
           = StatsData.successfulRequests before
        /\ StatsData.failedRequests after = StatsData.failedRequests before
        /\ StatsData.totalDurationMs after
           = StatsData.totalDurationMs before
        /\ StatsData.tokensSaved after = StatsData.tokensSaved before)
  /\ (forall ds : list RoutingDecision.t,
         (Z.of_nat (List.length ds) < 2 ^ 53)%Z ->
         let run := recordAll ds (snd (StatsCollector.reset (sc, w))) in
         exists after : StatsData.t,
           fst run = inr tt
           /\ StatsCollector.cache (fst (snd run)) = Some (Data after)
           /\ counts (StatsData.totalRequests after)
                     (Z.of_nat (List.length ds))
           /\ StatsData.successfulRequests after = 0%float
           /\ StatsData.failedRequests after = 0%float
           /\ StatsData.totalDurationMs after = 0%float
           /\ StatsData.tokensSaved after = 0%float
           /\ (Z.of_nat (List.length (StatsData.entries after))
               <= 10000)%Z
           /\ (World.readOnly w (StatsCollector.logPath sc) = false ->
               World.files (snd (snd run)) (StatsCollector.logPath sc)
               = Stored after)).
Proof.
  intros He. split.
  - intros d before Hb.
    destruct (runStats_enabled (RecordDecision d) sc w before He Hb)
      as (now & stamp & w' & E & _ & _ & Hw & _).
    cbn [runStats applyCall] in E, Hw. rewrite E. cbn [fst snd].
    destruct (addDecision_spec now d before)
      as (entry & dropped & Hentry & _ & Happ & Hshort & Hhalf & Hcap
          & Htot & Hsu & Hfa & Hdu & Hto).
    cbn zeta in *.
    exists (StatsCollector.setLastUpdated
              stamp (StatsCollector.addDecision now d before)),
      entry, dropped.
    split; [reflexivity|]. split; [reflexivity|].
    split; [exact Hw|].
    split; [exact Hentry|]. split; [exact Happ|]. split; [exact Hshort|].
    split; [exact Hhalf|]. split; [exact Hcap|]. split; [exact Htot|].
    split; [|now repeat split].
    intros n Hn Hlt.
    cbn [StatsCollector.setLastUpdated StatsData.totalRequests].
    rewrite Htot. now apply counts_succ.
  - intros ds Hds.
    destruct (reset_enabled sc w He) as (now & stamp & w1 & E0 & Hs1 & Hw1).
    destruct Hw1 as (_ & Hw1 & _).
    rewrite E0. cbn zeta. cbn [snd].
    set (data0 := StatsCollector.setLastUpdated
                    stamp (StatsCollector.emptyData now)).
    assert (World.readOnly w1 = World.readOnly w) as Hro
        by now destruct Hs1 as (_ & _ & _ & _ & ? & _).
    destruct (recordAll_run ds
                (StatsCollector.setCache (Some (Data data0)) sc) w1 data0 0
                He eq_refl)
      as (after & w' & E' & Hn' & Hsu' & Hfa' & Hdu' & Hto' & Hcap' & _
          & Hfile').
    + cbn [StatsCollector.logPath StatsCollector.setCache] in *.
      rewrite Hro. exact Hw1.
    + exact counts_zero.
    + lia.
    + cbn. lia.
    + rewrite E'. cbn [fst snd]. exists after.
      split; [reflexivity|]. split; [reflexivity|].
      split; [now rewrite Z.add_0_l in Hn'|].
      split; [exact Hsu'|]. split; [exact Hfa'|]. split; [exact Hdu'|].
      split; [exact Hto'|]. split; [exact Hcap'|].
      intros Hw. apply Hfile'.
      cbn [StatsCollector.logPath StatsCollector.setCache]. now rewrite Hro.
Qed.

(** A decision recorded on a log of 10000 entries: 5000 entries are kept,
    and the decision is the 10001st request. *)
Lemma record_decision_witness :
  exists after : StatsData.t,
    StatsCollector.cache
      (fst (snd (StatsCollector.recordDecision
                   (sampleDecision Target.cerebellum)
                   (sampleCollector true,
                    withFiles (fun _ => Stored fullLog) deadWorld))))
    = Some (Data after)
    /\ Z.of_nat (List.length (StatsData.entries after)) = 5000%Z
    /\ counts (StatsData.totalRequests after) 10001.
Proof.
  destruct (record_decision_totals_and_cap
              (sampleCollector true)
              (withFiles (fun _ => Stored fullLog) deadWorld) eq_refl)
    as [H _].
  destruct (H (sampleDecision Target.cerebellum) fullLog eq_refl)
    as (after & entry & dropped & _ & Hc & _ & _ & _ & _ & Hhalf & _ & _
        & Hn & _).
  exists after. split; [exact Hc|]. split.
  - apply Hhalf. vm_compute. discriminate.
  - apply (Hn 10000%Z); [|reflexivity].
    split; [reflexivity|]. split; [discriminate|reflexivity].
Defined.

(** C7, where the claim fails: on a log whose request count is 2^53 a
    recorded decision appends its entry and leaves the count where it
    was. *)
Lemma total_requests_stuck_at_2p53 :
  let sc := sampleCollector true in
  let w := withFiles (fun _ => Stored saturatedLog) deadWorld in
  StatsConfig.enabled (StatsCollector.config sc) = true
  /\ statisticsOf sc w = Some saturatedLog
  /\ exists after : StatsData.t,
       StatsCollector.cache
         (fst (snd (StatsCollector.recordDecision
                      (sampleDecision Target.cerebrum) (sc, w))))
       = Some (Data after)
       /\ List.length (StatsData.entries after)
          = S (List.length (StatsData.entries saturatedLog))
       /\ StatsData.totalRequests saturatedLog = 9007199254740992%float
       /\ StatsData.totalRequests after = 9007199254740992%float.
Proof.
  cbn zeta. split; [reflexivity|]. split; [reflexivity|].
  eexists. split; [vm_compute; reflexivity|].
  repeat split.
Qed.

(** C8, as amended.  With the statistics disabled, [recordDecision],
    [recordSuccess] and [recordFailure] return without changing the
    collector or the world, and
    [reset] changes neither the collector nor any file.  [getStats] ignores
    the switch: it writes no file, and it returns the snapshot of the
    statistics that the collector has cached or that its file holds, and a
    snapshot with zero counts and an empty per-type map when nothing is
    cached and the file cannot be read or parsed. *)
Theorem disabled_stats_are_inert (sc : StatsCollector.t) (w : World.t) :
  StatsConfig.enabled (StatsCollector.config sc) = false ->
  (forall d, StatsCollector.recordDecision d (sc, w) = (inr tt, (sc, w)))
  /\ (forall task response,
         StatsCollector.recordSuccess task response (sc, w)
         = (inr tt, (sc, w)))
  /\ (forall task error,
         StatsCollector.recordFailure task error (sc, w)
         = (inr tt, (sc, w)))
  /\ (fst (StatsCollector.reset (sc, w)) = inr tt
      /\ fst (snd (StatsCollector.reset (sc, w))) = sc
      /\ World.files (snd (snd (StatsCollector.reset (sc, w))))
         = World.files w)
  /\ World.files (snd (snd (StatsCollector.getStats (sc, w))))
     = World.files w
  /\ (forall data : StatsData.t,
         statisticsOf sc w = Some data ->
         fst (StatsCollector.getStats (sc, w))
         = inr (StatsCollector.snapshot data))
  /\ (StatsCollector.cache sc = None ->
      World.files w (StatsCollector.logPath sc) = Unreadable
      \/ World.files w (StatsCollector.logPath sc) = Malformed ->
      exists snap : CerebellumStats.t,
        fst (StatsCollector.getStats (sc, w)) = inr snap
        /\ emptySnapshot snap).
Proof.
  intros He.
  split; [intros d; now apply recordDecision_disabled|].
  split; [intros task response; now apply recordSuccess_disabled|].
  split; [intros task error; now apply recordFailure_disabled|].
  split; [rewrite reset_disabled by exact He; now repeat split|].
  destruct (getStats_run sc w) as (sc' & w' & E & _ & _ & Hf & _).
  rewrite E. cbn [fst snd]. split; [exact Hf|]. split.
  - intros data Hd. apply statisticsOf_Data in Hd. now rewrite Hd.
  - intros Hc Hfile. unfold loadedDocument, StatsCollector.loadData.
    rewrite Hc.
    destruct Hfile as [-> | ->]; cbn [Date_now fst];
      eexists; (split; [reflexivity|]); now repeat split.
Qed.

(** C8, where the claim fails: a disabled collector whose file holds the
    statistics of an earlier run reports them, not an empty snapshot. *)
Lemma disabled_getStats_reports_stored_file :
  let sc := sampleCollector false in
  let w := withFiles (fun _ => Stored earlierData) deadWorld in
  StatsConfig.enabled (StatsCollector.config sc) = false
  /\ exists snap : CerebellumStats.t,
       fst (StatsCollector.getStats (sc, w)) = inr snap
       /\ CerebellumStats.totalRequests snap = 3%float
       /\ CerebellumStats.taskTypeStats snap <> [].
Proof.
  cbn zeta. split; [reflexivity|].
  eexists. split; [vm_compute; reflexivity|].
  split; [reflexivity|discriminate].
Qed.

(** A disabled collector in a world without a statistics file. *)
Lemma disabled_stats_witness :
  StatsCollector.recordDecision (sampleDecision Target.cerebellum)
                                (sampleCollector false, deadWorld)
  = (inr tt, (sampleCollector false, deadWorld))
  /\ exists snap : CerebellumStats.t,
       fst (StatsCollector.getStats (sampleCollector false, deadWorld))
       = inr snap
       /\ emptySnapshot snap.
Proof.
  destruct (disabled_stats_are_inert (sampleCollector false) deadWorld
              eq_refl) as (Hd & _ & _ & _ & _ & _ & Hempty).
  split; [apply Hd|].
  apply Hempty; [reflexivity|now left].
Defined.

(* ================================================================== *)
(** * The local backend client *)
(* ================================================================== *)

Ltac run_kernel :=
  unfold CerebellumKernel.generate, CerebellumKernel.isAvailable,
    CerebellumKernel.isModelAvailable, CerebellumKernel.failure,
    CerebellumKernel.generateFields, bind, modify, ret, fetch, Date_now;
  cbn [fst snd World.network World.sent World.send World.tick
       World.enterGenerate World.generateCalls World.files World.events
       World.readOnly World.clock World.reads World.homedir].

Ltac simpl_world :=
  cbn [fst snd negb World.network World.sent World.send World.tick
       World.enterGenerate World.generateCalls World.files World.events
       World.readOnly World.clock World.reads World.homedir Response.ok
       Response.text Response.json CerebellumResponse.success
       CerebellumResponse.text CerebellumResponse.error].

(** Case analysis on what the network answers, innermost question first. *)
Ltac case_outcomes :=
  repeat first
    [ match goal with
      | |- context [World.network ?w ?n ?req] =>
          destruct (World.network w n req) eqn:?; simpl_world
      end
    | match goal with
      | |- context [Response.ok ?r] =>
          destruct (Response.ok r) eqn:?; simpl_world
      end
    | match goal with
      | |- context [Response.json ?r] =>
          destruct (Response.json r) eqn:?; simpl_world
      end
    | match goal with
      | |- context [Response.text ?r] =>
          destruct (Response.text r) eqn:?; simpl_world
      end
    | match goal with
      | |- context [match ?x with _ => _ end] =>
          is_var x; destruct x; simpl_world
      end
    | match goal with
      | |- context [match ?x with _ => _ end] =>
          destruct x eqn:?; simpl_world
      end ].

(** What one [generate] does to the world: it is entered once, and it
    leaves the network, the files and the callbacks' events alone. *)
Lemma generate_frame (kernel : CerebellumKernel.t) (prompt : jsstring)
      (systemPrompt : option jsstring)
      (options : option CerebellumKernel.Options) (w : World.t) :
  let w' := snd (CerebellumKernel.generate kernel prompt systemPrompt
                                           options w) in
  World.generateCalls w' = S (World.generateCalls w)
  /\ World.network w' = World.network w
  /\ World.files w' = World.files w
  /\ World.readOnly w' = World.readOnly w
  /\ World.events w' = World.events w.
Proof.
  cbn zeta. run_kernel. case_outcomes; repeat split.
Qed.

Lemma perform_frame (kernel : CerebellumKernel.t) (call : KernelCall)
      (w : World.t) :
  let w' := snd (perform kernel call w) in
  World.generateCalls w' = S (World.generateCalls w)
  /\ World.network w' = World.network w
  /\ World.files w' = World.files w
  /\ World.readOnly w' = World.readOnly w
  /\ World.events w' = World.events w.
Proof. destruct call; apply generate_frame. Qed.

Lemma lit_app_nonempty (c : ascii) (s : string) (rest : jsstring) :
  lit (String c s) ++ rest <> [].
Proof. discriminate. Qed.

(** The shape of what [generate] returns. *)
Lemma generate_shape (kernel : CerebellumKernel.t) (prompt : jsstring)
      (systemPrompt : option jsstring)
      (options : option CerebellumKernel.Options) (w : World.t) :
  let r := fst (CerebellumKernel.generate kernel prompt systemPrompt
                                          options w) in
  (CerebellumResponse.success r = false ->
   CerebellumResponse.text r = []
   /\ exists e,
       CerebellumResponse.error r = Some e
       /\ ((wordedByKernel kernel e /\ e <> [])
           \/ exists ex, raisedIn w ex /\ e = errorText ex)
       /\ (exceptionsCarryText w -> e <> []))
  /\ (CerebellumResponse.success r = true ->
      CerebellumResponse.error r = None).
Proof.
  cbn zeta. run_kernel. case_outcomes;
    (split; [intros Hs|intros Hs]; try discriminate Hs; try reflexivity);
    (split; [reflexivity|]); eexists; (split; [reflexivity|]);
    (split; [|intros Hcarry; try apply lit_app_nonempty; try discriminate]).
  all: try (first
              [ left; split; [|discriminate];
                first [ left; reflexivity
                      | right; left; reflexivity
                      | right; right; eexists; reflexivity ]
              | right; eexists; split; [|reflexivity];
                first [ left; eauto; fail
                      | right; left; eauto 6; fail
                      | right; right; reflexivity ] ]).
  all: match goal with
       | E : World.network _ ?n ?req = _ |- _ =>
           pose proof (Hcarry n req) as Hn; rewrite E in Hn
       end.
  all: try exact Hn.
  all: destruct Hn as [Ht Hj]; eauto.
Qed.

Lemma perform_shape (kernel : CerebellumKernel.t) (call : KernelCall)
      (w : World.t) :
  let r := fst (perform kernel call w) in
  (CerebellumResponse.success r = false ->
   CerebellumResponse.text r = []
   /\ exists e,
       CerebellumResponse.error r = Some e
       /\ ((wordedByKernel kernel e /\ e <> [])
           \/ exists ex, raisedIn w ex /\ e = errorText ex)
       /\ (exceptionsCarryText w -> e <> []))
  /\ (CerebellumResponse.success r = true ->
      CerebellumResponse.error r = None).
Proof. destruct call; apply generate_shape. Qed.

(** C9, as amended.  Every response of [generate], [quickAnswer],
    [summarize] and [convertFormat] satisfies: [success = false] implies
    that [text] is empty and [error] is present, and the error is either
    one of the three messages that the kernel words itself (service
    unavailable, model missing, HTTP error), which are never empty, or the
    description of an exception that the exchange raised, which is empty
    exactly when that description is; so the error is non-empty whenever
    every exception raised by the HTTP layer has a non-empty description.
    [success = true] implies that [error] is absent. *)
Theorem kernel_response_shape (kernel : CerebellumKernel.t)
        (call : KernelCall) (w : World.t) :
  let r := fst (perform kernel call w) in
  (CerebellumResponse.success r = false ->
   CerebellumResponse.text r = []
   /\ exists e,
       CerebellumResponse.error r = Some e
       /\ ((wordedByKernel kernel e /\ e <> [])
           \/ exists ex, raisedIn w ex /\ e = errorText ex)
       /\ (exceptionsCarryText w -> e <> []))
  /\ (CerebellumResponse.success r = true ->
      CerebellumResponse.error r = None).
Proof. apply perform_shape. Qed.

(** Where every request is refused with the message "fetch failed", the
    stated invariant holds of the response. *)
Lemma kernel_response_shape_witness :
  statedResponseInvariant
    (fst (perform defaultKernel (CallQuickAnswer (lit "hello")) deadWorld)).
Proof.
  destruct (kernel_response_shape defaultKernel
              (CallQuickAnswer (lit "hello")) deadWorld) as [Hf Hs].
  split; [|exact Hs].
  intros Hfail. destruct (Hf Hfail) as (Ht & e & He & _ & Hne).
  split; [exact Ht|]. exists e. split; [exact He|].
  apply Hne. intros n req. cbn. discriminate.
Defined.

(** C9, refuted as stated: when the generation request is refused with an
    [Error] whose message is empty, [generate] returns [success = false]
    with the empty string as its error. *)
Lemma failed_response_with_empty_error :
  let r := fst (perform defaultKernel (CallGenerate (lit "hello") None None)
                        silentRefusalWorld) in
  CerebellumResponse.success r = false
  /\ CerebellumResponse.error r = Some []
  /\ ~ statedResponseInvariant r.
Proof.
  cbn zeta. split; [vm_compute; reflexivity|].
  split; [vm_compute; reflexivity|].
  intros [Hf _].
  destruct (Hf ltac:(vm_compute; reflexivity)) as (_ & e & He & Hne).
  vm_compute in He. injection He as <-. now apply Hne.
Qed.

(* ================================================================== *)
(** * The router *)
(* ================================================================== *)

(** The loaded entries and totals depend on the cache and on the files, not
    on the clock. *)
Lemma statisticsOf_files (sc : StatsCollector.t) (w w' : World.t)
      (before : StatsData.t) :
  World.files w' = World.files w ->
  statisticsOf sc w = Some before ->
  exists before',
    statisticsOf sc w' = Some before' /\ sameRecords before' before.
Proof.
  intros Hf. unfold statisticsOf, loadedDocument, StatsCollector.loadData.
  destruct (StatsCollector.cache sc) as [document|]; cbn [fst].
  - intros H. exists before. split; [exact H|split; reflexivity].
  - rewrite Hf.
    destruct (World.files w (StatsCollector.logPath sc));
      cbn [Date_now fst]; intros [= <-]; eexists;
      (split; [reflexivity|split; reflexivity]).
Qed.

Lemma statsReady_files (sc : StatsCollector.t) (w w' : World.t) :
  World.files w' = World.files w -> statsReady sc w -> statsReady sc w'.
Proof.
  intros Hf [Hd | [data Hdata]]; [now left|right].
  destruct (statisticsOf_files sc w w' data Hf Hdata) as (d' & H & _).
  now exists d'.
Qed.

Lemma sameRecords_sym (a b : StatsData.t) :
  sameRecords a b -> sameRecords b a.
Proof. intros [H1 H2]. now split. Qed.

Lemma updateLastLocal_last (f : StatsEntry.t -> StatsEntry.t)
      (older : list StatsEntry.t) (entry : StatsEntry.t) :
  StatsCollector.updateLastLocal f (older ++ [entry])
  = older ++ [if Target.eqb (StatsEntry.target entry) Target.cerebellum
              then f entry else entry].
Proof.
  induction older as [|x older IH]; cbn [app StatsCollector.updateLastLocal].
  - now destruct (Target.eqb _ _).
  - rewrite IH. destruct (older ++ [entry]) eqn:E; [|reflexivity].
    now destruct older.
Qed.

Lemma emit_run (supplied : RouterCallbacks.t -> bool) (e : Event)
      (self : DualKernelRouter.t) (w : World.t) :
  DualKernelRouter.emit supplied e (self, w)
  = (inr tt, (self, if supplied (DualKernelRouter.callbacks self)
                    then World.notify e w else w)).
Proof. unfold DualKernelRouter.emit. now destruct (supplied _). Qed.

(** A writing operation of the collector awaited from the router, when
    recording cannot throw. *)
Lemma inStats_step (call : StatsCall) (self : DualKernelRouter.t)
      (w : World.t) :
  statsReady (DualKernelRouter.stats self) w ->
  exists (sc' : StatsCollector.t) (w' : World.t),
    DualKernelRouter.inStats (runStats call) (self, w)
    = (inr tt, (DualKernelRouter.setStats sc' self, w'))
    /\ StatsCollector.config sc'
       = StatsCollector.config (DualKernelRouter.stats self)
    /\ StatsCollector.logPath sc'
       = StatsCollector.logPath (DualKernelRouter.stats self)
    /\ sameButFilesAndReads w' w
    /\ (forall w'', statsReady sc' w'')
    /\ (StatsConfig.enabled
          (StatsCollector.config (DualKernelRouter.stats self)) = true ->
        forall before,
          statisticsOf (DualKernelRouter.stats self) w = Some before ->
          exists now stamp,
            StatsCollector.cache sc'
            = Some (Data (StatsCollector.setLastUpdated
                            stamp (applyCall now call before)))
            /\ filesAfterWrite
                 (StatsCollector.logPath (DualKernelRouter.stats self))
                 (StatsCollector.setLastUpdated
                    stamp (applyCall now call before)) w w').
Proof.
  intros Hready. unfold DualKernelRouter.inStats.
  destruct (StatsConfig.enabled
              (StatsCollector.config (DualKernelRouter.stats self))) eqn:He.
  - destruct Hready as [Hd | [data Hdata]]; [congruence|].
    destruct (runStats_enabled call (DualKernelRouter.stats self) w data
                He Hdata) as (now & stamp & w' & E & Hs & Hw).
    rewrite E. cbn [fst snd]. do 2 eexists. split; [reflexivity|].
    split; [reflexivity|]. split; [reflexivity|]. split; [exact Hs|].
    split.
    + intros w''. right. eexists. now apply statisticsOf_cached.
    + intros _ before Hb. rewrite Hdata in Hb. injection Hb as <-.
      now exists now, stamp.
  - destruct (runStats_disabled call (DualKernelRouter.stats self) w He)
      as (w' & E & Hf & Hs).
    rewrite E. cbn [fst snd]. do 2 eexists. split; [reflexivity|].
    split; [reflexivity|]. split; [reflexivity|]. split; [exact Hs|].
    split; [intros w''; now left|discriminate].
Qed.

(** With a collector that works on a document without entries, a recording
    method awaited from the router rejects. *)
Lemma inStats_throws (call : StatsCall) (self : DualKernelRouter.t)
      (w : World.t) :
  StatsConfig.enabled
    (StatsCollector.config (DualKernelRouter.stats self)) = true ->
  loadedDocument (DualKernelRouter.stats self) w = Shapeless ->
  isReset call = false ->
  exists (sc' : StatsCollector.t) (w' : World.t),
    DualKernelRouter.inStats (runStats call) (self, w)
    = (inl StatsCollector.noEntriesError,
       (DualKernelRouter.setStats sc' self, w'))
    /\ StatsCollector.config sc'
       = StatsCollector.config (DualKernelRouter.stats self)
    /\ StatsCollector.logPath sc'
       = StatsCollector.logPath (DualKernelRouter.stats self)
    /\ World.files w' = World.files w
    /\ sameButFilesAndReads w' w.
Proof.
  intros He Hd Hr. unfold DualKernelRouter.inStats.
  destruct (runStats_shapeless call (DualKernelRouter.stats self) w He Hd Hr)
    as (sc' & w' & E & Hc & Hp & Hf & Hs & _).
  rewrite E. cbn [fst snd]. now exists sc', w'.
Qed.

Lemma executeWithCerebellum_run (task : TaskInfo.t)
      (assessment : TaskAssessment.t) (self : DualKernelRouter.t)
      (w : World.t) :
  let run :=
    perform (DualKernelRouter.cerebellum self)
            (kernelCallFor (TaskAssessment.taskType assessment)
                           (TaskInfo.prompt task)) w in
  DualKernelRouter.executeWithCerebellum task assessment (self, w)
  = (inr (fst run), (self, snd run)).
Proof.
  unfold DualKernelRouter.executeWithCerebellum, bindT,
    DualKernelRouter.self_, lift, gets, DualKernelRouter.inWorld,
    kernelCallFor.
  cbn [fst snd].
  destruct (TaskAssessment.taskType assessment); cbn [perform fst snd];
    match goal with
    | |- (let (_, _) := ?m in _) = _ => now destruct m
    end.
Qed.

Lemma sameRouterButCache_setStats (sc : StatsCollector.t)
      (self : DualKernelRouter.t) :
  StatsCollector.config sc
  = StatsCollector.config (DualKernelRouter.stats self) ->
  StatsCollector.logPath sc
  = StatsCollector.logPath (DualKernelRouter.stats self) ->
  sameRouterButCache (DualKernelRouter.setStats sc self) self.
Proof. intros H1 H2. repeat split; assumption. Qed.

(** The world in which a router announces a decision: the clock has been
    read once more and the callback, when supplied, has been invoked. *)
Lemma announced_world (self : DualKernelRouter.t) (w : World.t)
      (d : RoutingDecision.t) :
  let w1 := if RouterCallbacks.onRoutingDecision
                 (DualKernelRouter.callbacks self)
            then World.notify (OnRoutingDecision d) (World.tick w)
            else World.tick w in
  World.network w1 = World.network w
  /\ World.sent w1 = World.sent w
  /\ World.generateCalls w1 = World.generateCalls w
  /\ World.files w1 = World.files w
  /\ World.readOnly w1 = World.readOnly w
  /\ World.events w1
     = World.events w
       ++ (if RouterCallbacks.onRoutingDecision
                (DualKernelRouter.callbacks self)
           then [OnRoutingDecision d] else []).
Proof.
  cbn zeta.
  destruct (RouterCallbacks.onRoutingDecision _); cbn;
    rewrite ?app_nil_r; repeat split; reflexivity.
Qed.

(** The whole of [route] when recording cannot throw, phase by phase: the
    decision is announced and recorded without a request to the network;
    then, when the task is routed locally, one kernel operation runs in the
    world so reached, its outcome is recorded and announced. *)
Lemma route_run (self : DualKernelRouter.t) (w : World.t)
      (task : TaskInfo.t) :
  statsReady (DualKernelRouter.stats self) w ->
  let a := TaskEvaluator.evaluate (DualKernelRouter.evaluator self) task in
  exists (now : Z) (sc1 : StatsCollector.t) (w2 : World.t),
    let d := routeDecision self task now in
    World.network w2 = World.network w
    /\ World.sent w2 = World.sent w
    /\ World.generateCalls w2 = World.generateCalls w
    /\ World.events w2
       = World.events w
         ++ (if RouterCallbacks.onRoutingDecision
                  (DualKernelRouter.callbacks self)
             then [OnRoutingDecision d] else [])
    /\ StatsCollector.config sc1
       = StatsCollector.config (DualKernelRouter.stats self)
    /\ StatsCollector.logPath sc1
       = StatsCollector.logPath (DualKernelRouter.stats self)
    /\ (forall w'', statsReady sc1 w'')
    /\ (StatsConfig.enabled
          (StatsCollector.config (DualKernelRouter.stats self)) = true ->
        forall before,
          statisticsOf (DualKernelRouter.stats self) w = Some before ->
          exists at_ stamp before',
            sameRecords before' before
            /\ StatsCollector.cache sc1
               = Some (Data (StatsCollector.setLastUpdated
                               stamp
                               (StatsCollector.addDecision at_ d before'))))
    /\ if routesLocally self task then
         let run :=
           perform (DualKernelRouter.cerebellum self)
                   (kernelCallFor (TaskAssessment.taskType a)
                                  (TaskInfo.prompt task)) w2 in
         let response := fst run in
         exists (sc2 : StatsCollector.t) (w4 : World.t),
           DualKernelRouter.route task (self, w)
           = (inr (if CerebellumResponse.success response
                   then localResult a response
                   else failedRouteResult
                          (DualKernelRouter.enableFallback self) a response),
              (DualKernelRouter.setStats sc2 self, w4))
           /\ World.network w4 = World.network w
           /\ World.sent w4 = World.sent (snd run)
           /\ World.generateCalls w4 = S (World.generateCalls w)
           /\ World.events w4
              = World.events w2 ++ outcomeEvents self task response
           /\ StatsCollector.config sc2
              = StatsCollector.config (DualKernelRouter.stats self)
           /\ StatsCollector.logPath sc2
              = StatsCollector.logPath (DualKernelRouter.stats self)
           /\ (forall w'', statsReady sc2 w'')
           /\ (StatsConfig.enabled
                 (StatsCollector.config (DualKernelRouter.stats self))
               = true ->
               forall data1,
                 StatsCollector.cache sc1 = Some (Data data1) ->
                 exists at_ stamp,
                   StatsCollector.cache sc2
                   = Some (Data (StatsCollector.setLastUpdated
                                   stamp
                                   (applyCall at_ (outcomeCall task response)
                                              data1))))
       else
         DualKernelRouter.route task (self, w)
         = (inr (remoteResult a), (DualKernelRouter.setStats sc1 self, w2)).
Proof.
  intros Hready. cbn zeta.
  set (a := TaskEvaluator.evaluate (DualKernelRouter.evaluator self) task).
  set (now := World.clock w (World.reads w)).
  set (d := routeDecision self task now).
  set (w1 := if RouterCallbacks.onRoutingDecision
                  (DualKernelRouter.callbacks self)
             then World.notify (OnRoutingDecision d) (World.tick w)
             else World.tick w).
  destruct (announced_world self w d) as (Hn1 & Hs1 & Hg1 & Hf1 & _ & Hev1).
  cbn zeta in Hn1, Hs1, Hg1, Hf1, Hev1.
  fold w1 in Hn1, Hs1, Hg1, Hf1, Hev1.
  destruct (inStats_step (RecordDecision d) self w1
              (statsReady_files _ w w1 Hf1 Hready))
    as (sc1 & w2 & E1 & Hc2 & Hp2 & Hsame2 & Hready2 & Hst2).
  destruct Hsame2 as (_ & Hn2 & Hs2 & Hg2 & _ & _ & Hev2).
  cbn [runStats] in E1.
  exists now, sc1, w2. cbn zeta. fold d.
  split; [congruence|]. split; [congruence|]. split; [congruence|].
  split; [now rewrite Hev2|]. split; [exact Hc2|]. split; [exact Hp2|].
  split; [exact Hready2|].
  split.
  { intros He before Hb.
    destruct (statisticsOf_files _ w w1 before Hf1 Hb)
      as (before' & Hb' & Hsame).
    destruct (Hst2 He before' Hb') as (at_ & stamp & Hc & _).
    now exists at_, stamp, before'. }
  remember (DualKernelRouter.route task (self, w)) as r eqn:R.
  unfold DualKernelRouter.route, bindT, DualKernelRouter.self_, lift, gets
    in R.
  cbn [fst snd] in R.
  unfold DualKernelRouter.inWorld, Date_now in R. cbn [fst snd] in R.
  rewrite emit_run in R.
  match type of R with
  | context [DualKernelRouter.inStats (StatsCollector.recordDecision ?x) ?s] =>
      change (DualKernelRouter.inStats (StatsCollector.recordDecision x) s)
        with (DualKernelRouter.inStats (StatsCollector.recordDecision d)
                                       (self, w1)) in R
  end.
  rewrite E1 in R.
  destruct (routesLocally self task) eqn:Ego;
    unfold routesLocally in Ego; rewrite Ego in R; [|exact R].
  rewrite executeWithCerebellum_run in R. cbn zeta in R.
  change (DualKernelRouter.cerebellum (DualKernelRouter.setStats sc1 self))
    with (DualKernelRouter.cerebellum self) in R.
  fold a in R.
  set (run := perform (DualKernelRouter.cerebellum self)
                      (kernelCallFor (TaskAssessment.taskType a)
                                     (TaskInfo.prompt task)) w2) in *.
  destruct (perform_frame (DualKernelRouter.cerebellum self)
              (kernelCallFor (TaskAssessment.taskType a)
                             (TaskInfo.prompt task)) w2)
    as (Hg3 & Hn3 & _ & _ & Hev3).
  fold run in Hg3, Hn3, Hev3.
  set (self1 := DualKernelRouter.setStats sc1 self) in *.
  destruct (inStats_step (outcomeCall task (fst run)) self1 (snd run)
              (Hready2 (snd run)))
    as (sc2 & w4 & E4 & Hc4 & Hp4 & Hsame4 & Hready4 & Hst4).
  destruct Hsame4 as (_ & Hn4 & Hs4 & Hg4 & _ & _ & Hev4).
  change (DualKernelRouter.stats self1) with sc1 in *.
  assert (StatsConfig.enabled
            (StatsCollector.config (DualKernelRouter.stats self)) = true ->
          forall data1,
            StatsCollector.cache sc1 = Some (Data data1) ->
            exists at_ stamp,
              StatsCollector.cache sc2
              = Some (Data (StatsCollector.setLastUpdated
                              stamp
                              (applyCall at_ (outcomeCall task (fst run))
                                         data1)))) as Hst.
  { intros He data1 Hc1.
    destruct (Hst4 ltac:(congruence) data1
                   (statisticsOf_cached sc1 (snd run) data1 Hc1))
      as (at_ & stamp & Hc & _).
    now exists at_, stamp. }
  clear Hst4.
  unfold outcomeEvents. unfold outcomeCall in E4. cbn [runStats] in E4.
  destruct (CerebellumResponse.success (fst run)) eqn:Esucc;
    cbn [runStats] in E4; rewrite E4 in R; rewrite emit_run in R;
    change (DualKernelRouter.callbacks (DualKernelRouter.setStats sc2 self1))
      with (DualKernelRouter.callbacks self) in R;
    change (DualKernelRouter.setStats sc2 self1)
      with (DualKernelRouter.setStats sc2 self) in R.
  - eexists sc2, _. split; [exact R|].
    destruct (RouterCallbacks.onCerebellumSuccess _);
      cbn [World.notify World.network World.sent World.generateCalls
           World.events];
      rewrite ?app_nil_r;
      (split; [congruence|]); (split; [congruence|]);
      (split; [congruence|]); (split; [congruence|]);
      (split; [congruence|]); (split; [congruence|]);
      (split; [exact Hready4|exact Hst]).
  - unfold failedRouteResult.
    change (DualKernelRouter.enableFallback
              (DualKernelRouter.setStats sc2 self))
      with (DualKernelRouter.enableFallback self) in R.
    destruct (DualKernelRouter.enableFallback self); cbn [andb].
    + rewrite emit_run in R. unfold retT, ret in R.
      change (DualKernelRouter.callbacks (DualKernelRouter.setStats sc2 self))
        with (DualKernelRouter.callbacks self) in R.
      eexists sc2, _. split; [exact R|].
      destruct (RouterCallbacks.onCerebellumFailure _),
        (RouterCallbacks.onFallbackToCerebrum _);
        cbn [World.notify World.network World.sent World.generateCalls
             World.events app];
        rewrite ?app_nil_r, <- ?app_assoc; cbn [app];
        (split; [congruence|]); (split; [congruence|]);
        (split; [congruence|]); (split; [congruence|]);
        (split; [congruence|]); (split; [congruence|]);
        (split; [exact Hready4|exact Hst]).
    + eexists sc2, _. split; [exact R|].
      destruct (RouterCallbacks.onCerebellumFailure _);
        cbn [World.notify World.network World.sent World.generateCalls
             World.events app];
        rewrite ?app_nil_r;
        (split; [congruence|]); (split; [congruence|]);
        (split; [congruence|]); (split; [congruence|]);
        (split; [congruence|]); (split; [congruence|]);
        (split; [exact Hready4|exact Hst]).
Qed.

(** A network that refuses every request makes the kernel fail always. *)
Lemma refusing_network_fails (kernel : CerebellumKernel.t) (w : World.t)
      (e : Thrown) :
  World.network w = (fun _ _ => inl e) ->
  backendAlwaysFails kernel w.
Proof.
  intros Hw call w' Hn. rewrite Hw in Hn.
  destruct call; cbn [perform];
    unfold CerebellumKernel.quickAnswer, CerebellumKernel.summarize,
      CerebellumKernel.convertFormat;
    run_kernel; rewrite Hn; reflexivity.
Qed.

(** So does a network that answers the first two requests and refuses every
    later one. *)
Lemma silent_refusal_fails (kernel : CerebellumKernel.t) :
  backendAlwaysFails kernel silentRefusalWorld.
Proof.
  intros call w' Hn.
  destruct w' as [clock reads network sent calls files readOnly home events].
  cbn [World.network] in Hn. subst network.
  destruct call; cbn [perform];
    unfold CerebellumKernel.quickAnswer, CerebellumKernel.summarize,
      CerebellumKernel.convertFormat;
    unfold CerebellumKernel.generate, CerebellumKernel.isAvailable,
      CerebellumKernel.isModelAvailable, CerebellumKernel.failure, bind,
      modify, ret, fetch, Date_now, silentRefusalWorld, withNetwork;
    destruct sent as [|r1 [|r2 l]];
    cbn -[lit existsb CerebellumKernel.namesModel Z.sub];
    try reflexivity;
    repeat match goal with
           | |- context [if ?b then _ else _] =>
               destruct b; cbn -[lit Z.sub]
           end;
    reflexivity.
Qed.

(** C4, as amended.  When [route] sends a task to the local kernel (the
    assessment says local, the configuration enables it, the backend was
    found reachable), the kernel fails, and recording cannot throw (the
    statistics are disabled or the collector works on statistics), then
    [route] returns, and the response it handles is the one that the single
    operation of the kernel gave, in a world with the network and the
    requests of the initial one.  With fallback enabled the result has
    target "cerebrum", no response, and as [fallbackReason] the error of
    that response, which is present, and non-empty unless the exchange
    raised an exception with an empty description; with fallback disabled
    it has target "cerebellum" and carries that response ([success =
    false], no text, [error] set) as it is.  Either way the kernel was
    entered exactly once, the failure callback, if supplied, was notified
    of the error, and with the statistics enabled they count one more
    request and one more failure and end with the entry of this decision
    marked failed with the error. *)
Theorem route_local_failure (self : DualKernelRouter.t) (w : World.t)
        (task : TaskInfo.t) :
  routesLocally self task = true ->
  backendAlwaysFails (DualKernelRouter.cerebellum self) w ->
  statsReady (DualKernelRouter.stats self) w ->
  let run := DualKernelRouter.route task (self, w) in
  let a := TaskEvaluator.evaluate (DualKernelRouter.evaluator self) task in
  exists (result : RouteResult.t) (w2 : World.t) (e : jsstring),
    let response :=
      fst (perform (DualKernelRouter.cerebellum self)
                   (kernelCallFor (TaskAssessment.taskType a)
                                  (TaskInfo.prompt task)) w2) in
    fst run = inr result
    /\ World.network w2 = World.network w
    /\ World.sent w2 = World.sent w
    /\ CerebellumResponse.success response = false
    /\ CerebellumResponse.text response = []
    /\ CerebellumResponse.error response = Some e
    /\ ((wordedByKernel (DualKernelRouter.cerebellum self) e /\ e <> [])
        \/ exists ex, raisedIn w ex /\ e = errorText ex)
    /\ (exceptionsCarryText w -> e <> [])
    /\ RouteResult.assessment result = a
    /\ (DualKernelRouter.enableFallback self = true ->
        RouteResult.target result = Target.cerebrum
        /\ RouteResult.fallbackReason result = Some e
        /\ RouteResult.cerebellumResponse result = None)
    /\ (DualKernelRouter.enableFallback self = false ->
        RouteResult.target result = Target.cerebellum
        /\ RouteResult.cerebellumResponse result = Some response
        /\ RouteResult.fallbackReason result = None)
    /\ World.generateCalls (snd (snd run)) = S (World.generateCalls w)
    /\ (RouterCallbacks.onCerebellumFailure (DualKernelRouter.callbacks self)
        = true ->
        In (OnCerebellumFailure e task) (World.events (snd (snd run))))
    /\ sameRouterButCache (fst (snd run)) self
    /\ (StatsConfig.enabled
          (StatsCollector.config (DualKernelRouter.stats self)) = true ->
        forall before : StatsData.t,
          statisticsOf (DualKernelRouter.stats self) w = Some before ->
          exists (after : StatsData.t) (older : list StatsEntry.t)
                 (entry : StatsEntry.t),
            StatsCollector.cache (DualKernelRouter.stats (fst (snd run)))
            = Some (Data after)
            /\ StatsData.failedRequests after
               = (StatsData.failedRequests before + 1)%float
            /\ StatsData.totalRequests after
               = (StatsData.totalRequests before + 1)%float
            /\ StatsData.successfulRequests after
               = StatsData.successfulRequests before
            /\ StatsData.totalDurationMs after
               = StatsData.totalDurationMs before
            /\ StatsData.tokensSaved after = StatsData.tokensSaved before
            /\ StatsData.entries after = older ++ [entry]
            /\ StatsEntry.target entry = Target.cerebellum
            /\ StatsEntry.taskType entry = TaskAssessment.taskType a
            /\ StatsEntry.success entry = Some false
            /\ StatsEntry.error entry = Some e).
Proof.
  intros Hgo Hfail Hready. cbn zeta.
  destruct (route_run self w task Hready)
    as (now & sc1 & w2 & Hn & Hs & Hg & Hev & Hc & Hp & _ & Hst & Hrun).
  cbn zeta in Hst, Hrun, Hev. rewrite Hgo in Hrun.
  destruct Hrun as (sc2 & w4 & Hrun & _ & _ & Hg4 & Hev4 & Hc4 & Hp4 & _
                    & Hst4).
  set (a := TaskEvaluator.evaluate (DualKernelRouter.evaluator self) task)
    in *.
  set (call := kernelCallFor (TaskAssessment.taskType a)
                             (TaskInfo.prompt task)) in *.
  set (response := fst (perform (DualKernelRouter.cerebellum self) call w2))
    in *.
  assert (CerebellumResponse.success response = false) as Hsucc
      by (apply Hfail; exact Hn).
  destruct (perform_shape (DualKernelRouter.cerebellum self) call w2)
    as [Hshape _].
  fold response in Hshape.
  destruct (Hshape Hsucc) as (Htext & e & He & Hkind & Hne).
  rewrite Hsucc in Hrun. rewrite Hrun. cbn [fst snd].
  exists (failedRouteResult (DualKernelRouter.enableFallback self) a
                            response), w2, e.
  cbn zeta. fold a call response.
  split; [reflexivity|]. split; [exact Hn|]. split; [exact Hs|].
  split; [exact Hsucc|]. split; [exact Htext|]. split; [exact He|].
  split.
  { destruct Hkind as [Hk | (ex & Hex & Hee)]; [now left|right].
    exists ex. split; [|exact Hee].
    unfold raisedIn in *. now rewrite <- Hn. }
  split.
  { intros Hcarry. apply Hne. unfold exceptionsCarryText in *.
    now rewrite Hn. }
  unfold failedRouteResult.
  split; [now destruct (DualKernelRouter.enableFallback self)|].
  split; [intros ->; cbn; now rewrite He|].
  split; [intros ->; now cbn|].
  split; [exact Hg4|].
  split.
  { intros Hcb. rewrite Hev4. apply in_or_app. right.
    unfold outcomeEvents. rewrite Hsucc, Hcb, He. now left. }
  split; [now apply sameRouterButCache_setStats|].
  intros Hen before Hb.
  destruct (Hst Hen before Hb) as (at1 & stamp1 & before' & Hsame & Hc1).
  destruct (Hst4 Hen _ Hc1) as (at2 & stamp2 & Hc2).
  unfold outcomeCall in Hc2. rewrite Hsucc in Hc2. cbn [applyCall] in Hc2.
  cbn [DualKernelRouter.stats DualKernelRouter.setStats].
  destruct (addDecision_last at1 (routeDecision self task now) before')
    as (older & entry & Holder & (Htarget & Htype & _) & _).
  destruct Hsame as [Hent Htotals]. unfold runningTotals in Htotals.
  injection Htotals as T1 T2 T3 T4 T5.
  eexists. exists older, (StatsCollector.markFailure (Some e) entry).
  split; [exact Hc2|].
  cbn [StatsCollector.setLastUpdated StatsCollector.addFailure
       StatsData.failedRequests StatsData.totalRequests
       StatsData.successfulRequests StatsData.totalDurationMs
       StatsData.tokensSaved StatsData.entries].
  assert (StatsEntry.target entry = Target.cerebellum) as Htarget'.
  { rewrite Htarget. unfold routeDecision. cbn [RoutingDecision.target].
    now rewrite Hgo. }
  rewrite Holder, updateLastLocal_last, Htarget'.
  cbn [Target.eqb StatsCollector.addDecision StatsData.failedRequests
       StatsData.totalRequests StatsData.successfulRequests
       StatsData.totalDurationMs StatsData.tokensSaved].
  rewrite He, T1, T2, T3, T4, T5.
  repeat (split; [reflexivity|]).
  cbn [StatsCollector.markFailure StatsEntry.taskType StatsEntry.target
       StatsEntry.success StatsEntry.error].
  split; [exact Htarget'|]. split; [exact Htype|]. split; reflexivity.
Qed.

(** The greeting of the test suite routed while the backend is down, with
    and without fallback. *)
Lemma route_local_failure_witness :
  (exists result e,
      fst (DualKernelRouter.route helloTask (sampleRouter true, deadWorld))
      = inr result
      /\ RouteResult.target result = Target.cerebrum
      /\ RouteResult.fallbackReason result = Some e
      /\ e <> [])
  /\ (exists result r,
         fst (DualKernelRouter.route helloTask
                                     (sampleRouter false, deadWorld))
         = inr result
         /\ RouteResult.target result = Target.cerebellum
         /\ RouteResult.cerebellumResponse result = Some r
         /\ CerebellumResponse.success r = false).
Proof.
  split.
  - destruct (route_local_failure (sampleRouter true) deadWorld helloTask)
      as (result & w2 & e & Hr & _ & _ & _ & _ & _ & _ & Hne & _ & Hon & _).
    + vm_compute. reflexivity.
    + apply (refusing_network_fails _ _ (ErrorObject (lit "fetch failed"))).
      reflexivity.
    + right. eexists. vm_compute. reflexivity.
    + destruct (Hon eq_refl) as (Htarget & Hreason & _).
      exists result, e. split; [exact Hr|]. split; [exact Htarget|].
      split; [exact Hreason|]. apply Hne. intros n req. cbn. discriminate.
  - destruct (route_local_failure (sampleRouter false) deadWorld helloTask)
      as (result & w2 & e & Hr & _ & _ & Hs & _ & _ & _ & _ & _ & _ & Hoff
          & _).
    + vm_compute. reflexivity.
    + apply (refusing_network_fails _ _ (ErrorObject (lit "fetch failed"))).
      reflexivity.
    + right. eexists. vm_compute. reflexivity.
    + destruct (Hoff eq_refl) as (Htarget & Hresp & _).
      exists result. eexists. split; [exact Hr|]. split; [exact Htarget|].
      split; [exact Hresp|exact Hs].
Defined.

(** C4, where the claim fails: the backend always fails, the task is
    routed locally, the fallback is enabled, and the fallback reason of the
    result is the empty string, because the generation request was refused
    with an exception whose message is empty. *)
Lemma fallback_reason_can_be_empty :
  let self := sampleRouter true in
  let run := DualKernelRouter.route helloTask (self, silentRefusalWorld) in
  routesLocally self helloTask = true
  /\ backendAlwaysFails (DualKernelRouter.cerebellum self) silentRefusalWorld
  /\ DualKernelRouter.enableFallback self = true
  /\ exists result : RouteResult.t,
       fst run = inr result
       /\ RouteResult.target result = Target.cerebrum
       /\ RouteResult.fallbackReason result = Some [].
Proof.
  cbn zeta. split; [vm_compute; reflexivity|].
  split; [apply silent_refusal_fails|]. split; [reflexivity|].
  eexists. split; [vm_compute; reflexivity|]. split; reflexivity.
Qed.

(* ================================================================== *)
(** * Further properties of the evaluator *)
(* ================================================================== *)

Lemma calculateComplexity_range (task : TaskInfo.t)
      (analysis : TaskAnalysis.t) :
  (1 <= TaskEvaluator.calculateComplexity task analysis <= 10)%Z.
Proof. unfold TaskEvaluator.calculateComplexity. lia. Qed.

Lemma calculateConfidence_range (task : TaskInfo.t)
      (analysis : TaskAnalysis.t) (complexity : Z) :
  let c := TaskEvaluator.calculateConfidence task analysis complexity in
  le 0 c = true /\ le c 1 = true.
Proof.
  cbn zeta. unfold TaskEvaluator.calculateConfidence.
  destruct (negb _), (complexity <=? 3)%Z, (8 <=? complexity)%Z,
    (TaskAnalysis.promptLength analysis <? 100)%Z,
    (TaskInfo.isHighFrequency task);
    split; vm_compute; reflexivity.
Qed.

(** The assessments that [checkForcedRules] can return: forced local with the
    scores 2 / 30 s / low, or forced remote with 8 / 300 s / high, always
    with confidence 1 and the tokens of the task. *)
Lemma checkForcedRules_shape (self : TaskEvaluator.t) (task : TaskInfo.t)
      (a : TaskAssessment.t) :
  TaskEvaluator.checkForcedRules self task = Some a ->
  TaskAssessment.confidence a = 1%float
  /\ TaskAssessment.estimatedTokens a = TaskInfo.estimatedTokens task
  /\ ((TaskAssessment.useCerebellum a = true
       /\ TaskAssessment.complexity a = 2%Z
       /\ TaskAssessment.estimatedTime a = 30%float
       /\ TaskAssessment.precisionRequirement a = low)
      \/ (TaskAssessment.useCerebellum a = false
          /\ TaskAssessment.complexity a = 8%Z
          /\ TaskAssessment.estimatedTime a = 300%float
          /\ TaskAssessment.precisionRequirement a = high
          /\ TaskAssessment.taskType a = TaskInfo.type task)).
Proof.
  unfold TaskEvaluator.checkForcedRules, TaskEvaluator.afterMarkerRule,
    TaskEvaluator.markerRule, TaskEvaluator.prefixRule,
    TaskEvaluator.categoryRules.
  destruct (match_ci (lit "<cb>") (TaskInfo.prompt task)) as [sm|];
    destruct (match_ci (lit "</cb>") (TaskInfo.prompt task)) as [em|];
    try (destruct (_ <? _)%nat);
    repeat match goal with
           | |- context [if TaskEvaluator.hasTriggerPrefix ?p then _ else _] =>
               destruct (TaskEvaluator.hasTriggerPrefix p)
           | |- context [if includesType ?l ?ty then _ else _] =>
               destruct (includesType l ty)
           end;
    intros [= <-]; (split; [reflexivity|]); (split; [reflexivity|]);
    first [left; repeat split; reflexivity | right; repeat split; reflexivity].
Qed.

(** X1.  Whatever the evaluator and the task, the assessment of [evaluate]
    is within the documented ranges: complexity between 1 and 10,
    confidence between 0 and 1; and it carries the task's estimated tokens
    over unchanged. *)
Theorem assessment_within_ranges (self : TaskEvaluator.t)
        (task : TaskInfo.t) :
  let a := TaskEvaluator.evaluate self task in
  (1 <= TaskAssessment.complexity a <= 10)%Z
  /\ le 0 (TaskAssessment.confidence a) = true
  /\ le (TaskAssessment.confidence a) 1 = true
  /\ TaskAssessment.estimatedTokens a = TaskInfo.estimatedTokens task.
Proof.
  cbn zeta. unfold TaskEvaluator.evaluate.
  destruct (TaskEvaluator.checkForcedRules self task) as [a|] eqn:E.
  - destruct (checkForcedRules_shape self task a E)
      as (-> & -> & [(_ & -> & _) | (_ & -> & _)]);
      repeat split; lia.
  - cbn [TaskAssessment.complexity TaskAssessment.confidence
         TaskAssessment.estimatedTokens].
    split; [apply calculateComplexity_range|].
    split; [apply calculateConfidence_range|].
    split; [apply calculateConfidence_range|reflexivity].
Qed.

(** X2.  Every decision that [checkForcedRules] forces has confidence 1 and
    one of two fixed score sets: local with complexity 2, 30 seconds and low
    precision, or remote with complexity 8, 300 seconds, high precision and
    the declared type as its task type. *)
Theorem forced_decisions_have_fixed_scores (self : TaskEvaluator.t)
        (task : TaskInfo.t) (a : TaskAssessment.t) :
  TaskEvaluator.checkForcedRules self task = Some a ->
  TaskEvaluator.evaluate self task = a
  /\ TaskAssessment.confidence a = 1%float
  /\ ((TaskAssessment.useCerebellum a = true
       /\ TaskAssessment.complexity a = 2%Z
       /\ TaskAssessment.estimatedTime a = 30%float
       /\ TaskAssessment.precisionRequirement a = low)
      \/ (TaskAssessment.useCerebellum a = false
          /\ TaskAssessment.complexity a = 8%Z
          /\ TaskAssessment.estimatedTime a = 300%float
          /\ TaskAssessment.precisionRequirement a = high
          /\ TaskAssessment.taskType a = TaskInfo.type task)).
Proof.
  intros E. split; [now apply evaluate_forced|].
  destruct (checkForcedRules_shape self task a E) as (Hc & _ & H).
  split; assumption.
Qed.

(** A task of a force-remote type, with a plain prompt. *)
Lemma forced_decisions_witness :
  let a :=
    TaskEvaluator.evaluate defaultEvaluator
      (sampleTask research (lit "what is new in physics")) in
  TaskAssessment.confidence a = 1%float
  /\ TaskAssessment.complexity a = 8%Z.
Proof.
  destruct (forced_decisions_have_fixed_scores defaultEvaluator
              (sampleTask research (lit "what is new in physics"))
              (TaskEvaluator.evaluate defaultEvaluator
                 (sampleTask research (lit "what is new in physics"))))
    as (_ & Hc & _).
  - vm_compute. reflexivity.
  - split; [exact Hc|]. vm_compute. reflexivity.
Defined.

(** X3.  On the heuristic path a local decision is sound with respect to
    every test of [shouldUseCerebellum]: the complexity, the estimated time
    and the confidence are within the configured thresholds, the precision
    requirement is not high, and the task is a scheduled one under 600
    seconds, a high-frequency one of complexity at most 3, or of complexity
    at most 5. *)
Theorem local_decision_meets_thresholds (self : TaskEvaluator.t)
        (task : TaskInfo.t) :
  TaskEvaluator.checkForcedRules self task = None ->
  TaskAssessment.useCerebellum (TaskEvaluator.evaluate self task) = true ->
  let a := TaskEvaluator.evaluate self task in
  let th := TaskEvaluator.thresholds self in
  gt (of_Z (TaskAssessment.complexity a)) (TaskThresholds.maxComplexity th)
  = false
  /\ gt (TaskAssessment.estimatedTime a) (TaskThresholds.maxEstimatedTime th)
     = false
  /\ lt (TaskAssessment.confidence a) (TaskThresholds.minConfidence th)
     = false
  /\ TaskAssessment.precisionRequirement a <> high
  /\ (TaskInfo.isScheduledTask task = true
      /\ lt (TaskAssessment.estimatedTime a) 600 = true
      \/ TaskInfo.isHighFrequency task = true
         /\ (TaskAssessment.complexity a <= 3)%Z
      \/ (TaskAssessment.complexity a <= 5)%Z).
Proof.
  intros Hn. rewrite (evaluate_heuristic self task Hn).
  unfold heuristicAssessment.
  cbn [TaskAssessment.useCerebellum TaskAssessment.complexity
       TaskAssessment.estimatedTime TaskAssessment.confidence
       TaskAssessment.precisionRequirement].
  set (analysis := TaskEvaluator.analyzeTask task).
  set (c := TaskEvaluator.calculateComplexity task analysis).
  set (p := TaskEvaluator.assessPrecisionRequirement task analysis).
  set (t := TaskEvaluator.estimateExecutionTime self task c).
  set (conf := TaskEvaluator.calculateConfidence task analysis c).
  unfold TaskEvaluator.shouldUseCerebellum.
  destruct (gt (of_Z c) _); [discriminate|].
  destruct (gt t _); [discriminate|].
  destruct (lt conf _); [discriminate|].
  intros H.
  assert (p <> high
          /\ (TaskInfo.isScheduledTask task && lt t 600 = true
              \/ TaskInfo.isHighFrequency task && (c <=? 3)%Z = true
              \/ (c <=? 5)%Z = true)) as [Hp Hor].
  { destruct p; cbn [TaskEvaluator.Precision_is_high] in H;
      [discriminate| |];
      (split; [discriminate|]);
      destruct (TaskInfo.isScheduledTask task && lt t 600); auto;
      destruct (TaskInfo.isHighFrequency task && (c <=? 3)%Z); auto. }
  repeat split; try assumption.
  destruct Hor as [Hs | [Hf | Hc]].
  - apply andb_true_iff in Hs. auto.
  - apply andb_true_iff in Hf. destruct Hf as [Hf Hc].
    apply Z.leb_le in Hc. auto.
  - apply Z.leb_le in Hc. auto.
Qed.

(** The short question of the test suite, routed local with confidence 1. *)
Lemma local_decision_witness :
  let a :=
    TaskEvaluator.evaluate defaultEvaluator
      (TaskInfo.mk unknown (lit "What time is it?")
                   false false 50 true 0 false) in
  TaskAssessment.precisionRequirement a <> high
  /\ gt (of_Z (TaskAssessment.complexity a)) 4 = false.
Proof.
  destruct (local_decision_meets_thresholds defaultEvaluator
              (TaskInfo.mk unknown (lit "What time is it?")
                           false false 50 true 0 false))
    as (Hc & _ & _ & Hp & _).
  - vm_compute. reflexivity.
  - vm_compute. reflexivity.
  - split; [exact Hp|exact Hc].
Defined.

(** X4.  On the heuristic path, content that the analysis finds to be code
    or mathematics (a keyword of either table in the prompt, or the caller's
    hint) is never routed local: the precision requirement is high and
    [useCerebellum] is false, whatever the thresholds. *)
Theorem code_or_math_goes_remote (self : TaskEvaluator.t)
        (task : TaskInfo.t) :
  TaskEvaluator.checkForcedRules self task = None ->
  TaskAnalysis.hasCode (TaskEvaluator.analyzeTask task)
  || TaskAnalysis.hasMath (TaskEvaluator.analyzeTask task) = true ->
  TaskAssessment.precisionRequirement (TaskEvaluator.evaluate self task)
  = high
  /\ TaskAssessment.useCerebellum (TaskEvaluator.evaluate self task) = false.
Proof.
  intros Hn Hcm. rewrite (evaluate_heuristic self task Hn).
  unfold heuristicAssessment.
  cbn [TaskAssessment.useCerebellum TaskAssessment.precisionRequirement].
  assert (TaskEvaluator.assessPrecisionRequirement
            task (TaskEvaluator.analyzeTask task) = high) as ->.
  { unfold TaskEvaluator.assessPrecisionRequirement. now rewrite Hcm. }
  split; [reflexivity|].
  unfold TaskEvaluator.shouldUseCerebellum.
  cbn [TaskEvaluator.Precision_is_high].
  repeat match goal with
         | |- (if ?b then false else _) = false => destruct b; [reflexivity|]
         end.
  reflexivity.
Qed.

(** A compound-interest question carrying the mathematics hint. *)
Lemma code_or_math_witness :
  TaskAssessment.useCerebellum
    (TaskEvaluator.evaluate defaultEvaluator
       (TaskInfo.mk unknown
          (lit "Calculate the compound interest on $1000 at 5% for 10 years")
          false true 200 false 0 false)) = false.
Proof.
  apply code_or_math_goes_remote; vm_compute; reflexivity.
Defined.

(** Where a keyword rule applies the assessment is the keyword-triggered
    one, whatever the declared type. *)
Lemma keyword_rule_assessment (self : TaskEvaluator.t) (task : TaskInfo.t) :
  keywordRuleFires task ->
  TaskAssessment.useCerebellum (TaskEvaluator.evaluate self task) = true
  /\ TaskAssessment.taskType (TaskEvaluator.evaluate self task)
     = keyword_triggered.
Proof.
  intros H.
  unfold TaskEvaluator.evaluate, TaskEvaluator.checkForcedRules,
    TaskEvaluator.afterMarkerRule, TaskEvaluator.markerRule,
    TaskEvaluator.prefixRule.
  fold openTag closeTag.
  destruct H as [(sm & em & -> & -> & Hlt) | [[Ho Hc] | Hp]].
  - apply Nat.ltb_lt in Hlt. rewrite Hlt. split; reflexivity.
  - rewrite Hc.
    destruct (match_ci openTag (TaskInfo.prompt task)); [|now destruct Ho].
    split; reflexivity.
  - rewrite Hp.
    destruct (match_ci openTag (TaskInfo.prompt task)) as [sm|];
      destruct (match_ci closeTag (TaskInfo.prompt task)) as [em|];
      try (destruct (_ <? _)%nat); split; reflexivity.
Qed.

(** X5.  A prompt with an open tag and no close tag, or one that (trimmed and
    lower-cased) starts with a trigger prefix, is always assessed as a
    "keyword_triggered" task for the local kernel, with confidence 1,
    complexity 2, 30 seconds and low precision, whatever the declared type
    and the category lists. *)
Theorem open_tag_or_prefix_forces_local (self : TaskEvaluator.t)
        (task : TaskInfo.t) :
  (match_ci openTag (TaskInfo.prompt task) <> None
   /\ match_ci closeTag (TaskInfo.prompt task) = None)
  \/ TaskEvaluator.hasTriggerPrefix
       (toLowerCase (trim (TaskInfo.prompt task))) = true ->
  let a := TaskEvaluator.evaluate self task in
  TaskAssessment.useCerebellum a = true
  /\ TaskAssessment.taskType a = keyword_triggered
  /\ TaskAssessment.confidence a = 1%float
  /\ TaskAssessment.complexity a = 2%Z
  /\ TaskAssessment.estimatedTime a = 30%float
  /\ TaskAssessment.precisionRequirement a = low.
Proof.
  intros H. cbn zeta.
  unfold TaskEvaluator.evaluate, TaskEvaluator.checkForcedRules,
    TaskEvaluator.afterMarkerRule, TaskEvaluator.markerRule,
    TaskEvaluator.prefixRule.
  fold openTag closeTag.
  destruct (match_ci openTag (TaskInfo.prompt task)) as [sm|];
    destruct (match_ci closeTag (TaskInfo.prompt task)) as [em|];
    try (destruct (_ <? _)%nat);
    try (repeat split; fail);
    (destruct H as [[Ho Hc] | ->];
     [ try discriminate; try (now destruct Ho) | repeat split ]).
Qed.

(** An unclosed tag on a task declared "research", and a prefixed prompt
    with capitals and leading blanks. *)
Lemma open_tag_or_prefix_witness :
  TaskAssessment.useCerebellum
    (TaskEvaluator.evaluate defaultEvaluator
       (sampleTask research (lit "<cb>all of this stays local"))) = true
  /\ TaskAssessment.useCerebellum
       (TaskEvaluator.evaluate defaultEvaluator
          (sampleTask research (lit "  CB, what is new?"))) = true.
Proof.
  split.
  - apply open_tag_or_prefix_forces_local. left.
    split; vm_compute; [discriminate|reflexivity].
  - apply open_tag_or_prefix_forces_local. right. vm_compute. reflexivity.
Defined.

(* ================================================================== *)
(** * Further properties of the configuration ([types.ts]) *)
(* ================================================================== *)

(** X6.  Extraction is the inverse of writing a configuration out: a
    [cerebellum] section that states every property of a configuration is
    extracted to exactly that configuration, whatever the defaults are. *)
Theorem extract_complete_section (c : CerebellumConfig.t) :
  extractCerebellumConfig (Some (asSection c)) = c.
Proof.
  destruct c as [e p m b [t1 t2 t3] fl fr [se sl]]. reflexivity.
Qed.

(** X7.  The local kernel is enabled unless the configuration says
    otherwise: [isCerebellumEnabled] is false exactly when there is a
    [cerebellum] section whose [enabled] property is present and false. *)
Theorem enabled_unless_switched_off (config : option OpenClawConfig.t) :
  isCerebellumEnabled config = false
  <-> exists (main : OpenClawConfig.t) (section : CerebellumOpenClawConfig.t),
        config = Some main
        /\ OpenClawConfig.cerebellum main = Some section
        /\ CerebellumOpenClawConfig.enabled section = Some false.
Proof.
  unfold isCerebellumEnabled, extractCerebellumConfig, property. split.
  - destruct config as [main|]; [|discriminate].
    destruct (OpenClawConfig.cerebellum main) as [section|] eqn:E;
      [|discriminate].
    cbn [CerebellumConfig.enabled spread].
    destruct (CerebellumOpenClawConfig.enabled section) as [[|]|] eqn:Ee;
      try discriminate.
    intros _. now exists main, section.
  - intros (main & section & -> & -> & He).
    cbn [CerebellumConfig.enabled]. now rewrite He.
Qed.

(* ================================================================== *)
(** * Further properties of the local backend client *)
(* ================================================================== *)

Lemma startsWith_iff (s pat : jsstring) :
  startsWith s pat = true <-> exists rest, s = pat ++ rest.
Proof.
  unfold startsWith. revert s.
  induction pat as [|p pat IH]; intros s; cbn [prefix_by app].
  - split; [intros _; now exists s|reflexivity].
  - destruct s as [|c s].
    + split; [discriminate|intros (rest & H); discriminate].
    + rewrite andb_true_iff, IH. unfold unit_eqb. rewrite N.eqb_eq. split.
      * intros (-> & rest & ->). now exists rest.
      * intros (rest & [= -> ->]). split; [reflexivity|now exists rest].
Qed.

(** X8.  A listed model name stands for the wanted model exactly when it is
    the wanted name itself or the wanted name followed by a colon and a
    tag. *)
Theorem namesModel_iff (targetModel name : jsstring) :
  CerebellumKernel.namesModel targetModel name = true
  <-> name = targetModel
      \/ exists tag, name = targetModel ++ lit ":" ++ tag.
Proof.
  unfold CerebellumKernel.namesModel.
  rewrite orb_true_iff, startsWith_iff. split.
  - intros [H | (rest & ->)].
    + left. now destruct (list_eq_dec N.eq_dec name targetModel).
    + right. exists rest. now rewrite <- app_assoc.
  - intros [-> | (tag & ->)].
    + left. now destruct (list_eq_dec N.eq_dec targetModel targetModel).
    + right. exists tag. now rewrite <- app_assoc.
Qed.

(** X9.  The constructor removes one final slash of the configured base
    URL and nothing else: a URL that ends with a slash loses exactly that
    slash, and any other URL is kept as it is. *)
Theorem baseUrl_without_final_slash (cfg : CerebellumConfig.t) :
  (forall s, CerebellumConfig.baseUrl cfg = s ++ lit "/" ->
             CerebellumKernel.baseUrl (CerebellumKernel.new cfg) = s)
  /\ ((forall s, CerebellumConfig.baseUrl cfg <> s ++ lit "/") ->
      CerebellumKernel.baseUrl (CerebellumKernel.new cfg)
      = CerebellumConfig.baseUrl cfg).
Proof.
  cbn [CerebellumKernel.new CerebellumKernel.baseUrl].
  unfold CerebellumKernel.stripFinalSlash. split.
  - intros s ->. rewrite rev_app_distr. cbn. apply rev_involutive.
  - intros Hno.
    destruct (rev (CerebellumConfig.baseUrl cfg)) as [|c r] eqn:E;
      [reflexivity|].
    assert (CerebellumConfig.baseUrl cfg = rev r ++ [c]) as Hb.
    { rewrite <- (rev_involutive (CerebellumConfig.baseUrl cfg)), E.
      reflexivity. }
    destruct (N.eq_dec c 47) as [-> | Hc].
    + now destruct (Hno (rev r)).
    + destruct c as [|p]; [reflexivity|].
      repeat (destruct p as [p|p|]; try reflexivity); now destruct Hc.
Qed.

(** Two spellings of one endpoint. *)
Lemma baseUrl_without_final_slash_witness :
  CerebellumKernel.baseUrl
    (CerebellumKernel.new (configAt (lit "http://127.0.0.1:11434/")))
  = lit "http://127.0.0.1:11434"
  /\ CerebellumKernel.baseUrl
       (CerebellumKernel.new (configAt (lit "http://127.0.0.1:11434")))
     = lit "http://127.0.0.1:11434".
Proof.
  split.
  - apply (proj1 (baseUrl_without_final_slash
                    (configAt (lit "http://127.0.0.1:11434/")))).
    reflexivity.
  - apply (proj2 (baseUrl_without_final_slash
                    (configAt (lit "http://127.0.0.1:11434")))).
    intros s H.
    apply (f_equal (@rev N)) in H. rewrite rev_app_distr in H.
    vm_compute in H. discriminate.
Defined.

(** X10.  [pullModel] sends one POST to [/api/pull] naming the wanted model
    (the configured one by default), and its result is well formed without
    any assumption on the network: success has no error, and a failure
    always carries a non-empty error text. *)
Theorem pullModel_result (kernel : CerebellumKernel.t)
        (modelName : option jsstring) (w : World.t) :
  let r := fst (CerebellumKernel.pullModel kernel modelName w) in
  let w' := snd (CerebellumKernel.pullModel kernel modelName w) in
  (CerebellumKernel.pulled r = true <-> CerebellumKernel.pullError r = None)
  /\ (CerebellumKernel.pulled r = false ->
      exists e, CerebellumKernel.pullError r = Some e /\ e <> [])
  /\ World.sent w'
     = World.sent w
       ++ [{| Request.url := CerebellumKernel.baseUrl kernel ++ lit "/api/pull";
              Request.method := POST;
              Request.body :=
                PullBody
                  (match modelName with
                   | Some m => m
                   | None =>
                       CerebellumConfig.model (CerebellumKernel.config kernel)
                   end);
              Request.timeoutMs := 300000 |}].
Proof.
  cbn zeta. unfold CerebellumKernel.pullModel, bind, ret, fetch.
  cbn [fst snd].
  destruct (World.network w _ _) as [e|response];
    [|destruct (Response.ok response);
      [|destruct (Response.text response)]];
    cbn; repeat split; try discriminate; try reflexivity;
    intros _; eexists; (split; [reflexivity|discriminate]).
Qed.

(** The requests of one [generate]: the listing is asked once or twice,
    and after two listings at most one generation request follows, for the
    prompt as given. *)
Lemma generate_sent (kernel : CerebellumKernel.t) (prompt : jsstring)
      (systemPrompt : option jsstring)
      (options : option CerebellumKernel.Options) (w : World.t) :
  let run := CerebellumKernel.generate kernel prompt systemPrompt options w in
  let tags := tagsRequest kernel in
  exists extra : list Request.t,
    World.sent (snd run) = World.sent w ++ extra
    /\ (extra = [tags] \/ extra = [tags; tags]
        \/ exists req, extra = [tags; tags; req]
                       /\ isGenerateRequest kernel prompt req).
Proof.
  cbn zeta. unfold tagsRequest, isGenerateRequest. run_kernel.
  case_outcomes;
    rewrite <- ?app_assoc; cbn [app];
    eexists; (split; [reflexivity|]).
  all: try (left; reflexivity).
  all: try (right; left; reflexivity).
  all: right; right; eexists; split; [reflexivity|];
    cbn; repeat (split; [reflexivity|]);
    eexists; repeat split.
Qed.

(** X11.  What [generate] puts on the network: the availability request
    alone when the service does not answer, that and the model listing when
    the model is missing, and only after both a third request, the
    generation request for the prompt.  A successful response therefore
    means that all three were sent; it then has a usage whose total is the
    sum of its two counts and a duration that is the difference of the two
    clock readings. *)
Theorem generate_requests (kernel : CerebellumKernel.t) (prompt : jsstring)
        (systemPrompt : option jsstring)
        (options : option CerebellumKernel.Options) (w : World.t) :
  let run := CerebellumKernel.generate kernel prompt systemPrompt options w in
  let r := fst run in
  let tags := tagsRequest kernel in
  exists extra : list Request.t,
    World.sent (snd run) = World.sent w ++ extra
    /\ (extra = [tags] \/ extra = [tags; tags]
        \/ exists req, extra = [tags; tags; req]
                       /\ isGenerateRequest kernel prompt req)
    /\ (CerebellumResponse.success r = true ->
        List.length extra = 3%nat
        /\ CerebellumResponse.durationMs r
           = (World.clock w (S (World.reads w))
              - World.clock w (World.reads w))%Z
        /\ exists u, CerebellumResponse.usage r = Some u
                     /\ Usage.total u = (Usage.input u + Usage.output u)%Z).
Proof.
  cbn zeta. unfold tagsRequest, isGenerateRequest. run_kernel.
  case_outcomes;
    cbn [CerebellumResponse.durationMs CerebellumResponse.usage];
    rewrite <- ?app_assoc; cbn [app];
    eexists; (split; [reflexivity|]); split.
  all: try (intros Hs; discriminate Hs).
  all: try (left; reflexivity).
  all: try (right; left; reflexivity).
  all: try (right; right; eexists; split; [reflexivity|];
            cbn; repeat (split; [reflexivity|]);
            eexists; repeat split).
  all: intros _; split; [reflexivity|]; split; [reflexivity|];
    eexists; split; reflexivity.
Qed.

(** X12.  [getStatus] asks for the model only when the service answers: a
    status never reports the model available with the service unavailable;
    an unavailable service costs one request and an available one two; and
    the reported model is the configured one. *)
Theorem getStatus_consistent (kernel : CerebellumKernel.t) (w : World.t) :
  let st := fst (CerebellumKernel.getStatus kernel w) in
  let w' := snd (CerebellumKernel.getStatus kernel w) in
  (CerebellumKernel.modelAvailable st = true ->
   CerebellumKernel.available st = true)
  /\ World.sent w'
     = World.sent w
       ++ (if CerebellumKernel.available st
           then [tagsRequest kernel; tagsRequest kernel]
           else [tagsRequest kernel])
  /\ CerebellumKernel.statusModel st
     = CerebellumConfig.model (CerebellumKernel.config kernel)
  /\ (CerebellumKernel.available st = true
      <-> exists response,
            World.network w (List.length (World.sent w)) (tagsRequest kernel)
            = inr response
            /\ Response.ok response = true).
Proof.
  cbn zeta. unfold CerebellumKernel.getStatus, tagsRequest. run_kernel.
  case_outcomes;
    cbn [CerebellumKernel.available CerebellumKernel.modelAvailable
         CerebellumKernel.statusModel];
    rewrite <- ?app_assoc; cbn [app];
    repeat split; try discriminate; try reflexivity;
    try (intros _; eexists; split; [reflexivity|assumption]);
    try (intros (response & [= <-] & Hok); congruence).
Qed.

(* ================================================================== *)
(** * Further properties of the statistics collector *)
(* ================================================================== *)

Lemma updateLastLocal_length (f : StatsEntry.t -> StatsEntry.t)
      (entries : list StatsEntry.t) :
  List.length (StatsCollector.updateLastLocal f entries)
  = List.length entries.
Proof.
  induction entries as [|e rest IH]; [reflexivity|].
  destruct rest as [|e' rest].
  - cbn. now destruct (Target.eqb _ _).
  - change (StatsCollector.updateLastLocal f (e :: e' :: rest))
      with (e :: StatsCollector.updateLastLocal f (e' :: rest)).
    cbn [List.length]. now rewrite IH.
Qed.

(** X14.  A refused write is swallowed.  With the statistics enabled, a
    collector that works on statistics and a path that refuses writes,
    every writing operation still returns, and the cache then holds the
    statistics changed as the operation says and stamped (so the running
    process sees its own statistics), but no file changes: a collector
    started afresh finds what it would have found before the operation. *)
Theorem refused_write_is_swallowed (call : StatsCall)
        (sc : StatsCollector.t) (w : World.t) (before : StatsData.t) :
  StatsConfig.enabled (StatsCollector.config sc) = true ->
  World.readOnly w (StatsCollector.logPath sc) = true ->
  statisticsOf sc w = Some before ->
  let run := runStats call (sc, w) in
  let sc' := fst (snd run) in
  let w' := snd (snd run) in
  fst run = inr tt
  /\ World.files w' = World.files w
  /\ (exists now stamp : Z,
         StatsCollector.cache sc'
         = Some (Data (StatsCollector.setLastUpdated
                         stamp (applyCall now call before)))
         /\ statisticsOf sc' w'
            = Some (StatsCollector.setLastUpdated
                      stamp (applyCall now call before)))
  /\ (forall found : StatsData.t,
         statisticsOf (restarted sc) w = Some found ->
         exists found' : StatsData.t,
           statisticsOf (restarted sc') w' = Some found'
           /\ sameRecords found' found).
Proof.
  intros He Hw Hb.
  destruct (runStats_enabled call sc w before He Hb)
    as (now & stamp & w' & E & _ & _ & _ & Hfile).
  cbn zeta. rewrite E. cbn [fst snd]. specialize (Hfile Hw).
  split; [reflexivity|]. split; [exact Hfile|]. split.
  - exists now, stamp. split; [reflexivity|].
    now apply statisticsOf_cached.
  - intros found Hfound.
    now apply (statisticsOf_files (restarted sc) w w' found Hfile).
Qed.

(** A collector whose path refuses every write. *)
Lemma refused_write_witness :
  let w :=
    World.mk (World.clock deadWorld) 0 (World.network deadWorld) [] 0
             (fun _ => Stored earlierData) (fun _ => true)
             (World.homedir deadWorld) [] in
  let run := runStats (RecordDecision (sampleDecision Target.cerebellum))
                      (sampleCollector true, w) in
  fst run = inr tt
  /\ World.files (snd (snd run)) = World.files w
  /\ exists after,
       statisticsOf (fst (snd run)) (snd (snd run)) = Some after
       /\ StatsData.totalRequests after = 4%float.
Proof.
  cbn zeta.
  destruct (refused_write_is_swallowed
              (RecordDecision (sampleDecision Target.cerebellum))
              (sampleCollector true)
              (World.mk (World.clock deadWorld) 0 (World.network deadWorld)
                        [] 0 (fun _ => Stored earlierData) (fun _ => true)
                        (World.homedir deadWorld) [])
              earlierData eq_refl eq_refl eq_refl)
    as (Hr & Hf & (now & stamp & _ & Hc) & _).
  split; [exact Hr|]. split; [exact Hf|].
  eexists. split; [exact Hc|]. reflexivity.
Defined.

(** X15.  With the statistics enabled, [reset] returns and [getStats] after
    it is the empty snapshot (zero counts, zero averages, no per-type row),
    whatever the cache and the file held before, a document without
    entries included. *)
Theorem reset_empties_statistics (sc : StatsCollector.t) (w : World.t) :
  StatsConfig.enabled (StatsCollector.config sc) = true ->
  fst (StatsCollector.reset (sc, w)) = inr tt
  /\ exists snap : CerebellumStats.t,
       fst (StatsCollector.getStats (snd (StatsCollector.reset (sc, w))))
       = inr snap
       /\ emptySnapshot snap.
Proof.
  intros He.
  destruct (reset_enabled sc w He) as (now & stamp & w' & -> & _).
  cbn [fst snd]. split; [reflexivity|].
  destruct (getStats_run
              (StatsCollector.setCache
                 (Some (Data (StatsCollector.setLastUpdated
                                stamp (StatsCollector.emptyData now)))) sc)
              w') as (sc2 & w2 & -> & _).
  cbn [fst]. eexists. split; [reflexivity|]. repeat split.
Qed.

(** A collector that starts from the statistics of an earlier run. *)
Lemma reset_empties_witness :
  exists snap : CerebellumStats.t,
    fst (StatsCollector.getStats
           (snd (StatsCollector.reset
                   (sampleCollector true,
                    withFiles (fun _ => Stored earlierData) deadWorld))))
    = inr snap
    /\ emptySnapshot snap.
Proof.
  apply reset_empties_statistics. reflexivity.
Defined.

(** X16.  Recording an outcome never adds or removes an entry and never
    touches [totalRequests]: [recordSuccess] adds one to the successes and
    the duration and the used tokens of the response to their totals,
    [recordFailure] adds one to the failures, each in binary64.  Only the
    last entry can change, and only if its target is the local kernel: it
    is then marked with the outcome (success with the duration and the
    token counts, or failure with the error); an entry for the remote
    kernel is left as it is. *)
Theorem outcome_is_backfilled_on_last_local_entry
        (sc : StatsCollector.t) (w : World.t) (task : TaskInfo.t)
        (before : StatsData.t)
        (older : list StatsEntry.t) (last : StatsEntry.t) :
  StatsConfig.enabled (StatsCollector.config sc) = true ->
  statisticsOf sc w = Some before ->
  StatsData.entries before = older ++ [last] ->
  (forall response : CerebellumResponse.t,
      exists (after : StatsData.t) (last' : StatsEntry.t),
        fst (StatsCollector.recordSuccess task response (sc, w)) = inr tt
        /\ StatsCollector.cache
             (fst (snd (StatsCollector.recordSuccess task response (sc, w))))
           = Some (Data after)
        /\ StatsData.totalRequests after = StatsData.totalRequests before
        /\ StatsData.successfulRequests after
           = (StatsData.successfulRequests before + 1)%float
        /\ StatsData.failedRequests after = StatsData.failedRequests before
        /\ StatsData.totalDurationMs after
           = (StatsData.totalDurationMs before
              + of_Z (CerebellumResponse.durationMs response))%float
        /\ StatsData.tokensSaved after
           = match CerebellumResponse.usage response with
             | Some usage =>
                 (StatsData.tokensSaved before
                  + of_Z (Usage.total usage))%float
             | None => StatsData.tokensSaved before
             end
        /\ StatsData.entries after = older ++ [last']
        /\ (StatsEntry.target last = Target.cerebrum -> last' = last)
        /\ (StatsEntry.target last = Target.cerebellum ->
            StatsEntry.success last' = Some true
            /\ StatsEntry.durationMs last'
               = Some (of_Z (CerebellumResponse.durationMs response))
            /\ StatsEntry.tokensInput last'
               = option_map (fun u => of_Z (Usage.input u))
                            (CerebellumResponse.usage response)
            /\ StatsEntry.tokensOutput last'
               = option_map (fun u => of_Z (Usage.output u))
                            (CerebellumResponse.usage response)
            /\ StatsEntry.error last' = StatsEntry.error last
            /\ StatsEntry.timestamp last' = StatsEntry.timestamp last
            /\ StatsEntry.target last' = StatsEntry.target last
            /\ StatsEntry.taskType last' = StatsEntry.taskType last))
  /\ (forall error : option jsstring,
         exists (after : StatsData.t) (last' : StatsEntry.t),
           fst (StatsCollector.recordFailure task error (sc, w)) = inr tt
           /\ StatsCollector.cache
                (fst (snd (StatsCollector.recordFailure task error (sc, w))))
              = Some (Data after)
           /\ StatsData.totalRequests after
              = StatsData.totalRequests before
           /\ StatsData.successfulRequests after
              = StatsData.successfulRequests before
           /\ StatsData.failedRequests after
              = (StatsData.failedRequests before + 1)%float
           /\ StatsData.totalDurationMs after
              = StatsData.totalDurationMs before
           /\ StatsData.tokensSaved after = StatsData.tokensSaved before
           /\ StatsData.entries after = older ++ [last']
           /\ (StatsEntry.target last = Target.cerebrum -> last' = last)
           /\ (StatsEntry.target last = Target.cerebellum ->
               StatsEntry.success last' = Some false
               /\ StatsEntry.error last' = error
               /\ StatsEntry.durationMs last' = StatsEntry.durationMs last
               /\ StatsEntry.timestamp last' = StatsEntry.timestamp last
               /\ StatsEntry.target last' = StatsEntry.target last
               /\ StatsEntry.taskType last' = StatsEntry.taskType last)).
Proof.
  intros He Hb Hentries. split.
  - intros response.
    destruct (runStats_enabled (RecordSuccess task response) sc w before
                He Hb) as (now & stamp & w' & E & _).
    cbn [runStats applyCall] in E. rewrite E.
    cbn [fst snd StatsCollector.cache StatsCollector.setCache].
    eexists. eexists. split; [reflexivity|]. split; [reflexivity|].
    unfold StatsCollector.setLastUpdated, StatsCollector.addSuccess.
    cbn [StatsData.totalRequests StatsData.successfulRequests
         StatsData.failedRequests StatsData.totalDurationMs
         StatsData.tokensSaved StatsData.entries].
    rewrite Hentries, updateLastLocal_last.
    repeat (split; [reflexivity|]).
    destruct (StatsEntry.target last) eqn:Et; cbn [Target.eqb];
      split; try discriminate; intros _; repeat split; exact Et.
  - intros error.
    destruct (runStats_enabled (RecordFailure task error) sc w before
                He Hb) as (now & stamp & w' & E & _).
    cbn [runStats applyCall] in E. rewrite E.
    cbn [fst snd StatsCollector.cache StatsCollector.setCache].
    eexists. eexists. split; [reflexivity|]. split; [reflexivity|].
    unfold StatsCollector.setLastUpdated, StatsCollector.addFailure.
    cbn [StatsData.totalRequests StatsData.successfulRequests
         StatsData.failedRequests StatsData.totalDurationMs
         StatsData.tokensSaved StatsData.entries].
    rewrite Hentries, updateLastLocal_last.
    repeat (split; [reflexivity|]).
    destruct (StatsEntry.target last) eqn:Et; cbn [Target.eqb];
      split; try discriminate; intros _; repeat split; exact Et.
Qed.

(** A failure recorded over the statistics of an earlier run, whose one
    entry is for the local kernel. *)
Lemma outcome_backfill_witness :
  exists (after : StatsData.t) (last' : StatsEntry.t),
    StatsCollector.cache
      (fst (snd (StatsCollector.recordFailure
                   helloTask (Some (lit "timeout"))
                   (sampleCollector true,
                    withFiles (fun _ => Stored earlierData) deadWorld))))
    = Some (Data after)
    /\ StatsData.failedRequests after = 1%float
    /\ StatsData.entries after = [last']
    /\ StatsEntry.success last' = Some false.
Proof.
  destruct (outcome_is_backfilled_on_last_local_entry
              (sampleCollector true)
              (withFiles (fun _ => Stored earlierData) deadWorld)
              helloTask earlierData []
              (hd (StatsEntry.mk 0 Target.cerebrum unknown None
                                 None None None None)
                  (StatsData.entries earlierData))
              eq_refl eq_refl eq_refl) as [_ Hf].
  destruct (Hf (Some (lit "timeout")))
    as (after & last' & _ & Hc & _ & _ & Hfa & _ & _ & He & _ & Hl).
  exists after, last'. split; [exact Hc|].
  split; [exact Hfa|]. split; [exact He|].
  apply Hl. reflexivity.
Defined.

(** The counters after a run of calls that does not reset. *)
Lemma runAllStats_counters (calls : list StatsCall) :
  forall (sc : StatsCollector.t) (w : World.t) (before : StatsData.t)
         (n s f : Z),
    StatsConfig.enabled (StatsCollector.config sc) = true ->
    forallb (fun c => negb (isReset c)) calls = true ->
    statisticsOf sc w = Some before ->
    counts (StatsData.totalRequests before) n ->
    counts (StatsData.successfulRequests before) s ->
    counts (StatsData.failedRequests before) f ->
    (n + howMany isDecision calls < 2 ^ 53)%Z ->
    (s + howMany isSuccess calls < 2 ^ 53)%Z ->
    (f + howMany isFailure calls < 2 ^ 53)%Z ->
    let run := runAllStats calls (sc, w) in
    exists after : StatsData.t,
      fst run = inr tt
      /\ statisticsOf (fst (snd run)) (snd (snd run)) = Some after
      /\ counts (StatsData.totalRequests after)
                (n + howMany isDecision calls)
      /\ counts (StatsData.successfulRequests after)
                (s + howMany isSuccess calls)
      /\ counts (StatsData.failedRequests after)
                (f + howMany isFailure calls)
      /\ ((Z.of_nat (List.length (StatsData.entries before)) <= 10000)%Z ->
          (Z.of_nat (List.length (StatsData.entries after)) <= 10000)%Z)
      /\ (Z.of_nat (List.length (StatsData.entries after))
          <= Z.of_nat (List.length (StatsData.entries before))
             + howMany isDecision calls)%Z.
Proof.
  unfold howMany.
  induction calls as [|c calls IH];
    intros sc w before n s f He Hnr Hb Hn Hs Hf Bn Bs Bf; cbn zeta.
  - cbn [runAllStats filter List.length] in *. unfold retT, ret.
    cbn [fst snd]. exists before.
    rewrite !Z.add_0_r. repeat split; try assumption; try lia;
      try apply Hn; try apply Hs; try apply Hf.
  - cbn [forallb] in Hnr. apply andb_true_iff in Hnr.
    destruct Hnr as [Hc Hnr].
    destruct (runStats_enabled c sc w before He Hb)
      as (now & stamp & w' & E & _).
    set (data1 := StatsCollector.setLastUpdated
                    stamp (applyCall now c before)) in *.
    assert (runAllStats (c :: calls) (sc, w)
            = runAllStats calls
                (StatsCollector.setCache (Some (Data data1)) sc, w'))
      as ->.
    { cbn [runAllStats]. unfold bindT at 1. now rewrite E. }
    assert (statisticsOf (StatsCollector.setCache (Some (Data data1)) sc) w'
            = Some data1) as Hb1 by now apply statisticsOf_cached.
    assert (exists n1 s1 f1,
               counts (StatsData.totalRequests data1) n1
               /\ counts (StatsData.successfulRequests data1) s1
               /\ counts (StatsData.failedRequests data1) f1
               /\ (n1 = n + Z.of_nat
                             (List.length (filter isDecision [c])))%Z
               /\ (s1 = s + Z.of_nat
                             (List.length (filter isSuccess [c])))%Z
               /\ (f1 = f + Z.of_nat
                             (List.length (filter isFailure [c])))%Z
               /\ (Z.of_nat (List.length (StatsData.entries data1))
                   <= Z.of_nat (List.length (StatsData.entries before))
                      + Z.of_nat (List.length (filter isDecision [c])))%Z
               /\ ((Z.of_nat (List.length (StatsData.entries before))
                    <= 10000)%Z ->
                   (Z.of_nat (List.length (StatsData.entries data1))
                    <= 10000)%Z))
      as (n1 & s1 & f1 & Hn1 & Hs1 & Hf1 & En & Es & Ef & Hgrow & Hcap).
    { cbn [filter isDecision isSuccess isFailure] in Bn, Bs, Bf.
      unfold data1.
      destruct c as [d|task response|task error|]; [| | |discriminate];
        cbn [filter isDecision isSuccess isFailure List.length applyCall
             StatsCollector.setLastUpdated StatsData.totalRequests
             StatsData.successfulRequests StatsData.failedRequests
             StatsData.entries] in *.
      - destruct (addDecision_spec now d before)
          as (entry & dropped & _ & _ & Happ & _ & _ & Hcap & Htot & Hsu
              & Hfa & _).
        cbn zeta in *.
        exists (n + 1)%Z, s, f. rewrite Htot, Hsu, Hfa.
        split; [apply counts_succ; [exact Hn|lia]|].
        split; [exact Hs|]. split; [exact Hf|].
        split; [lia|]. split; [lia|]. split; [lia|]. split; [|auto].
        apply (f_equal (@List.length _)) in Happ.
        rewrite !length_app in Happ. cbn [List.length] in Happ. lia.
      - exists n, (s + 1)%Z, f.
        cbn [StatsCollector.addSuccess StatsData.totalRequests
             StatsData.successfulRequests StatsData.failedRequests
             StatsData.entries].
        rewrite updateLastLocal_length.
        split; [exact Hn|]. split; [apply counts_succ; [exact Hs|lia]|].
        split; [exact Hf|]. repeat split; lia.
      - exists n, s, (f + 1)%Z.
        cbn [StatsCollector.addFailure StatsData.totalRequests
             StatsData.successfulRequests StatsData.failedRequests
             StatsData.entries].
        rewrite updateLastLocal_length.
        split; [exact Hn|]. split; [exact Hs|].
        split; [apply counts_succ; [exact Hf|lia]|]. repeat split; lia. }
    assert (forall test : StatsCall -> bool,
               Z.of_nat (List.length (filter test (c :: calls)))
               = (Z.of_nat (List.length (filter test [c]))
                  + Z.of_nat (List.length (filter test calls)))%Z) as Hsplit.
    { intros test. cbn [filter]. destruct (test c); cbn [List.length]; lia. }
    rewrite (Hsplit isDecision) in *. rewrite (Hsplit isSuccess) in *.
    rewrite (Hsplit isFailure) in *.
    destruct (IH (StatsCollector.setCache (Some (Data data1)) sc) w' data1
                 n1 s1 f1 He Hnr Hb1 Hn1 Hs1 Hf1)
      as (after & Hr & Ha & I1 & I2 & I3 & I4 & I5); try lia.
    cbn zeta in *. exists after.
    split; [exact Hr|]. split; [exact Ha|].
    subst n1 s1 f1. rewrite !Z.add_assoc.
    split; [exact I1|]. split; [exact I2|]. split; [exact I3|].
    split; [auto|lia].
Qed.

(** X17.  With the statistics enabled and no [reset] in between, every
    sequence of [recordDecision], [recordSuccess] and [recordFailure] calls
    on a collector that works on statistics returns and moves each of the
    three counters by the number of calls of its kind, as long as the
    counters are integers that stay below 2^53: the outcome calls never
    change [totalRequests] or the number of entries, and a list within the
    cap of 10000 entries stays within it. *)
Theorem counters_follow_calls (calls : list StatsCall)
        (sc : StatsCollector.t) (w : World.t) (before : StatsData.t)
        (n s f : Z) :
  StatsConfig.enabled (StatsCollector.config sc) = true ->
  forallb (fun c => negb (isReset c)) calls = true ->
  statisticsOf sc w = Some before ->
  counts (StatsData.totalRequests before) n ->
  counts (StatsData.successfulRequests before) s ->
  counts (StatsData.failedRequests before) f ->
  (n + howMany isDecision calls < 2 ^ 53)%Z ->
  (s + howMany isSuccess calls < 2 ^ 53)%Z ->
  (f + howMany isFailure calls < 2 ^ 53)%Z ->
  let run := runAllStats calls (sc, w) in
  exists after : StatsData.t,
    fst run = inr tt
    /\ statisticsOf (fst (snd run)) (snd (snd run)) = Some after
    /\ counts (StatsData.totalRequests after)
              (n + howMany isDecision calls)
    /\ counts (StatsData.successfulRequests after)
              (s + howMany isSuccess calls)
    /\ counts (StatsData.failedRequests after)
              (f + howMany isFailure calls)
    /\ ((Z.of_nat (List.length (StatsData.entries before)) <= 10000)%Z ->
        (Z.of_nat (List.length (StatsData.entries after)) <= 10000)%Z)
    /\ (Z.of_nat (List.length (StatsData.entries after))
        <= Z.of_nat (List.length (StatsData.entries before))
           + howMany isDecision calls)%Z.
Proof. apply runAllStats_counters. Qed.

(** A decision and its failure, then a decision and its success. *)
Lemma counters_follow_calls_witness :
  let run :=
    runAllStats
      [RecordDecision (sampleDecision Target.cerebellum);
       RecordFailure helloTask (Some (lit "timeout"));
       RecordDecision (sampleDecision Target.cerebellum);
       RecordSuccess helloTask
         (fst (perform defaultKernel (CallQuickAnswer (lit "hello"))
                       healthyWorld))]
      (sampleCollector true,
       withFiles (fun _ => Stored earlierData) deadWorld) in
  exists after : StatsData.t,
    statisticsOf (fst (snd run)) (snd (snd run)) = Some after
    /\ StatsData.totalRequests after = 5%float
    /\ StatsData.successfulRequests after = 2%float
    /\ StatsData.failedRequests after = 1%float.
Proof.
  destruct (counters_follow_calls
              [RecordDecision (sampleDecision Target.cerebellum);
               RecordFailure helloTask (Some (lit "timeout"));
               RecordDecision (sampleDecision Target.cerebellum);
               RecordSuccess helloTask
                 (fst (perform defaultKernel (CallQuickAnswer (lit "hello"))
                               healthyWorld))]
              (sampleCollector true)
              (withFiles (fun _ => Stored earlierData) deadWorld)
              earlierData 3 1 0 eq_refl eq_refl eq_refl)
    as (after & _ & Ha & (H1 & _) & (H2 & _) & (H3 & _) & _).
  - split; [reflexivity|]. split; [discriminate|reflexivity].
  - split; [reflexivity|]. split; [discriminate|reflexivity].
  - split; [reflexivity|]. split; [discriminate|reflexivity].
  - reflexivity.
  - reflexivity.
  - reflexivity.
  - exists after. split; [exact Ha|]. split; [exact H1|].
    split; [exact H2|exact H3].
Defined.

Lemma TaskType_eqb_eq (a b : TaskType) : TaskType_eqb a b = true <-> a = b.
Proof. destruct a, b; cbn; split; congruence. Qed.

Lemma hasKey_In (ty : TaskType) (o : list (TaskType * StatsCollector.Tally)) :
  StatsCollector.hasKey ty o = true <-> In ty (map fst o).
Proof.
  induction o as [|[k v] o IH]; cbn [StatsCollector.hasKey map In fst].
  - split; [discriminate|tauto].
  - rewrite orb_true_iff, TaskType_eqb_eq, IH. tauto.
Qed.

Lemma updateKey_keys (ty : TaskType)
      (f : StatsCollector.Tally -> StatsCollector.Tally)
      (o : list (TaskType * StatsCollector.Tally)) :
  map fst (StatsCollector.updateKey ty f o) = map fst o.
Proof.
  induction o as [|[k v] o IH]; cbn [StatsCollector.updateKey map fst];
    [reflexivity|].
  destruct (TaskType_eqb k ty); cbn [map fst]; congruence.
Qed.

Lemma updateKey_In (ty : TaskType)
      (f : StatsCollector.Tally -> StatsCollector.Tally)
      (o : list (TaskType * StatsCollector.Tally))
      (k : TaskType) (v : StatsCollector.Tally) :
  NoDup (map fst o) ->
  In (k, v) (StatsCollector.updateKey ty f o) ->
  (k <> ty /\ In (k, v) o)
  \/ (k = ty /\ exists v0, In (ty, v0) o /\ v = f v0).
Proof.
  induction o as [|[k0 v0] o IH]; cbn [StatsCollector.updateKey map fst In];
    [tauto|].
  intros Hnd. inversion Hnd as [|? ? Hnotin Hnd']; subst.
  destruct (TaskType_eqb k0 ty) eqn:E.
  - apply TaskType_eqb_eq in E. subst k0. cbn [In].
    intros [[= <- <-] | Hin].
    + right. split; [reflexivity|]. exists v0. auto.
    + left. split; [|auto]. intros ->. apply Hnotin.
      change ty with (fst (ty, v)). now apply in_map.
  - cbn [In]. intros [[= <- <-] | Hin].
    + left. split; [|auto]. intros ->.
      assert (TaskType_eqb ty ty = true) by now apply TaskType_eqb_eq.
      congruence.
    + destruct (IH Hnd' Hin) as [[Hne Hi] | (-> & v1 & Hi & ->)]; eauto 6.
Qed.

Lemma entriesOf_app (k : TaskType) (l : list StatsEntry.t)
      (e : StatsEntry.t) :
  entriesOf k (l ++ [e])
  = entriesOf k l
    ++ (if TaskType_eqb (StatsEntry.taskType e) k then [e] else []).
Proof. unfold entriesOf. now rewrite filter_app. Qed.

Lemma entriesOf_absent (k : TaskType) (l : list StatsEntry.t) :
  ~ In k (map StatsEntry.taskType l) -> entriesOf k l = [].
Proof.
  unfold entriesOf. induction l as [|e l IH]; cbn [map In filter];
    [reflexivity|].
  intros H. destruct (TaskType_eqb (StatsEntry.taskType e) k) eqn:E.
  - apply TaskType_eqb_eq in E. tauto.
  - apply IH. tauto.
Qed.

Lemma totalCount_app (o o' : list (TaskType * StatsCollector.Tally)) :
  totalCount (o ++ o') = (totalCount o + totalCount o')%Z.
Proof.
  unfold totalCount. induction o as [|kv o IH]; cbn [app fold_right];
    [reflexivity|].
  rewrite IH. lia.
Qed.

Lemma totalCount_updateKey (ty : TaskType)
      (f : StatsCollector.Tally -> StatsCollector.Tally)
      (o : list (TaskType * StatsCollector.Tally)) :
  (forall v, StatsCollector.count (f v) = StatsCollector.count v + 1)%Z ->
  In ty (map fst o) ->
  totalCount (StatsCollector.updateKey ty f o) = (totalCount o + 1)%Z.
Proof.
  intros Hf. unfold totalCount.
  induction o as [|[k v] o IH];
    cbn [StatsCollector.updateKey map fst In fold_right snd]; [tauto|].
  intros Hin. destruct (TaskType_eqb k ty) eqn:E.
  - cbn [fold_right snd]. rewrite Hf. lia.
  - cbn [fold_right snd]. rewrite IH; [lia|].
    destruct Hin as [-> | Hin]; [|exact Hin].
    assert (TaskType_eqb ty ty = true) by now apply TaskType_eqb_eq.
    congruence.
Qed.

(** One step of the loop of [getStats] keeps the tally. *)
Lemma tallyEntry_talliesOf (o : list (TaskType * StatsCollector.Tally))
      (l : list StatsEntry.t) (e : StatsEntry.t) :
  talliesOf o l -> talliesOf (StatsCollector.tallyEntry o e) (l ++ [e]).
Proof.
  intros (Hnd & Hkeys & Hcount & Hsum).
  unfold StatsCollector.tallyEntry.
  set (ty := StatsEntry.taskType e).
  set (f := fun v : StatsCollector.Tally => _).
  set (o1 := if StatsCollector.hasKey ty o then o
             else o ++ [(ty, StatsCollector.mkTally 0 0 0%float)]).
  assert (forall v, StatsCollector.count (f v) = StatsCollector.count v + 1)%Z
    as Hf.
  { intros v. unfold f. now destruct (StatsEntry.success e) as [[|]|]. }
  assert (NoDup (map fst o1)
          /\ In ty (map fst o1)
          /\ (forall k, In k (map fst o1) <-> k = ty \/ In k (map fst o))
          /\ totalCount o1 = totalCount o
          /\ (forall k v, In (k, v) o1 ->
                          In (k, v) o
                          \/ (k = ty /\ v = StatsCollector.mkTally 0 0 0%float
                              /\ ~ In ty (map fst o))))
    as (Hnd1 & Hin1 & Hkeys1 & Hsum1 & Hfrom).
  { unfold o1. destruct (StatsCollector.hasKey ty o) eqn:Eh.
    - apply hasKey_In in Eh. repeat split; auto.
      + intros [-> | H]; auto.
    - assert (~ In ty (map fst o)) as Hni.
      { intros H. apply hasKey_In in H. congruence. }
      rewrite map_app. cbn [map fst]. repeat split.
      + apply NoDup_app; [exact Hnd|repeat constructor; tauto|].
        intros x Hx [<- | []]. auto.
      + apply in_or_app. right. now left.
      + intros H. apply in_app_or in H. cbn [In] in H. intuition.
      + intros [-> | H]; apply in_or_app; cbn [In]; auto.
      + rewrite totalCount_app. cbn. lia.
      + intros k v H. apply in_app_or in H. destruct H as [H | [[= <- <-] | []]];
          auto. }
  unfold talliesOf. rewrite updateKey_keys.
  split; [exact Hnd1|]. split; [|split].
  - intros k. rewrite Hkeys1, map_app, in_app_iff, <- Hkeys.
    cbn [map In]. fold ty. intuition.
  - intros k v Hin.
    rewrite entriesOf_app. fold ty.
    destruct (updateKey_In ty f o1 k v Hnd1 Hin)
      as [[Hne Hi] | (-> & v0 & Hi & ->)].
    + assert (TaskType_eqb ty k = false) as ->.
      { destruct (TaskType_eqb ty k) eqn:E; [|reflexivity].
        apply TaskType_eqb_eq in E. congruence. }
      rewrite app_nil_r.
      destruct (Hfrom k v Hi) as [Ho | (-> & _)]; [|congruence].
      now apply Hcount.
    + assert (TaskType_eqb ty ty = true) as -> by now apply TaskType_eqb_eq.
      rewrite filter_app, !length_app. cbn [filter List.length].
      assert (StatsCollector.count v0
              = Z.of_nat (List.length (entriesOf ty l))
              /\ StatsCollector.successCount v0
                 = Z.of_nat (List.length
                               (filter isSuccessful (entriesOf ty l))))
        as [Hc Hs].
      { destruct (Hfrom ty v0 Hi) as [Ho | (_ & -> & Hni)].
        - now apply Hcount.
        - rewrite entriesOf_absent; [split; reflexivity|].
          now rewrite <- Hkeys. }
      assert (isSuccessful e
              = match StatsEntry.success e with
                | Some true => true
                | _ => false
                end) as -> by reflexivity.
      unfold f.
      destruct (StatsEntry.success e) as [[|]|];
        cbn [StatsCollector.count StatsCollector.successCount List.length];
        split; lia.
  - rewrite (totalCount_updateKey ty f o1 Hf Hin1), Hsum1, Hsum.
    rewrite length_app. cbn [List.length]. lia.
Qed.

Lemma fold_tallyEntry_talliesOf (es : list StatsEntry.t) :
  forall (o : list (TaskType * StatsCollector.Tally))
         (l : list StatsEntry.t),
    talliesOf o l ->
    talliesOf (fold_left StatsCollector.tallyEntry es o) (l ++ es).
Proof.
  induction es as [|e es IH]; intros o l H; cbn [fold_left].
  - now rewrite app_nil_r.
  - replace (l ++ e :: es) with ((l ++ [e]) ++ es)
      by now rewrite <- app_assoc.
    apply IH. now apply tallyEntry_talliesOf.
Qed.

Lemma talliesOf_nil : talliesOf [] [].
Proof.
  unfold talliesOf. split; [constructor|]. split; [|split].
  - intros k. cbn. tauto.
  - intros k v [].
  - reflexivity.
Qed.

(** X18.  The per-type rows of [getStats] partition the entry log: when the
    collector works on statistics, [getStats] returns a snapshot with
    exactly one row for each task type that occurs in the entries, its
    count is the number of entries of that type (so it is positive), its
    success rate is the number of those marked successful divided by the
    count, and the counts of all rows add up to the number of entries. *)
Theorem per_type_rows_partition_entries (sc : StatsCollector.t)
        (w : World.t) (data : StatsData.t) :
  statisticsOf sc w = Some data ->
  let entries := StatsData.entries data in
  exists snap : CerebellumStats.t,
    fst (StatsCollector.getStats (sc, w)) = inr snap
    /\ let rows := CerebellumStats.taskTypeStats snap in
       NoDup (map fst rows)
       /\ (forall ty, In ty (map fst rows)
                      <-> In ty (map StatsEntry.taskType entries))
       /\ (forall ty row,
              In (ty, row) rows ->
              (0 < TypeStats.count row)%Z
              /\ TypeStats.count row
                 = Z.of_nat (List.length (entriesOf ty entries))
              /\ TypeStats.successRate row
                 = (of_Z (Z.of_nat (List.length
                                      (filter isSuccessful
                                              (entriesOf ty entries))))
                    / of_Z (TypeStats.count row))%float)
       /\ totalRows rows = Z.of_nat (List.length entries).
Proof.
  intros Hd. cbn zeta.
  destruct (getStats_run sc w) as (sc' & w' & -> & _).
  apply statisticsOf_Data in Hd. rewrite Hd. cbn [fst].
  exists (StatsCollector.snapshot data). split; [reflexivity|].
  cbn [StatsCollector.snapshot CerebellumStats.taskTypeStats].
  set (entries := StatsData.entries data).
  destruct (fold_tallyEntry_talliesOf entries [] [] talliesOf_nil)
    as (Hnd & Hkeys & Hcount & Hsum).
  cbn [app] in *.
  set (o := fold_left StatsCollector.tallyEntry entries []) in *.
  assert (map fst (map StatsCollector.formatTally o) = map fst o) as Hk.
  { rewrite map_map. apply map_ext. now intros [k v]. }
  rewrite Hk. split; [exact Hnd|]. split; [exact Hkeys|]. split.
  - intros ty row Hin. apply in_map_iff in Hin.
    destruct Hin as ([k v] & [= <- <-] & Hin).
    destruct (Hcount k v Hin) as [Hc Hs].
    assert (In k (map StatsEntry.taskType entries)) as Hocc.
    { apply Hkeys. change k with (fst (k, v)). now apply in_map. }
    assert (0 < StatsCollector.count v)%Z as Hpos.
    { rewrite Hc. unfold entriesOf.
      apply in_map_iff in Hocc. destruct Hocc as (e & He & Hie).
      assert (In e (filter (fun e0 => TaskType_eqb (StatsEntry.taskType e0) k)
                           entries)) as Hf.
      { apply filter_In. split; [exact Hie|]. now apply TaskType_eqb_eq. }
      destruct (filter _ entries); [destruct Hf|cbn [List.length]; lia]. }
    cbn [TypeStats.count TypeStats.successRate].
    split; [exact Hpos|]. split; [exact Hc|].
    unfold StatsCollector.ratioIf.
    apply Z.ltb_lt in Hpos. rewrite Hpos. now rewrite Hs.
  - rewrite <- Hsum. unfold totalRows, totalCount.
    clear. induction o as [|[k v] o IH]; cbn; [reflexivity|].
    now rewrite IH.
Qed.

(** The one row of the statistics of an earlier run. *)
Lemma per_type_rows_witness :
  exists snap : CerebellumStats.t,
    fst (StatsCollector.getStats
           (sampleCollector false,
            withFiles (fun _ => Stored earlierData) deadWorld))
    = inr snap
    /\ totalRows (CerebellumStats.taskTypeStats snap) = 1%Z.
Proof.
  destruct (per_type_rows_partition_entries
              (sampleCollector false)
              (withFiles (fun _ => Stored earlierData) deadWorld)
              earlierData eq_refl)
    as (snap & Hs & _ & _ & _ & Ht).
  exists snap. split; [exact Hs|exact Ht].
Defined.

(** X13.  A log without entries.  When nothing is cached and the file
    parses to a document that has no [entries] (such as an empty object,
    or [null]), [getStats] throws, whatever the switch, and with the
    statistics enabled so do [recordDecision], [recordSuccess] and
    [recordFailure], once and again, without writing anything; [reset]
    repairs the log. *)
Theorem log_without_entries_throws (sc : StatsCollector.t) (w : World.t)
        (truthy : bool) :
  StatsCollector.cache sc = None ->
  World.files w (StatsCollector.logPath sc) = NoEntries truthy ->
  (exists e, fst (StatsCollector.getStats (sc, w)) = inl e)
  /\ World.files (snd (snd (StatsCollector.getStats (sc, w))))
     = World.files w
  /\ (StatsConfig.enabled (StatsCollector.config sc) = true ->
      (forall call : StatsCall,
          isReset call = false ->
          let run := runStats call (sc, w) in
          (exists e, fst run = inl e)
          /\ World.files (snd (snd run)) = World.files w
          /\ forall call' : StatsCall,
               isReset call' = false ->
               exists e, fst (runStats call' (snd run)) = inl e)
      /\ (let run := StatsCollector.reset (sc, w) in
          fst run = inr tt
          /\ forall call : StatsCall,
               fst (runStats call (snd run)) = inr tt)).
Proof.
  intros Hc Hfile.
  assert (loadedDocument sc w = Shapeless) as Hd.
  { unfold loadedDocument, StatsCollector.loadData. now rewrite Hc, Hfile. }
  destruct (getStats_run sc w) as (sc1 & w1 & -> & _ & _ & Hf1 & _).
  rewrite Hd. cbn [fst snd].
  split; [eexists; reflexivity|]. split; [exact Hf1|].
  intros He. split.
  - intros call Hr. cbn zeta.
    destruct (runStats_shapeless call sc w He Hd Hr)
      as (sc' & w' & -> & Hc' & _ & Hf & _ & Hstuck).
    cbn [fst snd]. split; [eexists; reflexivity|]. split; [exact Hf|].
    intros call' Hr'.
    destruct (runStats_shapeless call' sc' w' ltac:(congruence)
                (Hstuck w' Hf) Hr') as (sc2 & w2 & -> & _).
    eexists; reflexivity.
  - cbn zeta.
    destruct (reset_enabled sc w He) as (now & stamp & w' & -> & _).
    cbn [fst snd]. split; [reflexivity|].
    intros call.
    set (sc' := StatsCollector.setCache
                  (Some (Data (StatsCollector.setLastUpdated
                                 stamp (StatsCollector.emptyData now))))
                  sc).
    destruct (runStats_enabled call sc' w' _ He
                (statisticsOf_cached sc' w' _ eq_refl))
      as (now' & stamp' & w2 & -> & _).
    reflexivity.
Qed.

(** An enabled collector that finds an empty object in its file. *)
Lemma log_without_entries_witness :
  exists e,
    fst (StatsCollector.recordDecision
           (sampleDecision Target.cerebrum)
           (sampleCollector true,
            withFiles (fun _ => NoEntries true) deadWorld))
    = inl e.
Proof.
  destruct (log_without_entries_throws
              (sampleCollector true)
              (withFiles (fun _ => NoEntries true) deadWorld) true
              eq_refl eq_refl) as (_ & _ & H).
  destruct (H eq_refl) as [Hthrow _].
  destruct (Hthrow (RecordDecision (sampleDecision Target.cerebrum))
                   eq_refl) as [He _].
  exact He.
Defined.

(* ================================================================== *)
(** * More of the router ([router.ts]) *)
(* ================================================================== *)

Lemma totals_after_decision (at_ stamp : Z) (d : RoutingDecision.t)
      (before' before : StatsData.t) :
  sameRecords before' before ->
  let data := StatsCollector.setLastUpdated
                stamp (StatsCollector.addDecision at_ d before') in
  countedRequest before data /\ noOutcome before data.
Proof.
  intros [_ Ht]. unfold runningTotals in Ht.
  injection Ht as T1 T2 T3 T4 T5.
  unfold countedRequest, noOutcome.
  cbn [StatsCollector.setLastUpdated StatsCollector.addDecision
       StatsData.totalRequests StatsData.successfulRequests
       StatsData.failedRequests StatsData.totalDurationMs
       StatsData.tokensSaved].
  rewrite T1, T2, T3, T4, T5. repeat split.
Qed.

Lemma totals_after_outcome (at_ stamp : Z) (task : TaskInfo.t)
      (response : CerebellumResponse.t) (data : StatsData.t) :
  let data' := StatsCollector.setLastUpdated
                 stamp (applyCall at_ (outcomeCall task response) data) in
  StatsData.totalRequests data' = StatsData.totalRequests data
  /\ countedOutcome response data data'.
Proof.
  unfold outcomeCall, countedOutcome, countedSuccess, countedFailure.
  destruct (CerebellumResponse.success response);
    cbn [applyCall StatsCollector.setLastUpdated StatsCollector.addSuccess
         StatsCollector.addFailure
         StatsData.totalRequests StatsData.successfulRequests
         StatsData.failedRequests StatsData.totalDurationMs
         StatsData.tokensSaved];
    repeat split.
Qed.

(** The statistics after one [route], with the statistics enabled. *)
Lemma route_totals (self : DualKernelRouter.t) (w : World.t)
      (task : TaskInfo.t) (before : StatsData.t) :
  StatsConfig.enabled
    (StatsCollector.config (DualKernelRouter.stats self)) = true ->
  statisticsOf (DualKernelRouter.stats self) w = Some before ->
  let run := DualKernelRouter.route task (self, w) in
  exists (result : RouteResult.t) (after : StatsData.t)
         (response : CerebellumResponse.t),
    fst run = inr result
    /\ routerStatistics (snd run) = Some after
    /\ countedRequest before after
    /\ (if routesLocally self task then
          match RouteResult.cerebellumResponse result with
          | Some r => r = response
          | None => CerebellumResponse.success response = false
          end
          /\ countedOutcome response before after
        else noOutcome before after).
Proof.
  intros He Hb. cbn zeta. unfold routerStatistics.
  destruct (route_run self w task (or_intror (ex_intro _ before Hb)))
    as (now & sc1 & w2 & _ & _ & _ & _ & _ & _ & _ & Hst1 & Hrun).
  cbn zeta in Hst1, Hrun.
  destruct (Hst1 He before Hb) as (at1 & stamp1 & before' & Hsame & Hc1).
  destruct (totals_after_decision at1 stamp1
              (routeDecision self task now) before' before Hsame)
    as [Hreq Hnone].
  cbn zeta in Hreq, Hnone.
  remember (StatsCollector.setLastUpdated
              stamp1 (StatsCollector.addDecision
                        at1 (routeDecision self task now) before'))
    as data1 eqn:Ed1.
  clear Ed1.
  destruct (routesLocally self task).
  - destruct Hrun as (sc2 & w4 & -> & _ & _ & _ & _ & _ & _ & _ & Hst2).
    destruct (Hst2 He data1 Hc1) as (at2 & stamp2 & Hc2).
    set (response :=
           fst (perform (DualKernelRouter.cerebellum self)
                  (kernelCallFor
                     (TaskAssessment.taskType
                        (TaskEvaluator.evaluate
                           (DualKernelRouter.evaluator self) task))
                     (TaskInfo.prompt task)) w2)) in *.
    cbn [fst snd DualKernelRouter.stats DualKernelRouter.setStats].
    destruct (totals_after_outcome at2 stamp2 task response data1)
      as [Htot Hout].
    cbn zeta in Htot, Hout.
    eexists. eexists. exists response.
    split; [reflexivity|].
    split; [apply statisticsOf_cached; exact Hc2|].
    split; [unfold countedRequest in *; congruence|].
    split.
    { unfold failedRouteResult.
      destruct (CerebellumResponse.success response) eqn:Es;
        [reflexivity|].
      now destruct (DualKernelRouter.enableFallback self). }
    unfold countedOutcome, countedSuccess, countedFailure, noOutcome in *.
    destruct Hnone as (N1 & N2 & N3 & N4).
    destruct (CerebellumResponse.success response);
      destruct Hout as (O1 & O2 & O3 & O4);
      rewrite O1, O2, O3, O4, N1, N2, N3, N4; repeat split.
  - rewrite Hrun.
    cbn [fst snd DualKernelRouter.stats DualKernelRouter.setStats].
    eexists. eexists.
    exists (CerebellumResponse.mk [] false None [] 0 None).
    split; [reflexivity|].
    split; [apply statisticsOf_cached; exact Hc1|].
    split; [exact Hreq|exact Hnone].
Qed.

(** X19.  A task that is not routed locally (the assessment declined, the
    configuration disables the local kernel, or the last availability check
    did not find it) goes to the remote kernel without any contact with the
    local backend.  When recording cannot throw, [route] returns a result
    that names cerebrum and carries neither a response nor a fallback
    reason, no request is sent, [generate] is not entered, the only
    callback is the routing decision, the router is unchanged but for its
    statistics, and these, when enabled, count one more request and no
    outcome. *)
Theorem route_remote_leaves_backend_alone (self : DualKernelRouter.t)
        (w : World.t) (task : TaskInfo.t) :
  routesLocally self task = false ->
  statsReady (DualKernelRouter.stats self) w ->
  let run := DualKernelRouter.route task (self, w) in
  let self' := fst (snd run) in
  let w' := snd (snd run) in
  fst run
  = inr (remoteResult
           (TaskEvaluator.evaluate (DualKernelRouter.evaluator self) task))
  /\ World.sent w' = World.sent w
  /\ World.generateCalls w' = World.generateCalls w
  /\ (exists now,
         RoutingDecision.target (routeDecision self task now)
         = Target.cerebrum
         /\ World.events w'
            = World.events w
              ++ (if RouterCallbacks.onRoutingDecision
                       (DualKernelRouter.callbacks self)
                  then [OnRoutingDecision (routeDecision self task now)]
                  else []))
  /\ sameRouterButCache self' self
  /\ (StatsConfig.enabled
        (StatsCollector.config (DualKernelRouter.stats self)) = true ->
      forall before : StatsData.t,
        statisticsOf (DualKernelRouter.stats self) w = Some before ->
        exists after : StatsData.t,
          routerStatistics (self', w') = Some after
          /\ countedRequest before after
          /\ noOutcome before after
          /\ (forall n : Z,
                 counts (StatsData.totalRequests before) n ->
                 (n + 1 < 2 ^ 53)%Z ->
                 counts (StatsData.totalRequests after) (n + 1))).
Proof.
  intros Hgo Hready. cbn zeta.
  destruct (route_run self w task Hready)
    as (now & sc1 & w2 & Hn & Hs & Hg & Hev & Hc & Hp & _ & Hst & Hrun).
  cbn zeta in Hst, Hrun, Hev. rewrite Hgo in Hrun.
  pose proof (route_totals self w task) as Htot. cbn zeta in Htot.
  rewrite Hgo in Htot. rewrite Hrun in *.
  cbn [fst snd] in *.
  split; [reflexivity|]. split; [exact Hs|]. split; [exact Hg|].
  split.
  { exists now. split; [|exact Hev].
    unfold routeDecision. cbn [RoutingDecision.target]. now rewrite Hgo. }
  split; [now apply sameRouterButCache_setStats|].
  intros He before Hb.
  destruct (Htot before He Hb) as (result & after & _ & _ & Ha & Hreq & Hno).
  exists after. split; [exact Ha|]. split; [exact Hreq|].
  split; [exact Hno|].
  intros n Hcount Hlt. unfold countedRequest in Hreq. rewrite Hreq.
  now apply counts_succ.
Qed.

Lemma route_remote_witness :
  let run := DualKernelRouter.route helloTask (freshRouter, healthyWorld) in
  fst run
  = inr (remoteResult
           (TaskEvaluator.evaluate (DualKernelRouter.evaluator freshRouter)
                                   helloTask))
  /\ World.sent (snd (snd run)) = World.sent healthyWorld
  /\ World.generateCalls (snd (snd run)) = World.generateCalls healthyWorld.
Proof.
  destruct (route_remote_leaves_backend_alone
              freshRouter healthyWorld helloTask)
    as (H1 & H2 & H3 & _).
  - vm_compute. reflexivity.
  - right. eexists. vm_compute. reflexivity.
  - repeat split; assumption.
Defined.

(** X20.  A successful answer of the local kernel is handed back as it is
    and counted once: when recording cannot throw and [route] returns a
    response that reports success, the task was routed locally, the result
    names cerebellum and has no fallback reason, the response has no
    error, [generate] was entered exactly once, the success callback (when
    supplied) received this response, neither the failure nor the fallback
    callback was invoked, and the enabled statistics gained one request,
    one success, the response's duration and its token total. *)
Theorem successful_local_answer_is_returned_and_counted
        (self : DualKernelRouter.t) (w : World.t) (task : TaskInfo.t)
        (result : RouteResult.t) (response : CerebellumResponse.t) :
  let run := DualKernelRouter.route task (self, w) in
  let self' := fst (snd run) in
  let w' := snd (snd run) in
  statsReady (DualKernelRouter.stats self) w ->
  fst run = inr result ->
  RouteResult.cerebellumResponse result = Some response ->
  CerebellumResponse.success response = true ->
  routesLocally self task = true
  /\ RouteResult.target result = Target.cerebellum
  /\ RouteResult.fallbackReason result = None
  /\ CerebellumResponse.error response = None
  /\ World.generateCalls w' = S (World.generateCalls w)
  /\ (exists now,
         World.events w'
         = World.events w
           ++ (if RouterCallbacks.onRoutingDecision
                    (DualKernelRouter.callbacks self)
               then [OnRoutingDecision (routeDecision self task now)]
               else [])
           ++ (if RouterCallbacks.onCerebellumSuccess
                    (DualKernelRouter.callbacks self)
               then [OnCerebellumSuccess response task] else []))
  /\ (StatsConfig.enabled
        (StatsCollector.config (DualKernelRouter.stats self)) = true ->
      forall before : StatsData.t,
        statisticsOf (DualKernelRouter.stats self) w = Some before ->
        exists after : StatsData.t,
          routerStatistics (self', w') = Some after
          /\ countedRequest before after
          /\ countedSuccess response before after).
Proof.
  cbn zeta. intros Hready Hres Hresp Hsucc.
  pose proof (route_totals self w task) as Htot. cbn zeta in Htot.
  destruct (route_run self w task Hready)
    as (now & sc1 & w2 & Hn & Hs & Hg & Hev & Hc & Hp & _ & Hst & Hrun).
  cbn zeta in Hst, Hrun, Hev.
  destruct (routesLocally self task) eqn:Hgo.
  2:{ rewrite Hrun in Hres. injection Hres as <-. discriminate. }
  destruct Hrun as (sc2 & w4 & Hrun & Hn4 & Hs4 & Hg4 & Hev4 & _).
  set (r0 := fst (perform (DualKernelRouter.cerebellum self)
                    (kernelCallFor
                       (TaskAssessment.taskType
                          (TaskEvaluator.evaluate
                             (DualKernelRouter.evaluator self) task))
                       (TaskInfo.prompt task)) w2)) in *.
  assert (r0 = response /\ CerebellumResponse.success r0 = true)
    as [Er Es].
  { rewrite Hrun in Hres. cbn [fst] in Hres. injection Hres as <-.
    destruct (CerebellumResponse.success r0) eqn:Es.
    - cbn in Hresp. injection Hresp as ->. now split.
    - unfold failedRouteResult in Hresp.
      destruct (DualKernelRouter.enableFallback self); cbn in Hresp;
        [discriminate|].
      injection Hresp as ->. congruence. }
  destruct (perform_shape (DualKernelRouter.cerebellum self)
              (kernelCallFor
                 (TaskAssessment.taskType
                    (TaskEvaluator.evaluate
                       (DualKernelRouter.evaluator self) task))
                 (TaskInfo.prompt task)) w2) as [_ Hok].
  fold r0 in Hok.
  split; [reflexivity|].
  rewrite Hrun in *. cbn [fst snd] in *. rewrite Es in *.
  injection Hres as <-.
  cbn [localResult RouteResult.target RouteResult.fallbackReason].
  split; [reflexivity|]. split; [reflexivity|].
  split; [rewrite <- Er; now apply Hok|]. split; [exact Hg4|].
  split.
  { exists now. rewrite Hev4, Hev, <- app_assoc. unfold outcomeEvents.
    rewrite Es, Er. reflexivity. }
  intros He before Hb.
  destruct (Htot before He Hb)
    as (result & after & r1 & Hr & Ha & Hreq & Hr1 & Hout).
  injection Hr as <-.
  cbn [localResult RouteResult.cerebellumResponse] in Hr1. subst r1.
  exists after. split; [exact Ha|]. split; [exact Hreq|].
  unfold countedOutcome in Hout. rewrite Es in Hout. now rewrite <- Er.
Qed.

Lemma successful_local_answer_witness :
  exists (result : RouteResult.t) (response : CerebellumResponse.t),
    let run :=
      DualKernelRouter.route helloTask (sampleRouter true, healthyWorld) in
    fst run = inr result
    /\ RouteResult.cerebellumResponse result = Some response
    /\ CerebellumResponse.success response = true
    /\ RouteResult.target result = Target.cerebellum
    /\ World.generateCalls (snd (snd run)) = 1%nat.
Proof.
  assert (exists result,
             fst (DualKernelRouter.route
                    helloTask (sampleRouter true, healthyWorld))
             = inr result
             /\ RouteResult.cerebellumResponse result
                = Some {| CerebellumResponse.text := lit "Hello!";
                          CerebellumResponse.success := true;
                          CerebellumResponse.error := None;
                          CerebellumResponse.model := lit "qwen2.5:0.5b";
                          CerebellumResponse.durationMs := 0;
                          CerebellumResponse.usage :=
                            Some {| Usage.input := 5; Usage.output := 7;
                                    Usage.total := 12 |} |})
    as (result & H0 & H1).
  { eexists. split; [vm_compute; reflexivity|reflexivity]. }
  match type of H1 with
  | _ = Some ?r => set (response := r) in *
  end.
  exists result, response. cbn zeta.
  split; [exact H0|]. split; [exact H1|]. split; [reflexivity|].
  destruct (successful_local_answer_is_returned_and_counted
              (sampleRouter true) healthyWorld helloTask result response)
    as (_ & Ht & _ & _ & Hg & _);
    [right; eexists; vm_compute; reflexivity
    |exact H0|exact H1|reflexivity|].
  split; [exact Ht|exact Hg].
Defined.

(** [route] changes the router in the cache of its statistics only, and
    enters [generate] once or not at all. *)
Lemma route_frame (self : DualKernelRouter.t) (w : World.t)
      (task : TaskInfo.t) :
  statsReady (DualKernelRouter.stats self) w ->
  let run := DualKernelRouter.route task (self, w) in
  (exists result, fst run = inr result)
  /\ sameRouterButCache (fst (snd run)) self
  /\ (forall w'', statsReady (DualKernelRouter.stats (fst (snd run))) w'')
  /\ World.generateCalls (snd (snd run))
     = (if routesLocally self task then S (World.generateCalls w)
        else World.generateCalls w).
Proof.
  intros Hready. cbn zeta.
  destruct (route_run self w task Hready)
    as (now & sc1 & w2 & Hn & Hs & Hg & Hev & Hc & Hp & Hr1 & Hst & Hrun).
  cbn zeta in Hrun.
  destruct (routesLocally self task).
  - destruct Hrun as (sc2 & w4 & -> & Hn4 & Hs4 & Hg4 & Hev4 & Hc4 & Hp4
                      & Hr4 & _).
    cbn [fst snd]. split; [eexists; reflexivity|].
    split; [now apply sameRouterButCache_setStats|].
    split; [exact Hr4|exact Hg4].
  - rewrite Hrun. cbn [fst snd]. split; [eexists; reflexivity|].
    split; [now apply sameRouterButCache_setStats|].
    split; [exact Hr1|exact Hg].
Qed.

(** X21.  What every [route] keeps, whatever it decides, when recording
    cannot throw: it returns, the router is unchanged but for the cache of
    its statistics (in particular a failure of the local kernel does not
    clear the availability flag), [generate] is entered once when the task
    is routed locally and not at all otherwise, the result carries a
    response exactly when it names cerebellum, and a fallback reason only
    after a local attempt with the fallback enabled, in which case it names
    cerebrum. *)
Theorem route_invariants (self : DualKernelRouter.t) (w : World.t)
        (task : TaskInfo.t) :
  statsReady (DualKernelRouter.stats self) w ->
  let run := DualKernelRouter.route task (self, w) in
  let self' := fst (snd run) in
  let w' := snd (snd run) in
  exists result : RouteResult.t,
    fst run = inr result
    /\ RouteResult.assessment result
       = TaskEvaluator.evaluate (DualKernelRouter.evaluator self) task
    /\ sameRouterButCache self' self
    /\ World.generateCalls w'
       = (if routesLocally self task then S (World.generateCalls w)
          else World.generateCalls w)
    /\ (RouteResult.target result = Target.cerebellum
        <-> exists response,
            RouteResult.cerebellumResponse result = Some response)
    /\ (forall reason,
           RouteResult.fallbackReason result = Some reason ->
           routesLocally self task = true
           /\ DualKernelRouter.enableFallback self = true
           /\ RouteResult.target result = Target.cerebrum
           /\ RouteResult.cerebellumResponse result = None).
Proof.
  intros Hready. cbn zeta.
  destruct (route_run self w task Hready)
    as (now & sc1 & w2 & Hn & Hs & Hg & Hev & Hc & Hp & _ & Hst & Hrun).
  cbn zeta in Hst, Hrun, Hev.
  destruct (routesLocally self task) eqn:Hgo.
  - destruct Hrun as (sc2 & w4 & -> & Hn4 & Hs4 & Hg4 & Hev4 & Hc4 & Hp4 & _).
    cbn [fst snd]. eexists. split; [reflexivity|].
    split.
    { destruct (CerebellumResponse.success _); [reflexivity|].
      unfold failedRouteResult.
      now destruct (DualKernelRouter.enableFallback self). }
    split; [now apply sameRouterButCache_setStats|].
    split; [exact Hg4|].
    destruct (CerebellumResponse.success _);
      [|unfold failedRouteResult;
        destruct (DualKernelRouter.enableFallback self)];
      cbn [localResult RouteResult.target RouteResult.cerebellumResponse
           RouteResult.fallbackReason];
      (split;
       [first [ split; [eauto | reflexivity]
              | split; [discriminate | intros [? ?]; discriminate] ]|]);
      intros reason Hr; try discriminate; repeat split; reflexivity.
  - rewrite Hrun. cbn [fst snd]. eexists. split; [reflexivity|].
    cbn [remoteResult RouteResult.target RouteResult.assessment
         RouteResult.cerebellumResponse RouteResult.fallbackReason].
    split; [reflexivity|].
    split; [now apply sameRouterButCache_setStats|].
    split; [exact Hg|].
    split; [split; [discriminate | intros [? ?]; discriminate]|].
    discriminate.
Qed.

Lemma route_invariants_witness :
  exists result : RouteResult.t,
    fst (DualKernelRouter.route helloTask (sampleRouter true, deadWorld))
    = inr result
    /\ World.generateCalls
         (snd (snd (DualKernelRouter.route
                      helloTask (sampleRouter true, deadWorld))))
       = 1%nat.
Proof.
  destruct (route_invariants (sampleRouter true) deadWorld helloTask)
    as (result & Hr & _ & _ & Hg & _).
  - right. eexists. vm_compute. reflexivity.
  - exists result. split; [exact Hr|]. rewrite Hg. vm_compute. reflexivity.
Defined.

Lemma sameRouterButCache_trans (a b c : DualKernelRouter.t) :
  sameRouterButCache a b -> sameRouterButCache b c ->
  sameRouterButCache a c.
Proof.
  intros (A1 & A2 & A3 & A4 & A5 & A6 & A7 & A8)
         (B1 & B2 & B3 & B4 & B5 & B6 & B7 & B8).
  unfold sameRouterButCache.
  rewrite A1, A2, A3, A4, A5, A6, A7, A8. now repeat split.
Qed.

Lemma routesLocally_same (a b : DualKernelRouter.t) (task : TaskInfo.t) :
  sameRouterButCache a b -> routesLocally a task = routesLocally b task.
Proof.
  intros (H1 & _ & H3 & _ & _ & H6 & _). unfold routesLocally.
  now rewrite H1, H3, H6.
Qed.

Lemma routeAll_counts (tasks : list TaskInfo.t) :
  forall (self : DualKernelRouter.t) (w : World.t) (before : StatsData.t)
         (n s f : Z),
    StatsConfig.enabled
      (StatsCollector.config (DualKernelRouter.stats self)) = true ->
    statisticsOf (DualKernelRouter.stats self) w = Some before ->
    counts (StatsData.totalRequests before) n ->
    counts (StatsData.successfulRequests before) s ->
    counts (StatsData.failedRequests before) f ->
    (n + Z.of_nat (List.length tasks) < 2 ^ 53)%Z ->
    (s + Z.of_nat (List.length tasks) < 2 ^ 53)%Z ->
    (f + Z.of_nat (List.length tasks) < 2 ^ 53)%Z ->
    let run := routeAll tasks (self, w) in
    exists (results : list RouteResult.t) (after : StatsData.t)
           (s' f' : Z),
      fst run = inr results
      /\ List.length results = List.length tasks
      /\ sameRouterButCache (fst (snd run)) self
      /\ World.generateCalls (snd (snd run))
         = (World.generateCalls w + howManyLocal self tasks)%nat
      /\ routerStatistics (snd run) = Some after
      /\ counts (StatsData.totalRequests after)
                (n + Z.of_nat (List.length tasks))
      /\ counts (StatsData.successfulRequests after) s'
      /\ counts (StatsData.failedRequests after) f'
      /\ (s' + f' = s + f + Z.of_nat (howManyLocal self tasks))%Z
      /\ (s <= s')%Z
      /\ (f <= f')%Z.
Proof.
  induction tasks as [|task rest IH];
    intros self w before n s f He Hb Hn Hs Hf Bn Bs Bf; cbn zeta.
  - cbn [routeAll List.length howManyLocal filter] in *.
    unfold retT, ret. cbn [fst snd].
    exists [], before, s, f. unfold routerStatistics. cbn [fst snd].
    rewrite Z.add_0_r, Nat.add_0_r.
    repeat split; try assumption; try reflexivity; try lia;
      try apply Hn; try apply Hs; try apply Hf.
  - cbn [List.length] in Bn, Bs, Bf.
    pose proof (route_frame self w task
                  (or_intror (ex_intro _ before Hb))) as Hinv.
    pose proof (route_totals self w task before He Hb) as Htot.
    cbn zeta in Hinv, Htot.
    destruct (DualKernelRouter.route task (self, w))
      as [[e|r] [self1 w1]] eqn:E1;
      cbn [fst snd] in Hinv, Htot;
      destruct Hinv as ((r0 & Hr0) & Hsame & _ & Hg); [discriminate|].
    destruct Htot as (result & data1 & response & _ & Ha1 & Hreq & Hout).
    unfold routerStatistics in Ha1. cbn [fst snd] in Ha1.
    assert (StatsConfig.enabled
              (StatsCollector.config (DualKernelRouter.stats self1)) = true)
      as He1.
    { destruct Hsame as (_ & _ & _ & _ & _ & _ & Hc & _). now rewrite Hc. }
    assert (exists s1 f1,
               counts (StatsData.totalRequests data1) (n + 1)
               /\ counts (StatsData.successfulRequests data1) s1
               /\ counts (StatsData.failedRequests data1) f1
               /\ (s1 + f1
                   = s + f + (if routesLocally self task then 1 else 0))%Z
               /\ (s <= s1 <= s + 1)%Z /\ (f <= f1 <= f + 1)%Z)
      as (s1 & f1 & Hn1 & Hs1 & Hf1 & Esum & Hsle & Hfle).
    { unfold countedRequest in Hreq.
      unfold countedOutcome, countedSuccess, countedFailure, noOutcome
        in Hout.
      destruct (routesLocally self task);
        [destruct Hout as [_ Hout];
         destruct (CerebellumResponse.success response)|];
        destruct Hout as (O1 & O2 & _ & _).
      - exists (s + 1)%Z, f. rewrite Hreq, O1, O2.
        split; [apply counts_succ; [exact Hn|lia]|].
        split; [apply counts_succ; [exact Hs|lia]|].
        split; [exact Hf|]. lia.
      - exists s, (f + 1)%Z. rewrite Hreq, O1, O2.
        split; [apply counts_succ; [exact Hn|lia]|].
        split; [exact Hs|].
        split; [apply counts_succ; [exact Hf|lia]|]. lia.
      - exists s, f. rewrite Hreq, O1, O2.
        split; [apply counts_succ; [exact Hn|lia]|].
        split; [exact Hs|]. split; [exact Hf|]. lia. }
    destruct (IH self1 w1 data1 (n + 1)%Z s1 f1 He1 Ha1 Hn1 Hs1 Hf1)
      as (results & after & s' & f' & Hres & Hlen & Hsame2 & Hg2 & Ha
          & Hn' & Hs' & Hf' & Esum' & Hsle' & Hfle'); try lia.
    cbn zeta in *.
    destruct (routeAll rest (self1, w1)) as [[e2|rs] [self2 w2]] eqn:E2;
      cbn [fst snd] in *; [discriminate|].
    injection Hres as ->.
    assert (routeAll (task :: rest) (self, w)
            = (inr (r :: results), (self2, w2))) as ->.
    { cbn [routeAll]. unfold bindT, retT, ret. now rewrite E1, E2. }
    cbn [fst snd].
    assert (howManyLocal self1 rest = howManyLocal self rest) as Hm.
    { unfold howManyLocal. f_equal. apply filter_ext.
      intros t. now apply routesLocally_same. }
    rewrite Hm in *.
    assert (howManyLocal self (task :: rest)
            = ((if routesLocally self task then 1 else 0)
               + howManyLocal self rest)%nat) as ->.
    { unfold howManyLocal. cbn [filter].
      now destruct (routesLocally self task). }
    exists (r :: results), after, s', f'.
    split; [reflexivity|].
    split; [cbn [List.length]; now rewrite Hlen|].
    split; [now apply sameRouterButCache_trans with self1|].
    split.
    { rewrite Hg2, Hg. destruct (routesLocally self task); lia. }
    split; [exact Ha|].
    split.
    { replace (n + Z.of_nat (List.length (task :: rest)))%Z
        with (n + 1 + Z.of_nat (List.length rest))%Z
        by (cbn [List.length]; lia).
      exact Hn'. }
    split; [exact Hs'|]. split; [exact Hf'|].
    destruct (routesLocally self task); repeat split; lia.
Qed.

(** X22.  The accounting of a router with enabled statistics, whose
    counters are integers that stay below 2^53: after any list of tasks
    routed one after the other there is one result per task, the number
    of requests has grown by the number of tasks, and the number of
    recorded outcomes (successes plus failures) has grown by the number of
    tasks that were routed locally, which is also the number of times
    [generate] was entered; neither count of outcomes ever decreases. *)
Theorem router_accounting (tasks : list TaskInfo.t)
        (self : DualKernelRouter.t) (w : World.t) (before : StatsData.t)
        (n s f : Z) :
  StatsConfig.enabled
    (StatsCollector.config (DualKernelRouter.stats self)) = true ->
  statisticsOf (DualKernelRouter.stats self) w = Some before ->
  counts (StatsData.totalRequests before) n ->
  counts (StatsData.successfulRequests before) s ->
  counts (StatsData.failedRequests before) f ->
  (n + Z.of_nat (List.length tasks) < 2 ^ 53)%Z ->
  (s + Z.of_nat (List.length tasks) < 2 ^ 53)%Z ->
  (f + Z.of_nat (List.length tasks) < 2 ^ 53)%Z ->
  let run := routeAll tasks (self, w) in
  exists (results : list RouteResult.t) (after : StatsData.t) (s' f' : Z),
    fst run = inr results
    /\ List.length results = List.length tasks
    /\ sameRouterButCache (fst (snd run)) self
    /\ World.generateCalls (snd (snd run))
       = (World.generateCalls w + howManyLocal self tasks)%nat
    /\ routerStatistics (snd run) = Some after
    /\ counts (StatsData.totalRequests after)
              (n + Z.of_nat (List.length tasks))
    /\ counts (StatsData.successfulRequests after) s'
    /\ counts (StatsData.failedRequests after) f'
    /\ (s' + f' = s + f + Z.of_nat (howManyLocal self tasks))%Z
    /\ (s <= s')%Z
    /\ (f <= f')%Z.
Proof. apply routeAll_counts. Qed.

Lemma router_accounting_witness :
  let tasks :=
    [helloTask;
     sampleTask code_generation (lit "implement a parser");
     helloTask] in
  let run := routeAll tasks (sampleRouter true, healthyWorld) in
  exists (results : list RouteResult.t) (after : StatsData.t),
    fst run = inr results
    /\ List.length results = 3%nat
    /\ World.generateCalls (snd (snd run)) = 2%nat
    /\ routerStatistics (snd run) = Some after
    /\ StatsData.totalRequests after = 3%float.
Proof.
  cbn zeta.
  destruct (router_accounting
              [helloTask;
               sampleTask code_generation (lit "implement a parser");
               helloTask]
              (sampleRouter true) healthyWorld
              (StatsCollector.emptyData 0) 0 0 0 eq_refl)
    as (results & after & s' & f' & H1 & H2 & _ & H3 & H4 & (H5 & _) & _).
  - vm_compute. reflexivity.
  - exact counts_zero.
  - exact counts_zero.
  - exact counts_zero.
  - reflexivity.
  - reflexivity.
  - reflexivity.
  - exists results, after. split; [exact H1|]. split; [exact H2|].
    split; [rewrite H3; vm_compute; reflexivity|].
    split; [exact H4|exact H5].
Defined.

(** The first phase of the two manual overrides: the decision is announced
    and recorded. *)
Lemma announce_and_record (self : DualKernelRouter.t) (w : World.t)
      (d : RoutingDecision.t) :
  statsReady (DualKernelRouter.stats self) w ->
  let w1 := if RouterCallbacks.onRoutingDecision
                 (DualKernelRouter.callbacks self)
            then World.notify (OnRoutingDecision d) (World.tick w)
            else World.tick w in
  exists (sc1 : StatsCollector.t) (w2 : World.t),
    DualKernelRouter.inStats (StatsCollector.recordDecision d) (self, w1)
    = (inr tt, (DualKernelRouter.setStats sc1 self, w2))
    /\ World.network w2 = World.network w
    /\ World.sent w2 = World.sent w
    /\ World.generateCalls w2 = World.generateCalls w
    /\ World.events w2
       = World.events w
         ++ (if RouterCallbacks.onRoutingDecision
                  (DualKernelRouter.callbacks self)
             then [OnRoutingDecision d] else [])
    /\ StatsCollector.config sc1
       = StatsCollector.config (DualKernelRouter.stats self)
    /\ StatsCollector.logPath sc1
       = StatsCollector.logPath (DualKernelRouter.stats self)
    /\ (forall w'', statsReady sc1 w'')
    /\ (StatsConfig.enabled
          (StatsCollector.config (DualKernelRouter.stats self)) = true ->
        forall before,
          statisticsOf (DualKernelRouter.stats self) w = Some before ->
          exists at_ stamp before',
            sameRecords before' before
            /\ StatsCollector.cache sc1
               = Some (Data (StatsCollector.setLastUpdated
                               stamp
                               (StatsCollector.addDecision at_ d before')))).
Proof.
  intros Hready. cbn zeta.
  destruct (announced_world self w d) as (Hn1 & Hs1 & Hg1 & Hf1 & _ & Hev1).
  cbn zeta in Hn1, Hs1, Hg1, Hf1, Hev1.
  set (w1 := if RouterCallbacks.onRoutingDecision
                  (DualKernelRouter.callbacks self)
             then World.notify (OnRoutingDecision d) (World.tick w)
             else World.tick w) in *.
  destruct (inStats_step (RecordDecision d) self w1
              (statsReady_files _ w w1 Hf1 Hready))
    as (sc1 & w2 & E1 & Hc2 & Hp2 & Hsame2 & Hready2 & Hst2).
  destruct Hsame2 as (_ & Hn2 & Hs2 & Hg2 & _ & _ & Hev2).
  cbn [runStats] in E1.
  exists sc1, w2. split; [exact E1|].
  split; [congruence|]. split; [congruence|]. split; [congruence|].
  split; [now rewrite Hev2|]. split; [exact Hc2|]. split; [exact Hp2|].
  split; [exact Hready2|].
  intros He before Hb.
  destruct (statisticsOf_files _ w w1 before Hf1 Hb)
    as (before' & Hb' & Hsame).
  destruct (Hst2 He before' Hb') as (at_ & stamp & Hc & _).
  now exists at_, stamp, before'.
Qed.

(** X23.  The manual override to the remote kernel asks nothing of the
    router's settings or of the backend: whatever the configuration, the
    availability flag and the prompt, when recording cannot throw
    [forceCerebrum] answers cerebrum with an assessment of confidence 1 for
    the declared task type, sends no request and does not enter
    [generate]; it announces and records one decision, marked as a manual
    override, so that the enabled statistics count one more request and no
    outcome. *)
Theorem forceCerebrum_only_records (self : DualKernelRouter.t)
        (w : World.t) (task : TaskInfo.t) :
  statsReady (DualKernelRouter.stats self) w ->
  let run := DualKernelRouter.forceCerebrum task (self, w) in
  let self' := fst (snd run) in
  let w' := snd (snd run) in
  exists (assessment : TaskAssessment.t) (decision : RoutingDecision.t),
    fst run = inr (Target.cerebrum, assessment)
    /\ TaskAssessment.useCerebellum assessment = false
    /\ TaskAssessment.confidence assessment = 1%float
    /\ TaskAssessment.taskType assessment = TaskInfo.type task
    /\ World.sent w' = World.sent w
    /\ World.generateCalls w' = World.generateCalls w
    /\ sameRouterButCache self' self
    /\ RoutingDecision.target decision = Target.cerebrum
    /\ RoutingDecision.isManualOverride decision = true
    /\ RoutingDecision.assessment decision = assessment
    /\ World.events w'
       = World.events w
         ++ (if RouterCallbacks.onRoutingDecision
                  (DualKernelRouter.callbacks self)
             then [OnRoutingDecision decision] else [])
    /\ (StatsConfig.enabled
          (StatsCollector.config (DualKernelRouter.stats self)) = true ->
        forall before : StatsData.t,
          statisticsOf (DualKernelRouter.stats self) w = Some before ->
          exists (at_ stamp : Z) (before' after : StatsData.t),
            sameRecords before' before
            /\ after = StatsCollector.setLastUpdated
                         stamp
                         (StatsCollector.addDecision at_ decision before')
            /\ StatsCollector.cache (DualKernelRouter.stats self')
               = Some (Data after)
            /\ routerStatistics (self', w') = Some after
            /\ countedRequest before after
            /\ noOutcome before after).
Proof.
  intros Hready. cbn zeta.
  remember (DualKernelRouter.forceCerebrum task (self, w)) as r eqn:R.
  unfold DualKernelRouter.forceCerebrum, bindT in R.
  unfold DualKernelRouter.inWorld, Date_now in R. cbn [fst snd] in R.
  rewrite emit_run in R.
  match type of R with
  | context [DualKernelRouter.inStats (StatsCollector.recordDecision ?d)
                                      (self, _)] =>
      destruct (announce_and_record self w d Hready)
        as (sc1 & w2 & E1 & Hn & Hs & Hg & Hev & Hc & Hp & _ & Hst);
      cbn zeta in E1; rewrite E1 in R;
      set (decision := d) in *
  end.
  unfold retT, ret in R. subst r. cbn [fst snd].
  eexists. exists decision.
  split; [reflexivity|].
  split; [reflexivity|]. split; [reflexivity|]. split; [reflexivity|].
  split; [exact Hs|]. split; [exact Hg|].
  split; [now apply sameRouterButCache_setStats|].
  split; [reflexivity|]. split; [reflexivity|]. split; [reflexivity|].
  split; [exact Hev|].
  intros He before Hb.
  destruct (Hst He before Hb) as (at_ & stamp & before' & Hsame & Hcache).
  exists at_, stamp, before'. eexists.
  split; [exact Hsame|]. split; [reflexivity|].
  cbn [DualKernelRouter.stats DualKernelRouter.setStats].
  split; [exact Hcache|].
  split; [unfold routerStatistics; now apply statisticsOf_cached|].
  now apply totals_after_decision.
Qed.

Lemma forceCerebrum_witness :
  exists assessment : TaskAssessment.t,
    fst (DualKernelRouter.forceCerebrum helloTask
                                        (sampleRouter true, deadWorld))
    = inr (Target.cerebrum, assessment)
    /\ TaskAssessment.taskType assessment = greeting.
Proof.
  destruct (forceCerebrum_only_records (sampleRouter true) deadWorld
                                       helloTask)
    as (assessment & decision & Hr & _ & _ & Ht & _).
  - right. eexists. vm_compute. reflexivity.
  - exists assessment. split; [exact Hr|exact Ht].
Defined.

(** X24.  The manual override to the local kernel ignores the test of
    [route]: whatever the assessment would be, whether or not the
    configuration enables the local kernel and the availability flag is
    set, when recording cannot throw [forceCerebellum] enters [generate]
    exactly once, with the operation chosen by the declared task type, and
    returns the kernel's response as it is, failed or not.  It announces
    the decision but neither the success nor the failure callback, and the
    enabled statistics are those it found with the entry of the announced
    decision appended and the outcome of the response recorded on them:
    one more request and exactly one more outcome. *)
Theorem forceCerebellum_always_asks_the_kernel (self : DualKernelRouter.t)
        (w : World.t) (task : TaskInfo.t) :
  statsReady (DualKernelRouter.stats self) w ->
  let run := DualKernelRouter.forceCerebellum task (self, w) in
  let self' := fst (snd run) in
  let w' := snd (snd run) in
  exists (w2 : World.t) (decision : RoutingDecision.t)
         (response : CerebellumResponse.t),
    World.network w2 = World.network w
    /\ World.sent w2 = World.sent w
    /\ response
       = fst (perform (DualKernelRouter.cerebellum self)
                      (kernelCallFor (TaskInfo.type task)
                                     (TaskInfo.prompt task)) w2)
    /\ fst run = inr response
    /\ World.generateCalls w' = S (World.generateCalls w)
    /\ sameRouterButCache self' self
    /\ RoutingDecision.target decision = Target.cerebellum
    /\ RoutingDecision.isManualOverride decision = true
    /\ TaskAssessment.taskType (RoutingDecision.assessment decision)
       = TaskInfo.type task
    /\ World.events w'
       = World.events w
         ++ (if RouterCallbacks.onRoutingDecision
                  (DualKernelRouter.callbacks self)
             then [OnRoutingDecision decision] else [])
    /\ (StatsConfig.enabled
          (StatsCollector.config (DualKernelRouter.stats self)) = true ->
        forall before : StatsData.t,
          statisticsOf (DualKernelRouter.stats self) w = Some before ->
          exists (at1 stamp1 at2 stamp2 : Z) (before' after : StatsData.t),
            sameRecords before' before
            /\ after
               = StatsCollector.setLastUpdated
                   stamp2
                   (applyCall at2 (outcomeCall task response)
                      (StatsCollector.setLastUpdated
                         stamp1
                         (StatsCollector.addDecision at1 decision before')))
            /\ StatsCollector.cache (DualKernelRouter.stats self')
               = Some (Data after)
            /\ routerStatistics (self', w') = Some after
            /\ countedRequest before after
            /\ countedOutcome response before after).
Proof.
  intros Hready. cbn zeta.
  remember (DualKernelRouter.forceCerebellum task (self, w)) as r eqn:R.
  unfold DualKernelRouter.forceCerebellum, bindT in R.
  unfold DualKernelRouter.inWorld, Date_now in R. cbn [fst snd] in R.
  rewrite emit_run in R.
  match type of R with
  | context [DualKernelRouter.inStats (StatsCollector.recordDecision ?d)
                                      (self, _)] =>
      destruct (announce_and_record self w d Hready)
        as (sc1 & w2 & E1 & Hn & Hs & Hg & Hev & Hc & Hp & Hready1 & Hst);
      cbn zeta in E1; rewrite E1 in R;
      set (decision := d) in *
  end.
  rewrite executeWithCerebellum_run in R. cbn zeta in R.
  cbn [TaskAssessment.taskType] in R.
  change (DualKernelRouter.cerebellum (DualKernelRouter.setStats sc1 self))
    with (DualKernelRouter.cerebellum self) in R.
  set (run := perform (DualKernelRouter.cerebellum self)
                      (kernelCallFor (TaskInfo.type task)
                                     (TaskInfo.prompt task)) w2) in *.
  destruct (perform_frame (DualKernelRouter.cerebellum self)
              (kernelCallFor (TaskInfo.type task) (TaskInfo.prompt task)) w2)
    as (Hg3 & Hn3 & _ & _ & Hev3).
  fold run in Hg3, Hn3, Hev3.
  set (self1 := DualKernelRouter.setStats sc1 self) in *.
  destruct (inStats_step (outcomeCall task (fst run)) self1 (snd run)
              (Hready1 (snd run)))
    as (sc2 & w4 & E4 & Hc4 & Hp4 & Hsame4 & _ & Hst4).
  destruct Hsame4 as (_ & Hn4 & Hs4 & Hg4 & _ & _ & Hev4).
  change (DualKernelRouter.stats self1) with sc1 in *.
  assert (r = (inr (fst run), (DualKernelRouter.setStats sc2 self, w4)))
    as E5.
  { unfold outcomeCall in E4.
    destruct (CerebellumResponse.success (fst run)); cbn [runStats] in E4;
      rewrite E4 in R; exact R. }
  clear R. subst r. cbn [fst snd].
  exists w2, decision, (fst run).
  split; [exact Hn|]. split; [exact Hs|]. split; [reflexivity|].
  split; [reflexivity|]. split; [congruence|].
  split; [apply sameRouterButCache_setStats; congruence|].
  split; [reflexivity|]. split; [reflexivity|]. split; [reflexivity|].
  split; [congruence|].
  intros He before Hb.
  destruct (Hst He before Hb) as (at1 & stamp1 & before' & Hsame & Hc1).
  destruct (Hst4 ltac:(congruence) _
                 (statisticsOf_cached sc1 (snd run) _ Hc1))
    as (at2 & stamp2 & Hc2 & _).
  exists at1, stamp1, at2, stamp2, before'. eexists.
  split; [exact Hsame|]. split; [reflexivity|].
  cbn [DualKernelRouter.stats DualKernelRouter.setStats].
  split; [exact Hc2|].
  split; [unfold routerStatistics; now apply statisticsOf_cached|].
  destruct (totals_after_decision at1 stamp1 decision before' before Hsame)
    as [Hreq Hnone].
  cbn zeta in Hreq, Hnone.
  destruct (totals_after_outcome
              at2 stamp2 task (fst run)
              (StatsCollector.setLastUpdated
                 stamp1 (StatsCollector.addDecision at1 decision before')))
    as [Htot Hout].
  cbn zeta in Htot, Hout.
  remember (StatsCollector.setLastUpdated
              stamp1 (StatsCollector.addDecision at1 decision before'))
    as data1 eqn:Ed1.
  clear Ed1.
  split; [unfold countedRequest in *; congruence|].
  unfold countedOutcome, countedSuccess, countedFailure, noOutcome in *.
  destruct Hnone as (N1 & N2 & N3 & N4).
  destruct (CerebellumResponse.success (fst run));
    destruct Hout as (O1 & O2 & O3 & O4);
    rewrite O1, O2, O3, O4, N1, N2, N3, N4; repeat split.
Qed.

Lemma forceCerebellum_witness :
  exists response : CerebellumResponse.t,
    fst (DualKernelRouter.forceCerebellum helloTask
                                          (freshRouter, healthyWorld))
    = inr response
    /\ World.generateCalls
         (snd (snd (DualKernelRouter.forceCerebellum
                      helloTask (freshRouter, healthyWorld))))
       = 1%nat.
Proof.
  destruct (forceCerebellum_always_asks_the_kernel
              freshRouter healthyWorld helloTask)
    as (w2 & decision & response & _ & _ & _ & Hr & Hg & _).
  - right. eexists. vm_compute. reflexivity.
  - exists response. split; [exact Hr|]. rewrite Hg. reflexivity.
Defined.

(** X25.  After [checkAvailability] the availability flag says whether the
    backend answered the listing request with an [ok] status: exactly one
    request, [GET <baseUrl>/api/tags], is sent, a refused or failed request
    gives [false] rather than an exception, and nothing else of the router
    changes. *)
Theorem checkAvailability_sets_flag (self : DualKernelRouter.t)
        (w : World.t) :
  let run := DualKernelRouter.checkAvailability (self, w) in
  let self' := fst (snd run) in
  let w' := snd (snd run) in
  let request := tagsRequest (DualKernelRouter.cerebellum self) in
  fst run = inr tt
  /\ (DualKernelRouter.cerebellumAvailable self' = true
      <-> exists response,
          World.network w (List.length (World.sent w)) request = inr response
          /\ Response.ok response = true)
  /\ World.sent w' = World.sent w ++ [request]
  /\ World.generateCalls w' = World.generateCalls w
  /\ World.events w' = World.events w
  /\ World.files w' = World.files w
  /\ self' = DualKernelRouter.setAvailable
               (DualKernelRouter.cerebellumAvailable self') self.
Proof.
  cbn zeta.
  unfold DualKernelRouter.checkAvailability, DualKernelRouter.inWorld,
    DualKernelRouter.self_, CerebellumKernel.isAvailable, fetch, lift, gets,
    modify, ret, tagsRequest, bindT, bind.
  cbn [fst snd].
  destruct (World.network w _ _) as [e | response] eqn:En;
    cbn [fst snd DualKernelRouter.setAvailable
         DualKernelRouter.cerebellumAvailable World.send World.sent
         World.generateCalls World.events World.files].
  - split; [reflexivity|]. split; [|repeat split; reflexivity].
    split; [discriminate|]. intros (r & Hr & _). discriminate.
  - split; [reflexivity|]. split; [|repeat split; reflexivity].
    split.
    + intros H. now exists response.
    + intros (r & [= <-] & Hr). exact Hr.
Qed.

(** X26.  A task taken by a keyword rule (content between the tags, an open
    tag alone, or a trigger prefix) and routed locally reaches the backend
    through the plain [generate] with the prompt as the user wrote it,
    tags and prefix included, whatever the declared task type: when
    recording cannot throw, none of the specialised operations is used,
    and every request of the call is either the model listing or a
    generation request for the whole prompt. *)
Theorem keyword_triggered_prompt_is_sent_whole (self : DualKernelRouter.t)
        (w : World.t) (task : TaskInfo.t) :
  keywordRuleFires task ->
  CerebellumConfig.enabled (DualKernelRouter.config self) = true ->
  DualKernelRouter.cerebellumAvailable self = true ->
  statsReady (DualKernelRouter.stats self) w ->
  let run := DualKernelRouter.route task (self, w) in
  let kernel := DualKernelRouter.cerebellum self in
  let a := TaskEvaluator.evaluate (DualKernelRouter.evaluator self) task in
  exists w2 : World.t,
    World.network w2 = World.network w
    /\ World.sent w2 = World.sent w
    /\ (let answer :=
          CerebellumKernel.generate kernel (TaskInfo.prompt task)
                                    None None w2 in
        fst run
        = inr (if CerebellumResponse.success (fst answer)
               then localResult a (fst answer)
               else failedRouteResult (DualKernelRouter.enableFallback self)
                                      a (fst answer))
        /\ World.sent (snd (snd run)) = World.sent (snd answer))
    /\ (forall req,
           In req (World.sent (snd (snd run))) ->
           In req (World.sent w)
           \/ req = tagsRequest kernel
           \/ isGenerateRequest kernel (TaskInfo.prompt task) req).
Proof.
  intros Hk Hen Hav Hready. cbn zeta.
  destruct (keyword_rule_assessment (DualKernelRouter.evaluator self) task Hk)
    as [Hu Hty].
  destruct (route_run self w task Hready)
    as (now & sc1 & w2 & Hn & Hs & Hg & Hev & Hc & Hp & _ & Hst & Hrun).
  cbn zeta in Hrun.
  assert (routesLocally self task = true) as Hgo.
  { unfold routesLocally. now rewrite Hu, Hen, Hav. }
  rewrite Hgo, Hty in Hrun. cbn [kernelCallFor perform] in Hrun.
  destruct Hrun as (sc2 & w4 & Hrun & _ & Hs4 & _).
  exists w2. split; [exact Hn|]. split; [exact Hs|].
  rewrite Hrun. cbn [fst snd].
  split; [split; [reflexivity|exact Hs4]|].
  intros req Hin. rewrite Hs4 in Hin.
  destruct (generate_sent (DualKernelRouter.cerebellum self)
              (TaskInfo.prompt task) None None w2)
    as (extra & Hextra & Hshape).
  rewrite Hextra, Hs in Hin. apply in_app_or in Hin.
  destruct Hin as [Hin | Hin]; [now left|]. right.
  destruct Hshape as [-> | [-> | (g & -> & Hgreq)]]; cbn [In] in Hin.
  - destruct Hin as [<- | []]. now left.
  - destruct Hin as [<- | [<- | []]]; now left.
  - destruct Hin as [<- | [<- | [<- | []]]];
      [now left | now left | now right].
Qed.

Lemma keyword_triggered_prompt_witness :
  let task := sampleTask text_summary (lit "cb, shorten this text") in
  exists result response,
    fst (DualKernelRouter.route task (sampleRouter true, healthyWorld))
    = inr result
    /\ RouteResult.cerebellumResponse result = Some response
    /\ CerebellumResponse.success response = true
    /\ forall req,
        In req (World.sent
                  (snd (snd (DualKernelRouter.route
                               task (sampleRouter true, healthyWorld))))) ->
        req = tagsRequest defaultKernel
        \/ isGenerateRequest defaultKernel (TaskInfo.prompt task) req.
Proof.
  cbn zeta.
  destruct (keyword_triggered_prompt_is_sent_whole
              (sampleRouter true) healthyWorld
              (sampleTask text_summary (lit "cb, shorten this text")))
    as (w2 & _ & _ & _ & Hreq).
  - right. right. vm_compute. reflexivity.
  - reflexivity.
  - reflexivity.
  - right. eexists. vm_compute. reflexivity.
  - eexists. eexists. split; [vm_compute; reflexivity|].
    split; [reflexivity|]. split; [reflexivity|].
    intros req Hin. destruct (Hreq req Hin) as [[] | H]. exact H.
Defined.

(** X27.  A statistics log without entries stops the router.  When the
    statistics are enabled, nothing is cached and the file parses to a
    document that has no [entries], [route], [forceCerebrum] and
    [forceCerebellum] announce their decision and then reject with the
    exception of [recordDecision]: no request is sent and [generate] is
    not entered, whatever the task. *)
Theorem log_without_entries_stops_the_router (self : DualKernelRouter.t)
        (w : World.t) (task : TaskInfo.t) (truthy : bool) :
  StatsConfig.enabled
    (StatsCollector.config (DualKernelRouter.stats self)) = true ->
  StatsCollector.cache (DualKernelRouter.stats self) = None ->
  World.files w (StatsCollector.logPath (DualKernelRouter.stats self))
  = NoEntries truthy ->
  (let run := DualKernelRouter.route task (self, w) in
   (exists e, fst run = inl e)
   /\ World.sent (snd (snd run)) = World.sent w
   /\ World.generateCalls (snd (snd run)) = World.generateCalls w
   /\ World.files (snd (snd run)) = World.files w
   /\ exists now,
       World.events (snd (snd run))
       = World.events w
         ++ (if RouterCallbacks.onRoutingDecision
                  (DualKernelRouter.callbacks self)
             then [OnRoutingDecision (routeDecision self task now)]
             else []))
  /\ (let run := DualKernelRouter.forceCerebrum task (self, w) in
      (exists e, fst run = inl e)
      /\ World.sent (snd (snd run)) = World.sent w
      /\ World.generateCalls (snd (snd run)) = World.generateCalls w
      /\ World.files (snd (snd run)) = World.files w)
  /\ (let run := DualKernelRouter.forceCerebellum task (self, w) in
      (exists e, fst run = inl e)
      /\ World.sent (snd (snd run)) = World.sent w
      /\ World.generateCalls (snd (snd run)) = World.generateCalls w
      /\ World.files (snd (snd run)) = World.files w).
Proof.
  intros He Hc Hfile.
  assert (forall d,
             let w1 := if RouterCallbacks.onRoutingDecision
                            (DualKernelRouter.callbacks self)
                       then World.notify (OnRoutingDecision d) (World.tick w)
                       else World.tick w in
             exists sc' w',
               DualKernelRouter.inStats (StatsCollector.recordDecision d)
                                        (self, w1)
               = (inl StatsCollector.noEntriesError,
                  (DualKernelRouter.setStats sc' self, w'))
               /\ World.sent w' = World.sent w
               /\ World.generateCalls w' = World.generateCalls w
               /\ World.files w' = World.files w
               /\ World.events w'
                  = World.events w
                    ++ (if RouterCallbacks.onRoutingDecision
                             (DualKernelRouter.callbacks self)
                        then [OnRoutingDecision d] else [])) as Hstop.
  { intros d. cbn zeta.
    destruct (announced_world self w d)
      as (Hn1 & Hs1 & Hg1 & Hf1 & _ & Hev1).
    cbn zeta in Hn1, Hs1, Hg1, Hf1, Hev1.
    set (w1 := if RouterCallbacks.onRoutingDecision
                    (DualKernelRouter.callbacks self)
               then World.notify (OnRoutingDecision d) (World.tick w)
               else World.tick w) in *.
    assert (loadedDocument (DualKernelRouter.stats self) w1 = Shapeless)
      as Hd.
    { unfold loadedDocument, StatsCollector.loadData.
      now rewrite Hc, Hf1, Hfile. }
    destruct (inStats_throws (RecordDecision d) self w1 He Hd eq_refl)
      as (sc' & w' & E & _ & _ & Hf & Hsame).
    destruct Hsame as (_ & _ & Hs2 & Hg2 & _ & _ & Hev2).
    cbn [runStats] in E. exists sc', w'. split; [exact E|].
    split; [congruence|]. split; [congruence|]. split; [congruence|].
    now rewrite Hev2. }
  split; [|split].
  - cbn zeta.
    remember (DualKernelRouter.route task (self, w)) as r eqn:R.
    unfold DualKernelRouter.route, bindT, DualKernelRouter.self_, lift, gets
      in R.
    cbn [fst snd] in R.
    unfold DualKernelRouter.inWorld, Date_now in R. cbn [fst snd] in R.
    rewrite emit_run in R.
    match type of R with
    | context [DualKernelRouter.inStats (StatsCollector.recordDecision ?d)
                                        (self, _)] =>
        destruct (Hstop d) as (sc' & w' & E & Hs & Hg & Hf & Hev);
        cbn zeta in E; rewrite E in R
    end.
    subst r. cbn [fst snd].
    split; [eexists; reflexivity|]. split; [exact Hs|].
    split; [exact Hg|]. split; [exact Hf|].
    exists (World.clock w (World.reads w)). exact Hev.
  - cbn zeta.
    remember (DualKernelRouter.forceCerebrum task (self, w)) as r eqn:R.
    unfold DualKernelRouter.forceCerebrum, bindT in R.
    unfold DualKernelRouter.inWorld, Date_now in R. cbn [fst snd] in R.
    rewrite emit_run in R.
    match type of R with
    | context [DualKernelRouter.inStats (StatsCollector.recordDecision ?d)
                                        (self, _)] =>
        destruct (Hstop d) as (sc' & w' & E & Hs & Hg & Hf & Hev);
        cbn zeta in E; rewrite E in R
    end.
    subst r. cbn [fst snd].
    split; [eexists; reflexivity|]. split; [exact Hs|].
    split; [exact Hg|exact Hf].
  - cbn zeta.
    remember (DualKernelRouter.forceCerebellum task (self, w)) as r eqn:R.
    unfold DualKernelRouter.forceCerebellum, bindT in R.
    unfold DualKernelRouter.inWorld, Date_now in R. cbn [fst snd] in R.
    rewrite emit_run in R.
    match type of R with
    | context [DualKernelRouter.inStats (StatsCollector.recordDecision ?d)
                                        (self, _)] =>
        destruct (Hstop d) as (sc' & w' & E & Hs & Hg & Hf & Hev);
        cbn zeta in E; rewrite E in R
    end.
    subst r. cbn [fst snd].
    split; [eexists; reflexivity|]. split; [exact Hs|].
    split; [exact Hg|exact Hf].
Qed.

(** The greeting routed by a router that finds an empty object in its
    statistics file. *)
Lemma log_without_entries_router_witness :
  exists e,
    fst (DualKernelRouter.route
           helloTask
           (sampleRouter true,
            withFiles (fun _ => NoEntries true) healthyWorld))
    = inl e.
Proof.
  destruct (log_without_entries_stops_the_router
              (sampleRouter true)
              (withFiles (fun _ => NoEntries true) healthyWorld)
              helloTask true eq_refl eq_refl eq_refl) as [[He _] _].
  exact He.
Defined.
